(** * MedRAX NIfTI tools: slice extraction, rotation, rescaling, drivers

    A shallow embedding of [src/medrax/tools/nifti.py] (the single-slice tool
    [NiftiProcessorTool]) and [src/medrax/tools/nifti2image.py] (the batch
    converter [convert_nii_to_png]), with the parts of Python, NumPy,
    posixpath and the filesystem that the two files rely on.

    - float64 values are IEEE 754 binary64 numbers ([spec_float] with
      [prec = 53], [emax = 1024]), with the library's own rounding;
    - an n-dimensional array is a shape and its elements in C order;
    - Python exceptions are values of [base_exception]; a computation that
      touches the filesystem is a function [world -> result A * world], the
      world surviving a raised exception as it does in Python;
    - dictionaries are finite maps from strings. *)

From Stdlib Require Import ZArith Lia List String Ascii Bool SpecFloat DecimalString DecimalNat.
From stdpp Require Import gmap strings list.

Local Open Scope string_scope.
Local Open Scope list_scope.
Local Open Scope Z_scope.

(** ** Python exceptions and results *)

(** The exception classes the two files and their libraries raise; all of
    them derive from [Exception]. *)
Inductive exc_class :=
  | FileNotFoundError
  | IsADirectoryError
  | NotADirectoryError
  | FileExistsError
  | ImageFileError
  | ValueError
  | TypeError
  | IndexError
  | UnboundLocalError.

(** [BaseException] and its subclasses: [Exception c msg] is an instance of
    class [c] (a subclass of [Exception]) whose [str] is [msg]; the other two
    are the classes an [except Exception] clause does not catch. *)
Inductive base_exception :=
  | Exception (c : exc_class) (msg : string)
  | KeyboardInterrupt
  | SystemExit (code : Z).

Inductive result (A : Type) :=
  | Return (a : A)
  | Raise (e : base_exception).
Arguments Return {A} a.
Arguments Raise {A} e.

Definition is_Return {A} (r : result A) : bool :=
  match r with Return _ => true | Raise _ => false end.

Definition rbind {A B} (r : result A) (k : A -> result B) : result B :=
  match r with
  | Return a => k a
  | Raise e => Raise e
  end.

(** ** float64 *)

Module F64.

Abbreviation float := spec_float.
Definition prec : Z := 53.
Definition emax : Z := 1024.

Definition sub : float -> float -> float := SFsub prec emax.
Definition mul : float -> float -> float := SFmul prec emax.
Definition div : float -> float -> float := SFdiv prec emax.
Definition ltb : float -> float -> bool := SFltb.
Definition eqb : float -> float -> bool := SFeqb.

(** Conversion of a Python [int] to float64. *)
Definition of_int (z : Z) : float := binary_normalize prec emax z 0 false.

Definition is_nan (x : float) : bool :=
  match x with S754_nan => true | _ => false end.

Definition is_finite (x : float) : bool :=
  match x with S754_zero _ | S754_finite _ _ _ => true | _ => false end.

Definition is_zero (x : float) : bool :=
  match x with S754_zero _ => true | _ => false end.

(** The integer part of a finite number, rounded toward zero. *)
Definition trunc (x : float) : option Z :=
  match x with
  | S754_zero _ => Some 0
  | S754_finite s m e =>
      let a := Z.shiftl (Z.pos m) e in
      Some (if s then - a else a)
  | S754_infinity _ | S754_nan => None
  end.

End F64.

Abbreviation float := F64.float.

(** ** NumPy arrays *)

Module Np.

Record ndarray (A : Type) := mk_ndarray { shape : list nat; elems : list A }.
Arguments mk_ndarray {A} shape elems.
Arguments shape {A} _.
Arguments elems {A} _.

Definition ndim {A} (a : ndarray A) : nat := length (shape a).

(** Number of elements of an array of this shape. *)
Definition size_of (sh : list nat) : nat := fold_right Nat.mul 1%nat sh.

(** All the multi-indices of a shape, in C (row-major) order. *)
Fixpoint indices (sh : list nat) : list (list nat) :=
  match sh with
  | [] => [[]]
  | n :: rest => flat_map (fun i => map (cons i) (indices rest)) (seq 0 n)
  end.

(** Position of a multi-index in the C-order element list. *)
Fixpoint offset (sh idx : list nat) : nat :=
  match sh, idx with
  | _ :: rest, i :: idx' => (i * size_of rest + offset rest idx')%nat
  | _, _ => 0%nat
  end.

Definition wf {A} (a : ndarray A) : Prop := length (elems a) = size_of (shape a).

(** [a[idx]] for a full multi-index; [d] is only read out of range. *)
Definition item {A} (d : A) (a : ndarray A) (idx : list nat) : A :=
  nth (offset (shape a) idx) (elems a) d.

(** The array of shape [sh] whose element at [idx] is [f idx]. *)
Definition build {A} (sh : list nat) (f : list nat -> A) : ndarray A :=
  mk_ndarray sh (map f (indices sh)).

Definition in_range (sh idx : list nat) : Prop := Forall2 (fun i n => (i < n)%nat) idx sh.

Definition map_elems {A B} (f : A -> B) (a : ndarray A) : ndarray B :=
  mk_ndarray (shape a) (map f (elems a)).

Section Indexing.
Context {A : Type} (d : A).

(** [a[:, :, s]]: basic indexing with two full slices and one integer. *)
Definition index_axis2 (a : ndarray A) (s : nat) : result (ndarray A) :=
match shape a with
| X :: Y :: Z :: rest =>
if (s <? Z)%nat then
  Return (build (X :: Y :: rest)
            (fun idx => match idx with
                        | i :: j :: r => item d a (i :: j :: s :: r)
                        | _ => d
                        end))
else Raise (Exception IndexError "index out of bounds for axis 2")
| _ => Raise (Exception IndexError "too many indices for array")
end.

(** [a[:, :, s, v]]. *)
Definition index_axis23 (a : ndarray A) (s v : nat) : result (ndarray A) :=
match shape a with
| X :: Y :: Z :: W :: rest =>
if (s <? Z)%nat then
  if (v <? W)%nat then
    Return (build (X :: Y :: rest)
              (fun idx => match idx with
                          | i :: j :: r => item d a (i :: j :: s :: v :: r)
                          | _ => d
                          end))
  else Raise (Exception IndexError "index out of bounds for axis 3")
else Raise (Exception IndexError "index out of bounds for axis 2")
| _ => Raise (Exception IndexError "too many indices for array")
end.

(** [numpy.flip(m, 0)], [numpy.flip(m, 1)] and [numpy.transpose] with the
first two axes exchanged, on an array of at least two dimensions. *)
Definition flip0 (m : ndarray A) : ndarray A :=
match shape m with
| X :: rest =>
build (X :: rest)
  (fun idx => match idx with
              | i :: r => item d m ((X - 1 - i)%nat :: r)
              | _ => d
              end)
| _ => m
end.

Definition flip1 (m : ndarray A) : ndarray A :=
match shape m with
| X :: Y :: rest =>
build (X :: Y :: rest)
  (fun idx => match idx with
              | i :: j :: r => item d m (i :: (Y - 1 - j)%nat :: r)
              | _ => d
              end)
| _ => m
end.

Definition swap01 (m : ndarray A) : ndarray A :=
match shape m with
| X :: Y :: rest =>
build (Y :: X :: rest)
  (fun idx => match idx with
              | i :: j :: r => item d m (j :: i :: r)
              | _ => d
              end)
| _ => m
end.

(** [numpy.rot90(m, k)] with the default [axes=(0, 1)]:
<<
k %= 4
if k == 0: return m[:]
if k == 2: return flip(flip(m, axes[0]), axes[1])
...
if k == 1: return transpose(flip(m, axes[1]), axes_list)
else:      return flip(transpose(m, axes_list), axes[1])
>>
and a [ValueError] when the array has fewer than two dimensions. *)
Definition rot90 (m : ndarray A) (k : Z) : result (ndarray A) :=
if (ndim m <? 2)%nat then
Raise (Exception ValueError "Axes=(0, 1) out of range for array")
else
let k := k mod 4 in
if k =? 0 then Return m
else if k =? 2 then Return (flip1 (flip0 m))
else if k =? 1 then Return (swap01 (flip1 m))
else Return (flip1 (swap01 m)).
End Indexing.

(** [ndarray.min()] and [ndarray.max()] of a float64 array: the reduction
    keeps the accumulator when it is smaller (larger) or NaN, so a NaN
    anywhere is the result; an empty array has no minimum. *)
Definition minimum (acc x : float) : float :=
  if F64.ltb acc x || F64.is_nan acc then acc else x.

Definition maximum (acc x : float) : float :=
  if F64.ltb x acc || F64.is_nan acc then acc else x.

Definition amin (a : ndarray float) : result float :=
  match elems a with
  | [] => Raise (Exception ValueError
                   "zero-size array to reduction operation minimum which has no identity")
  | x :: l => Return (fold_left minimum l x)
  end.

Definition amax (a : ndarray float) : result float :=
  match elems a with
  | [] => Raise (Exception ValueError
                   "zero-size array to reduction operation maximum which has no identity")
  | x :: l => Return (fold_left maximum l x)
  end.

End Np.

Abbreviation ndarray := Np.ndarray.

(** ** Python strings *)

Module Str.

Definition slash : ascii := "/"%char.
Definition dot : ascii := "."%char.
Definition zero : ascii := "0"%char.

(** [s.split(c)]: the pieces between the occurrences of [c]; never empty. *)
Fixpoint split_on (c : ascii) (s : string) : list string :=
  match s with
  | EmptyString => [""]
  | String a s' =>
      if Ascii.eqb a c then "" :: split_on c s'
      else match split_on c s' with
           | h :: t => String a h :: t
           | [] => [String a ""]
           end
  end.

(** [c.join(l)]. *)
Fixpoint join (c : string) (l : list string) : string :=
  match l with
  | [] => ""
  | [x] => x
  | x :: rest => x +:+ c +:+ join c rest
  end.

Definition startswith (s pre : string) : bool := String.prefix pre s.

(** [s.endswith(suf)]: read backwards, [s] starts with [suf] read backwards. *)
Definition endswith (s suf : string) : bool :=
  String.prefix (String.rev suf) (String.rev s).

(** [s.rstrip(c)]. *)
Fixpoint rstrip (c : ascii) (s : string) : string :=
  match s with
  | EmptyString => ""
  | String a s' =>
      match rstrip c s' with
      | EmptyString => if Ascii.eqb a c then "" else String a ""
      | r => String a r
      end
  end.

Fixpoint all_chars (c : ascii) (s : string) : bool :=
  match s with
  | EmptyString => true
  | String a s' => Ascii.eqb a c && all_chars c s'
  end.

Fixpoint repeat_char (c : ascii) (n : nat) : string :=
  match n with
  | O => ""
  | S n' => String c (repeat_char c n')
  end.

(** [str(n)] for a non-negative [int]. *)
Definition of_nat (n : nat) : string :=
  DecimalString.NilEmpty.string_of_uint (Nat.to_uint n).

(** [s.zfill(width)]: zeros on the left up to [width], after a leading sign. *)
Definition zfill (width : nat) (s : string) : string :=
  let n := String.length s in
  if (width <=? n)%nat then s
  else
    match s with
    | String a s' =>
        if Ascii.eqb a "+"%char || Ascii.eqb a "-"%char
        then String a (repeat_char zero (width - n) +:+ s')
        else repeat_char zero (width - n) +:+ s
    | EmptyString => repeat_char zero width
    end.

End Str.

(** ** posixpath *)

Module Posixpath.

Definition isabs (p : string) : bool := Str.startswith p "/".

(** [os.path.basename]: what follows the last slash. *)
Definition basename (p : string) : string :=
  List.last (Str.split_on Str.slash p) "".

(** [os.path.dirname]: what precedes the last slash, the slash dropped
    unless the head is only slashes. *)
Definition dirname (p : string) : string :=
  let comps := Str.split_on Str.slash p in
  let head := String.concat "" (map (fun c => c +:+ "/") (removelast comps)) in
  if negb (String.eqb head "") && negb (Str.all_chars Str.slash head)
  then Str.rstrip Str.slash head
  else head.

(** [os.path.join(a, b)]. *)
Definition join (a b : string) : string :=
  if Str.startswith b "/" then b
  else if String.eqb a "" || Str.endswith a "/" then a +:+ b
  else a +:+ "/" +:+ b.

(** One step of the loop of [normpath] over the components; [acc] is
    [new_comps] reversed. *)
Definition norm_step (initial_slashes : nat) (acc : list string) (comp : string)
  : list string :=
  if String.eqb comp "" || String.eqb comp "." then acc
  else if negb (String.eqb comp "..")
          || (Nat.eqb initial_slashes 0 && match acc with [] => true | _ => false end)
          || match acc with h :: _ => String.eqb h ".." | [] => false end
       then comp :: acc
       else match acc with _ :: t => t | [] => acc end.

(** [os.path.normpath]. *)
Definition normpath (path : string) : string :=
  if String.eqb path "" then "."
  else
    let initial_slashes :=
      if Str.startswith path "/" then
        if Str.startswith path "//" && negb (Str.startswith path "///")
        then 2%nat else 1%nat
      else 0%nat in
    let comps := rev (fold_left (norm_step initial_slashes)
                        (Str.split_on Str.slash path) []) in
    let p := Str.repeat_char Str.slash initial_slashes +:+ Str.join "/" comps in
    if String.eqb p "" then "." else p.

(** [os.path.abspath], the current directory given. *)
Definition abspath (cwd path : string) : string :=
  normpath (if isabs path then path else join cwd path).

(** A normalized absolute path, its parent, its parent's parent, ... up to
    but not including the root: the directories [os.makedirs] walks through
    (it calls itself on the head of [os.path.split]). *)
Fixpoint ancestors_upto (fuel : nat) (p : string) : list string :=
  match fuel with
  | O => []
  | S fuel' =>
      if String.eqb p "" || Str.all_chars Str.slash p then []
      else p :: ancestors_upto fuel' (dirname p)
  end.

Definition ancestors (p : string) : list string := ancestors_upto (String.length p) p.

End Posixpath.

(** ** pathlib *)

Module Pathlib.

(** The root [PurePosixPath] keeps: two leading slashes stay two, one or
    three and more become one. *)
Definition root_of (p : string) : string :=
  if Str.startswith p "/" then
    if Str.startswith p "//" && negb (Str.startswith p "///") then "//" else "/"
  else "".

(** A component [PurePosixPath] drops: an empty one or a single dot. *)
Definition dropped (comp : string) : bool := String.eqb comp "" || String.eqb comp ".".

(** [pathlib.Path(p).as_posix()]: empty and single-dot components go, and
    with them repeated and trailing slashes; [..] stays. *)
Definition as_posix (p : string) : string :=
  let parts := List.filter (fun comp => negb (dropped comp)) (Str.split_on Str.slash p) in
  let s := root_of p +:+ Str.join "/" parts in
  if String.eqb s "" then "." else s.

End Pathlib.

(** ** Python values, files and the world *)

(** The values the metadata dictionary holds. *)
#[local] Set Warnings "-register-all".
Inductive pyval :=
  | PNone
  | PInt (z : Z)
  | PFloat (x : float)
  | PStr (s : string)
  | PTuple (l : list Z)
  | PList (l : list pyval)
  | PHeader (fields : list (string * string)).

(** [ndarray.tolist()]: nested lists, one level per axis. *)
Fixpoint tolist_from (sh : list nat) (elems : list float) (base : nat) : pyval :=
  match sh with
  | [] => PFloat (nth base elems S754_nan)
  | n :: rest =>
      PList (map (fun i => tolist_from rest elems (base + i * Np.size_of rest)%nat)
               (seq 0 n))
  end.

Definition tolist (a : ndarray float) : pyval := tolist_from (Np.shape a) (Np.elems a) 0.

(** What nibabel makes of a NIfTI file: the voxel array as [get_fdata()]
    returns it (always float64), the affine matrix and the header fields. *)
Record nifti_image := mk_nifti {
  fdata : ndarray float;
  affine : ndarray float;
  header : list (string * string)
}.

(** A raster file as written: the 8-bit array handed to PIL, or the float
    array and colour map handed to matplotlib. *)
Inductive raster :=
  | GrayL (pix : ndarray Z)
  | Colormapped (cmap : string) (img : ndarray float).

(** A regular file, by what reading it gives: a volumetric image that
    decodes, a file on which decoding raises, or a raster written earlier. *)
Inductive file :=
  | NiftiFile (img : nifti_image)
  | BadFile (c : exc_class) (msg : string)
  | RasterFile (r : raster).

Inductive event :=
  | EPrint (line : string)
  | EMakedirs (path : string)
  | ELoad (path : string)
  | EWrite (path : string) (r : raster).

(** The process's surroundings: working directory, the directories and
    regular files that exist (by normalized absolute path), the hexadecimal
    strings [uuid.uuid4().hex] will return, and the effects so far, latest
    first. *)
Record world := mk_world {
  cwd : string;
  dirs : gset string;
  files : gmap string file;
  uuid_hex : nat -> string;
  uuid_drawn : nat;
  trace : list event
}.

Definition log (ev : event) (w : world) : world :=
  mk_world (cwd w) (dirs w) (files w) (uuid_hex w) (uuid_drawn w) (ev :: trace w).

(** Computations in a world that may raise. *)
Definition M (A : Type) : Type := world -> result A * world.

Definition ret {A} (a : A) : M A := fun w => (Return a, w).
Definition raise {A} (e : base_exception) : M A := fun w => (Raise e, w).
Definition lift {A} (r : result A) : M A := fun w => (r, w).
Definition bind {A B} (m : M A) (k : A -> M B) : M B :=
  fun w => match m w with
           | (Return a, w') => k a w'
           | (Raise e, w') => (Raise e, w')
           end.

Declare Scope py_scope.
Delimit Scope py_scope with py.
Notation "'let*' x ':=' m 'in' k" := (bind m (fun x => k))
  (at level 10, x pattern, m at level 100, k at level 200) : py_scope.

(** [try: body / except Exception as e: handler(e)]: a [KeyboardInterrupt]
    or [SystemExit] passes through. *)
Definition try_except_Exception {A} (body : M A) (handler : exc_class -> string -> M A) : M A :=
  fun w => match body w with
           | (Raise (Exception c msg), w') => handler c msg w'
           | r => r
           end.

(** [try: body except (c1, ..., cn) as e: handler e]. No class of
    [exc_class] derives from another one of them, so the clause catches the
    instances of the listed classes and no others. *)
Definition exc_class_eqb (a b : exc_class) : bool :=
  match a, b with
  | FileNotFoundError, FileNotFoundError
  | IsADirectoryError, IsADirectoryError
  | NotADirectoryError, NotADirectoryError
  | FileExistsError, FileExistsError
  | ImageFileError, ImageFileError
  | ValueError, ValueError
  | TypeError, TypeError
  | IndexError, IndexError
  | UnboundLocalError, UnboundLocalError => true
  | _, _ => false
  end.

Definition try_except {A} (classes : list exc_class) (body : M A)
    (handler : exc_class -> string -> M A) : M A :=
  fun w => match body w with
           | (Raise (Exception c msg), w') =>
               if existsb (exc_class_eqb c) classes then handler c msg w'
               else (Raise (Exception c msg), w')
           | r => r
           end.

(** The builtin [exit(code)]. *)
Definition exit {A} (code : Z) : M A := raise (SystemExit code).

Definition print (line : string) : M unit := fun w => (Return tt, log (EPrint line) w).

Module Os.

Definition is_dir (w : world) (q : string) : bool :=
  (negb (String.eqb q "") && Str.all_chars Str.slash q) || bool_decide (q ∈ dirs w).

Definition is_file (w : world) (q : string) : bool :=
  bool_decide (is_Some (files w !! q)).

(** [os.path.exists]: the empty path names nothing, and a path with a
    trailing slash only a directory. The world has no symbolic links, and a
    name is looked up by its normalized absolute form, [..] taken off as
    [normpath] does: a name that leaves a missing directory again by [..] is
    found here where the kernel, which looks every component up, does not
    find it. *)
Definition path_exists (w : world) (p : string) : bool :=
  let q := Posixpath.abspath (cwd w) p in
  negb (String.eqb p "")
  && (is_dir w q || (is_file w q && negb (Str.endswith p "/"))).

(** [os.makedirs(p, exist_ok=True)]: every missing directory on the way is
    created; a regular file on the way is an error. *)
Definition makedirs (p : string) : M unit := fun w =>
  let q := Posixpath.abspath (cwd w) p in
  let w1 := log (EMakedirs p) w in
  if String.eqb p "" then
    (Raise (Exception FileNotFoundError "No such file or directory: ''"), w1)
  else if is_file w q then
    (Raise (Exception FileExistsError ("File exists: " +:+ p)), w1)
  else if existsb (is_file w) (Posixpath.ancestors q) then
    (Raise (Exception NotADirectoryError ("Not a directory: " +:+ p)), w1)
  else
    (Return tt,
     mk_world (cwd w1) (dirs w1 ∪ list_to_set (Posixpath.ancestors q)) (files w1)
       (uuid_hex w1) (uuid_drawn w1) (trace w1)).

(** Whether the regular file [p] can be created or replaced: it is not a
    directory and its parent is one. *)
Definition can_write (w : world) (p : string) : bool :=
  let q := Posixpath.abspath (cwd w) p in
  let parent := Posixpath.dirname q in
  negb (String.eqb p "") && negb (is_dir w q)
  && negb (is_file w parent) && is_dir w parent.

(** Creating or replacing the regular file [p] with a raster. *)
Definition write_raster (p : string) (r : raster) : M unit := fun w =>
  let q := Posixpath.abspath (cwd w) p in
  let parent := Posixpath.dirname q in
  if String.eqb p "" then
    (Raise (Exception FileNotFoundError "No such file or directory: ''"), w)
  else if is_dir w q then
    (Raise (Exception IsADirectoryError ("Is a directory: " +:+ p)), w)
  else if is_file w parent then
    (Raise (Exception NotADirectoryError ("Not a directory: " +:+ p)), w)
  else if negb (is_dir w parent) then
    (Raise (Exception FileNotFoundError ("No such file or directory: " +:+ p)), w)
  else
    (Return tt,
     mk_world (cwd w) (dirs w) (<[q := RasterFile r]> (files w))
       (uuid_hex w) (uuid_drawn w) (EWrite p r :: trace w)).

End Os.

(** [uuid.uuid4().hex]. *)
Definition uuid4_hex : M string := fun w =>
  (Return (uuid_hex w (uuid_drawn w)),
   mk_world (cwd w) (dirs w) (files w) (uuid_hex w) (S (uuid_drawn w)) (trace w)).

(** [nibabel.load(p)] followed by [get_fdata()]. nibabel first rewrites the
    name, [pathlib.Path(p).expanduser().as_posix()], and asks [os.stat] for
    what the rewritten name names, so that a trailing slash is gone by then;
    a directory is no image. Names are taken as they are written: a leading
    [~] is not expanded, the world has no home directories. *)
Definition nib_load (p : string) : M nifti_image := fun w =>
  let filename := Pathlib.as_posix p in
  let q := Posixpath.abspath (cwd w) filename in
  let w1 := log (ELoad p) w in
  match files w !! q with
  | Some (NiftiFile img) => (Return img, w1)
  | Some (BadFile c msg) => (Raise (Exception c msg), w1)
  | Some (RasterFile _) =>
      (Raise (Exception ImageFileError ("Cannot work out file type of " +:+ filename)), w1)
  | None =>
      if Os.is_dir w q then
        (Raise (Exception ImageFileError ("Cannot work out file type of " +:+ filename)), w1)
      else
        (Raise (Exception FileNotFoundError
                  ("No such file or no access: '" +:+ filename +:+ "'")), w1)
  end.

(** ** [src/medrax/tools/nifti.py]: the single-slice tool *)

(** [numpy.ndarray.astype(np.uint8)] on one float64 element: the C
    conversion truncates toward zero when the integer part fits in 8 bits;
    for NaN, the infinities and integer parts outside [0, 255] C leaves the
    result to the platform, [cast_undefined], of which the low 8 bits are
    kept. *)
Definition astype_uint8 (cast_undefined : float -> Z) (x : float) : Z :=
  match F64.trunc x with
  | Some z => if (0 <=? z) && (z <=? 255) then z else cast_undefined x mod 256
  | None => cast_undefined x mod 256
  end.

(** The tool object: [self.temp_dir], as [str] gives the [Path]. *)
Record NiftiProcessorTool := mk_tool { temp_dir : string }.

(** [str(path / name)] for a relative [name]. *)
Definition path_child (dir name : string) : string :=
  if String.eqb dir "." then name
  else if Str.endswith dir "/" then dir +:+ name
  else dir +:+ "/" +:+ name.

(** [PIL.Image.fromarray(a)] on an 8-bit array: two dimensions give a
    grey-scale image, three a multi-band one when the last axis has two to
    four entries; any other shape is a [TypeError]. *)
Definition Image_fromarray (a : ndarray Z) : result raster :=
  match Np.shape a with
  | [_; _] => Return (GrayL a)
  | [_; _; c] =>
      if (Nat.leb 2 c && Nat.leb c 4)%bool then Return (GrayL a)
      else Raise (Exception TypeError "Cannot handle this data type")
  | _ => Raise (Exception TypeError "Cannot handle this data type")
  end.

Section Nifti.
Variable cast_undefined : float -> Z.

Local Open Scope py_scope.

(** [_rotate_image]: [rotations = rotation_angle // 90], then
[np.rot90(img_array, k=rotations)]. The angle is an [Optional[int]];
[None // 90] is a [TypeError]. *)
Definition _rotate_image (img_array : ndarray float) (rotation_angle : option Z)
: result (ndarray float) :=
match rotation_angle with
| None => Raise (Exception TypeError
               "unsupported operand type(s) for //: 'NoneType' and 'int'")
| Some angle =>
let rotations := angle / 90 in
Np.rot90 S754_nan img_array rotations
end.

(** The slice taken by [_process_nifti]: [img_array[:, :, 0, 0]] when the
array has four dimensions, [img_array[:, :, 0]] otherwise. *)
Definition first_slice (img_array : ndarray float) : result (ndarray float) :=
if (Np.ndim img_array =? 4)%nat
then Np.index_axis23 S754_nan img_array 0 0
else Np.index_axis2 S754_nan img_array 0.

(** [((p - p.min()) / (p.max() - p.min()) * 255).astype(np.uint8)].
Dividing by zero and the invalid cast are NumPy warnings, not
exceptions. *)
Definition normalize (p : ndarray float) : result (ndarray Z) :=
rbind (Np.amin p) (fun lo =>
rbind (Np.amax p) (fun hi =>
rbind (Np.amin p) (fun lo' =>
let range := F64.sub hi lo' in
Return (Np.map_elems
      (fun x => astype_uint8 cast_undefined
                  (F64.mul (F64.div (F64.sub x lo) range) (F64.of_int 255)))
      p)))).

Definition base_metadata (img : nifti_image) : gmap string pyval :=
let img_array := fdata img in
<["header_info" := PHeader (header img)]>
(<["affine" := tolist (affine img)]>
(<["shape" := PTuple (map Z.of_nat (Np.shape img_array))]>
(<["dimensions" := PInt (Z.of_nat (length (Np.shape img_array)))]> ∅))).

Definition _process_nifti (nifti_path : string) (rotation_angle : option Z)
: M (ndarray Z * gmap string pyval) :=
let* nii_img := nib_load nifti_path in
let img_array := fdata nii_img in
let metadata := base_metadata nii_img in
let* slice_data := lift (first_slice img_array) in
let* processed_slice := lift (_rotate_image slice_data rotation_angle) in
let* processed_slice := lift (normalize processed_slice) in
ret (processed_slice, metadata).

(** The body of the [try] in [_run]. *)
Definition _run_body (self : NiftiProcessorTool) (nifti_path : string)
(rotation_angle : option Z) : M (gmap string string * gmap string pyval) :=
let* (img_array, metadata) := _process_nifti nifti_path rotation_angle in
let* hex := uuid4_hex in
let output_path :=
path_child (temp_dir self)
("processed_nifti_" +:+ String.substring 0 8 hex +:+ ".png") in
let* img := lift (Image_fromarray img_array) in
let* _ := Os.write_raster output_path img in
let output : gmap string string := {[ "image_path" := output_path ]} in
let metadata :=
<["analysis_status" := PStr "completed"]>
(<["rotation_angle" := match rotation_angle with
                     | Some a => PInt a
                     | None => PNone
                     end]>
(<["output_path" := PStr output_path]>
(<["original_path" := PStr nifti_path]> metadata))) in
ret (output, metadata).

(** [_run]: the body, and on any [Exception] the failure record. *)
Definition _run (self : NiftiProcessorTool) (nifti_path : string)
(rotation_angle : option Z) : M (gmap string string * gmap string pyval) :=
try_except_Exception (_run_body self nifti_path rotation_angle)
(fun _ msg =>
 ret ({[ "error" := msg ]},
      <["error_details" := PStr msg]>
      (<["analysis_status" := PStr "failed"]>
      (<["nifti_path" := PStr nifti_path]> ∅)))).

(** [_arun] calls [_run] and returns what it returns. *)
Definition _arun (self : NiftiProcessorTool) (nifti_path : string)
(rotation_angle : option Z) : M (gmap string string * gmap string pyval) :=
_run self nifti_path rotation_angle.
End Nifti.

(** ** [src/medrax/tools/nifti2image.py]: the batch converter *)

Definition os_path_exists (p : string) : M bool := fun w => (Return (Os.path_exists w p), w).
Definition os_path_abspath (p : string) : M string :=
  fun w => (Return (Posixpath.abspath (cwd w) p), w).

(** [for x in xs: body], the local variables the body assigns threaded
    through the iterations. *)
Fixpoint for_each {X S : Type} (xs : list X) (body : X -> S -> M S) (s : S) : M S :=
  match xs with
  | [] => ret s
  | x :: rest => bind (body x s) (for_each rest body)
  end.

(** [range(0, n)]. *)
Definition range (n : nat) : list nat := seq 0 n.

Section Nifti2image.
(** What [matplotlib.image.imsave] raises, if anything, while rendering an
array, before it opens the file. *)
Variable imsave_error : ndarray float -> option (exc_class * string).

Local Open Scope py_scope.

Definition imsave (fname : string) (arr : ndarray float) (cmap : string) : M unit :=
match imsave_error arr with
| Some (c, msg) => raise (Exception c msg)
| None => Os.write_raster fname (Colormapped cmap arr)
end.

(** The [if rotation_angle == 90: ... elif ... == 180: ... elif ... == 270:]
chain of the loop bodies: [plane] is the indexing expression, evaluated
only in a branch taken; [data] is the local variable, [None] while it
is unbound, and stays as it was when no branch is taken. *)
Definition rotate_chain (rotation_angle : Z) (plane : result (ndarray float))
(data : option (ndarray float)) : result (option (ndarray float)) :=
if rotation_angle =? 90 then
rbind plane (fun p =>
rbind (Np.rot90 S754_nan p 1) (fun r => Return (Some r)))
else if rotation_angle =? 180 then
rbind plane (fun p =>
rbind (Np.rot90 S754_nan p 1) (fun r1 =>
rbind (Np.rot90 S754_nan r1 1) (fun r2 => Return (Some r2))))
else if rotation_angle =? 270 then
rbind plane (fun p =>
rbind (Np.rot90 S754_nan p 1) (fun r1 =>
rbind (Np.rot90 S754_nan r1 1) (fun r2 =>
rbind (Np.rot90 S754_nan r2 1) (fun r3 => Return (Some r3)))))
else Return data.

(** Reading the local variable [data]. *)
Definition read_data (data : option (ndarray float)) : result (ndarray float) :=
match data with
| Some d => Return d
| None => Raise (Exception UnboundLocalError
               "cannot access local variable 'data' where it is not associated with a value")
end.

Definition name_3d (fname_noext : string) (current_slice : nat) : string :=
fname_noext +:+ "_z" +:+ Str.zfill 3 (Str.of_nat (current_slice + 1)) +:+ ".png".

Definition name_4d (fname_noext : string) (current_volume current_slice : nat) : string :=
fname_noext +:+ "_vol" +:+ Str.of_nat (current_volume + 1)
+:+ "_z" +:+ Str.zfill 3 (Str.of_nat (current_slice + 1)) +:+ ".png".

(** The local variables the loops assign. *)
Record locals := mk_locals { data : option (ndarray float); slice_counter : nat }.

(** Body of the loop over the slices of a 3-D array. *)
Definition body_3d (image_array : ndarray float) (rotation_angle : Z)
(fname_noext output_dir : string) (total_slices : nat)
(current_slice : nat) (l : locals) : M locals :=
let* data := lift (rotate_chain rotation_angle
                 (Np.index_axis2 S754_nan image_array current_slice) (data l)) in
let* _ := print ("Saving slice " +:+ Str.of_nat (current_slice + 1) +:+ "/"
               +:+ Str.of_nat total_slices +:+ "...") in
let image_name := name_3d fname_noext current_slice in
let image_name := Posixpath.join output_dir image_name in
let* arr := lift (read_data data) in
let* _ := imsave image_name arr "gray" in
ret (mk_locals data (slice_counter l + 1)).

(** Body of the inner loop over the slices of one volume of a 4-D array. *)
Definition body_4d (image_array : ndarray float) (rotation_angle : Z)
(fname_noext output_dir : string) (total_volumes total_slices : nat)
(current_volume current_slice : nat) (l : locals) : M locals :=
let* data := lift (rotate_chain rotation_angle
                 (Np.index_axis23 S754_nan image_array current_slice current_volume)
                 (data l)) in
let* _ := print ("Saving volume " +:+ Str.of_nat (current_volume + 1) +:+ "/"
               +:+ Str.of_nat total_volumes +:+ ", slice "
               +:+ Str.of_nat (current_slice + 1) +:+ "/"
               +:+ Str.of_nat total_slices +:+ "...") in
let image_name := name_4d fname_noext current_volume current_slice in
let image_name := Posixpath.join output_dir image_name in
let* arr := lift (read_data data) in
let* _ := imsave image_name arr "gray" in
ret (mk_locals data (slice_counter l + 1)).

(** The two branches on [len(image_array.shape)]; any other number of
dimensions converts nothing. *)
Definition convert_slices (image_array : ndarray float) (rotation_angle : Z)
(fname_noext output_dir : string) : M locals :=
let l0 := mk_locals None 0 in
match Np.shape image_array with
| [_; _; nz] =>
let total_slices := nz in
let* l := for_each (range total_slices)
            (body_3d image_array rotation_angle fname_noext output_dir total_slices)
            l0 in
let* _ := print "Finished converting 3D image" in
ret l
| [_; _; nz; nw] =>
let total_volumes := nw in
let total_slices := nz in
for_each (range total_volumes)
  (fun current_volume l =>
     let* l := for_each (range total_slices)
                 (body_4d image_array rotation_angle fname_noext output_dir
                    total_volumes total_slices current_volume) l in
     let* _ := print ("Finished converting volume "
                        +:+ Str.of_nat (current_volume + 1) +:+ "/"
                        +:+ Str.of_nat total_volumes) in
     ret l)
  l0
| _ => ret l0
end.

Definition convert_nii_to_png (file_path : string) (output_dir_path : option string)
(rotation_angle : Z) : M string :=
let* found := os_path_exists file_path in
if negb found then
raise (Exception FileNotFoundError ("Input file not found: " +:+ file_path))
else if negb (Str.endswith file_path ".nii" || Str.endswith file_path ".nii.gz") then
raise (Exception ValueError
       ("Input file must be a NIfTI file (.nii or .nii.gz): " +:+ file_path))
else
let fname := Posixpath.basename file_path in
let fname_noext := hd "" (Str.split_on Str.dot fname) in
let* output_dir :=
match output_dir_path with
| None =>
    let* abs := os_path_abspath file_path in
    let base_path := Posixpath.dirname abs in
    ret (Posixpath.join base_path fname_noext)
| Some output_dir_path =>
    let* output_dir_path := os_path_abspath output_dir_path in
    ret (Posixpath.join output_dir_path fname_noext)
end in
let* _ := Os.makedirs output_dir in
let* _ := print ("Output directory: " +:+ output_dir) in
let* image_nib := nib_load file_path in
let image_array := fdata image_nib in
let* _ := print ("Image dimensions: "
                 +:+ Str.of_nat (length (Np.shape image_array)) +:+ "D") in
let* l := convert_slices image_array rotation_angle fname_noext output_dir in
let* _ := print ("Successfully converted " +:+ Str.of_nat (slice_counter l)
                 +:+ " slices to PNG") in
ret output_dir.

(** The values [parser.parse_args()] returns. *)
Record cli_args := mk_cli_args {
input_file : string;
output_dir_path : option string;
rotation_angle : Z
}.

(** The block under [if __name__ == "__main__":], after the arguments were
parsed. *)
Definition cli_main (args : cli_args) : M unit :=
try_except [FileNotFoundError; ValueError]
(let* output_dir := convert_nii_to_png (input_file args) (output_dir_path args)
                      (rotation_angle args) in
 print ("PNG files saved to: " +:+ output_dir))
(fun _ e =>
 let* _ := print ("Error: " +:+ e) in
 exit 1).
End Nifti2image.

(** * Properties *)

(** ** The string and path functions on sample inputs *)

Example split_ex : Str.split_on Str.dot "scan.nii.gz" = ["scan"; "nii"; "gz"].
Proof. reflexivity. Qed.
Example basename_ex : Posixpath.basename "/data/in/scan.nii.gz" = "scan.nii.gz".
Proof. reflexivity. Qed.
Example dirname_ex : Posixpath.dirname "/data/in/scan.nii.gz" = "/data/in".
Proof. reflexivity. Qed.
Example dirname_root_ex : Posixpath.dirname "/scan.nii" = "/".
Proof. reflexivity. Qed.
Example abspath_ex : Posixpath.abspath "/home/u" "../out/./pngs/" = "/home/out/pngs".
Proof. reflexivity. Qed.
Example ancestors_ex : Posixpath.ancestors "/a/b/c" = ["/a/b/c"; "/a/b"; "/a"].
Proof. reflexivity. Qed.
Example zfill_ex : Str.zfill 3 (Str.of_nat 7) = "007" /\ Str.zfill 3 (Str.of_nat 1234) = "1234".
Proof. split; reflexivity. Qed.
Example endswith_ex : Str.endswith "a.nii.gz" ".nii.gz" = true /\ Str.endswith "a.nii.gz" ".nii" = false.
Proof. split; reflexivity. Qed.

(** ** Strings and paths *)

(** Whether character [c] occurs in [s]. *)
Fixpoint occurs (c : ascii) (s : string) : bool :=
  match s with
  | EmptyString => false
  | String a s' => Ascii.eqb a c || occurs c s'
  end.

Lemma split_on_pieces (c c' : ascii) (s : string) :
  (c' = c \/ occurs c' s = false) ->
  Forall (fun piece => occurs c' piece = false) (Str.split_on c s).
Proof.
  induction s as [|a s IH]; intros H.
  - repeat constructor.
  - cbn [Str.split_on]. destruct (Ascii.eqb_spec a c) as [->|Hac].
    + constructor; [reflexivity|]. apply IH.
      destruct H as [H|H]; [left; exact H|].
      cbn [occurs] in H. apply orb_false_elim in H. right. apply H.
    + assert (Hs : c' = c \/ occurs c' s = false).
      { destruct H as [H|H]; [left; exact H|].
        cbn [occurs] in H. apply orb_false_elim in H. right. apply H. }
      assert (Ha : Ascii.eqb a c' = false).
      { destruct H as [->|H]; [apply Ascii.eqb_neq; exact Hac|].
        cbn [occurs] in H. apply orb_false_elim in H. apply H. }
      specialize (IH Hs). destruct (Str.split_on c s) as [|h t].
      * repeat constructor. cbn [occurs]. rewrite Ha. reflexivity.
      * apply Forall_cons in IH. destruct IH as [Hh Ht].
        constructor; [|exact Ht]. cbn [occurs]. rewrite Ha, Hh. reflexivity.
Qed.

Lemma append_cons (c : ascii) (a b : string) : String c a +:+ b = String c (a +:+ b).
Proof. reflexivity. Qed.

Example as_posix_ex :
  Pathlib.as_posix "scan.nii.gz/" = "scan.nii.gz" /\
  Pathlib.as_posix "./a//b/./c/" = "a/b/c" /\
  Pathlib.as_posix "" = "." /\
  Pathlib.as_posix "//a/../b" = "//a/../b" /\
  Pathlib.as_posix "///a" = "/a".
Proof. repeat split. Qed.

(** *** Normalizing a name that pathlib has rewritten *)

Lemma prefix_cons a s b t :
  String.prefix (String a s) (String b t) = if ascii_dec a b then String.prefix s t else false.
Proof. reflexivity. Qed.

Lemma split_on_nonempty c s : Str.split_on c s <> [].
Proof.
  destruct s as [|a s]; [discriminate|]. cbn [Str.split_on].
  destruct (Ascii.eqb a c); [discriminate|]. destruct (Str.split_on c s); discriminate.
Qed.

Lemma split_on_app c a b :
  Str.split_on c (a +:+ String c b) = Str.split_on c a ++ Str.split_on c b.
Proof.
  induction a as [|x a IH].
  - change ("" +:+ String c b) with (String c b). cbn [Str.split_on].
    rewrite Ascii.eqb_refl. reflexivity.
  - rewrite append_cons. cbn [Str.split_on]. rewrite IH.
    destruct (Ascii.eqb x c); [reflexivity|].
    pose proof (split_on_nonempty c a) as Hne.
    destruct (Str.split_on c a) as [|h t]; [contradiction|]. reflexivity.
Qed.

Lemma split_on_free c s : occurs c s = false -> Str.split_on c s = [s].
Proof.
  induction s as [|a s IH]; [reflexivity|]. cbn [occurs Str.split_on]. intros H.
  apply orb_false_elim in H. destruct H as [Ha Hs]. rewrite Ha, (IH Hs). reflexivity.
Qed.

Lemma split_on_join (l : list string) :
  l <> [] -> Forall (fun x => occurs Str.slash x = false) l ->
  Str.split_on Str.slash (Str.join "/" l) = l.
Proof.
  intros Hne Hl. induction Hl as [|x l Hx Hl IH]; [contradiction|].
  destruct l as [|y l]; [apply split_on_free, Hx|].
  change (Str.join "/" (x :: y :: l)) with (x +:+ String Str.slash (Str.join "/" (y :: l))).
  rewrite split_on_app, (split_on_free _ _ Hx), IH by discriminate. reflexivity.
Qed.

(** What [normpath] computes from the number of leading slashes it keeps and
    the components. *)
Definition norm_of (initial_slashes : nat) (comps : list string) : string :=
  let kept := rev (fold_left (Posixpath.norm_step initial_slashes) comps []) in
  let p := Str.repeat_char Str.slash initial_slashes +:+ Str.join "/" kept in
  if String.eqb p "" then "." else p.

Definition initial_slashes_of (path : string) : nat :=
  if Str.startswith path "/" then
    if Str.startswith path "//" && negb (Str.startswith path "///") then 2%nat else 1%nat
  else 0%nat.

Lemma normpath_norm_of path :
  Posixpath.normpath path = norm_of (initial_slashes_of path) (Str.split_on Str.slash path).
Proof.
  unfold Posixpath.normpath. destruct (String.eqb_spec path "") as [->|_]; reflexivity.
Qed.

Lemma fold_norm_step_dropped n l acc :
  fold_left (Posixpath.norm_step n) l acc
  = fold_left (Posixpath.norm_step n)
      (List.filter (fun comp => negb (Pathlib.dropped comp)) l) acc.
Proof.
  revert acc. induction l as [|x l IH]; intros acc; [reflexivity|].
  cbn [List.filter fold_left]. destruct (Pathlib.dropped x) eqn:Hx; cbn [negb].
  - unfold Posixpath.norm_step at 2. unfold Pathlib.dropped in Hx. rewrite Hx. apply IH.
  - cbn [fold_left]. apply IH.
Qed.

(** [normpath] sees of a path only its leading slashes and the components
    pathlib keeps. *)
Lemma normpath_parts a b :
  initial_slashes_of a = initial_slashes_of b ->
  List.filter (fun comp => negb (Pathlib.dropped comp)) (Str.split_on Str.slash a)
  = List.filter (fun comp => negb (Pathlib.dropped comp)) (Str.split_on Str.slash b) ->
  Posixpath.normpath a = Posixpath.normpath b.
Proof.
  intros Hi Hf. rewrite !normpath_norm_of. unfold norm_of.
  rewrite Hi, (fold_norm_step_dropped _ (Str.split_on Str.slash a)), Hf,
    <- fold_norm_step_dropped. reflexivity.
Qed.

Definition kept_of (p : string) : list string :=
  List.filter (fun comp => negb (Pathlib.dropped comp)) (Str.split_on Str.slash p).

Lemma kept_of_pieces p :
  Forall (fun x => occurs Str.slash x = false /\ x <> "") (kept_of p).
Proof.
  unfold kept_of. apply List.Forall_forall. intros x Hx. apply filter_In in Hx.
  destruct Hx as [Hin Hk]. split.
  - pose proof (split_on_pieces Str.slash Str.slash p (or_introl eq_refl)) as Hall.
    rewrite List.Forall_forall in Hall. apply Hall, Hin.
  - intros ->. discriminate.
Qed.

Lemma filter_kept l :
  Forall (fun x => occurs Str.slash x = false /\ x <> "") l ->
  Forall (fun x => Pathlib.dropped x = false) l ->
  List.filter (fun comp => negb (Pathlib.dropped comp)) l = l.
Proof.
  intros _ H. induction H as [|x l Hx Hl IH]; [reflexivity|].
  cbn [List.filter]. rewrite Hx. cbn [negb]. rewrite IH. reflexivity.
Qed.

Lemma kept_of_not_dropped p : Forall (fun x => Pathlib.dropped x = false) (kept_of p).
Proof.
  unfold kept_of. apply List.Forall_forall. intros x Hx. apply filter_In in Hx.
  destruct Hx as [_ Hk]. destruct (Pathlib.dropped x); [discriminate | reflexivity].
Qed.

Lemma join_kept_relative l :
  Forall (fun x => occurs Str.slash x = false /\ x <> "") l ->
  Str.startswith (Str.join "/" l) "/" = false.
Proof.
  intros H. destruct H as [|x l [Hx Hne] Hl]; [reflexivity|].
  destruct x as [|a x]; [contradiction|].
  assert (Ha : a <> "/"%char).
  { intros ->. discriminate. }
  unfold Str.startswith.
  destruct l as [|y l]; cbn [Str.join]; rewrite ?append_cons, prefix_cons;
    destruct (ascii_dec "/" a) as [E|_]; try reflexivity; symmetry in E; contradiction.
Qed.

Lemma join_kept_empty l :
  Forall (fun x => occurs Str.slash x = false /\ x <> "") l ->
  Str.join "/" l = "" -> l = [].
Proof.
  intros H. destruct H as [|x l [Hx Hne] Hl]; [reflexivity|].
  destruct x as [|a x]; [contradiction|].
  destruct l; cbn [Str.join]; rewrite ?append_cons; discriminate.
Qed.

(** The components of the rewritten name are those pathlib keeps. *)
Lemma kept_of_join l :
  Forall (fun x => occurs Str.slash x = false /\ x <> "") l ->
  Forall (fun x => Pathlib.dropped x = false) l ->
  kept_of (Str.join "/" l) = l.
Proof.
  intros Hp Hk. unfold kept_of. destruct l as [|x l]; [reflexivity|].
  rewrite split_on_join; [apply filter_kept; assumption | discriminate |].
  eapply Forall_impl; [exact Hp|]. intros y Hy. apply Hy.
Qed.

Lemma kept_of_slash s : kept_of (String "/" s) = kept_of s.
Proof. reflexivity. Qed.

Lemma kept_of_as_posix p : kept_of (Pathlib.as_posix p) = kept_of p.
Proof.
  pose proof (kept_of_pieces p) as Hp. pose proof (kept_of_not_dropped p) as Hk.
  unfold Pathlib.as_posix. fold (kept_of p).
  destruct (String.eqb_spec (Pathlib.root_of p +:+ Str.join "/" (kept_of p)) "") as [E|_].
  - unfold Pathlib.root_of in E.
    destruct (Str.startswith p "/");
      [destruct (Str.startswith p "//" && negb (Str.startswith p "///"))%bool; discriminate|].
    change ("" +:+ ?x) with x in E. rewrite (join_kept_empty _ Hp E). reflexivity.
  - unfold Pathlib.root_of.
    destruct (Str.startswith p "/");
      [destruct (Str.startswith p "//" && negb (Str.startswith p "///"))%bool|].
    + change ("//" +:+ ?x) with (String "/" (String "/" x)).
      rewrite !kept_of_slash. apply kept_of_join; assumption.
    + change ("/" +:+ ?x) with (String "/" x).
      rewrite !kept_of_slash. apply kept_of_join; assumption.
    + change ("" +:+ ?x) with x. apply kept_of_join; assumption.
Qed.

Lemma startswith_slash_cons a s :
  Str.startswith (String a s) "/" = if ascii_dec "/" a then true else false.
Proof.
  unfold Str.startswith. rewrite prefix_cons. destruct (ascii_dec "/" a); [|reflexivity].
  destruct s; reflexivity.
Qed.

Lemma initial_slashes_one j :
  Str.startswith j "/" = false -> initial_slashes_of (String "/" j) = 1%nat.
Proof.
  destruct j as [|a j]; [reflexivity|]. rewrite startswith_slash_cons.
  unfold initial_slashes_of, Str.startswith. rewrite !prefix_cons.
  destruct (ascii_dec "/" a); [discriminate|]. intros _.
  destruct (ascii_dec "/" "/"); [|contradiction]. reflexivity.
Qed.

Lemma initial_slashes_two j :
  Str.startswith j "/" = false -> initial_slashes_of (String "/" (String "/" j)) = 2%nat.
Proof.
  destruct j as [|a j]; [reflexivity|]. rewrite startswith_slash_cons.
  unfold initial_slashes_of, Str.startswith. rewrite !prefix_cons.
  destruct (ascii_dec "/" a); [discriminate|]. intros _.
  destruct (ascii_dec "/" "/"); [|contradiction]. reflexivity.
Qed.

Lemma initial_slashes_relative s :
  Str.startswith s "/" = false -> initial_slashes_of s = 0%nat.
Proof. unfold initial_slashes_of. intros ->. reflexivity. Qed.

Lemma as_posix_isabs p :
  Str.startswith (Pathlib.as_posix p) "/" = Str.startswith p "/".
Proof.
  pose proof (join_kept_relative _ (kept_of_pieces p)) as Hj.
  unfold Pathlib.as_posix. fold (kept_of p). unfold Pathlib.root_of.
  destruct (Str.startswith p "/").
  - destruct (Str.startswith p "//" && negb (Str.startswith p "///"))%bool.
    + change ("//" +:+ ?x) with (String "/" (String "/" x)). cbn [String.eqb].
      apply startswith_slash_cons.
    + change ("/" +:+ ?x) with (String "/" x). cbn [String.eqb].
      apply startswith_slash_cons.
  - change ("" +:+ ?x) with x.
    destruct (String.eqb (Str.join "/" (kept_of p)) ""); [reflexivity | exact Hj].
Qed.

Lemma as_posix_initial_slashes p :
  initial_slashes_of (Pathlib.as_posix p) = initial_slashes_of p.
Proof.
  pose proof (join_kept_relative _ (kept_of_pieces p)) as Hj.
  unfold initial_slashes_of at 2.
  unfold Pathlib.as_posix. fold (kept_of p). unfold Pathlib.root_of.
  destruct (Str.startswith p "/").
  - destruct (Str.startswith p "//" && negb (Str.startswith p "///"))%bool.
    + change ("//" +:+ ?x) with (String "/" (String "/" x)). cbn [String.eqb].
      apply initial_slashes_two, Hj.
    + change ("/" +:+ ?x) with (String "/" x). cbn [String.eqb].
      apply initial_slashes_one, Hj.
  - change ("" +:+ ?x) with x.
    destruct (String.eqb (Str.join "/" (kept_of p)) ""); [reflexivity|].
    apply initial_slashes_relative, Hj.
Qed.

(** A prefix made of slashes is found or not in [pre +:+ s] whatever the
    relative name [s] is. *)
Lemma prefix_slashes t pre s1 s2 :
  Str.all_chars Str.slash t = true ->
  Str.startswith s1 "/" = false -> Str.startswith s2 "/" = false ->
  String.prefix t (pre +:+ s1) = String.prefix t (pre +:+ s2).
Proof.
  intros Ht H1 H2. revert t Ht. induction pre as [|c pre IH]; intros t Ht.
  - change ("" +:+ s1) with s1. change ("" +:+ s2) with s2. destruct t as [|a t].
    + destruct s1, s2; reflexivity.
    + cbn [Str.all_chars] in Ht. apply andb_prop in Ht. destruct Ht as [Ha _].
      apply Ascii.eqb_eq in Ha. unfold Str.slash in Ha. subst a.
      destruct s1 as [|b1 s1], s2 as [|b2 s2]; try reflexivity.
      * rewrite startswith_slash_cons in H2. rewrite prefix_cons.
        destruct (ascii_dec "/" b2); [discriminate | reflexivity].
      * rewrite startswith_slash_cons in H1. rewrite prefix_cons.
        destruct (ascii_dec "/" b1); [discriminate | reflexivity].
      * rewrite startswith_slash_cons in H1, H2. rewrite !prefix_cons.
        destruct (ascii_dec "/" b1); [discriminate|].
        destruct (ascii_dec "/" b2); [discriminate | reflexivity].
  - rewrite !append_cons. destruct t as [|a t]; [reflexivity|].
    rewrite !prefix_cons. destruct (ascii_dec a c); [|reflexivity].
    apply IH. cbn [Str.all_chars] in Ht. apply andb_prop in Ht. apply Ht.
Qed.

Lemma initial_slashes_app pre s1 s2 :
  Str.startswith s1 "/" = false -> Str.startswith s2 "/" = false ->
  initial_slashes_of (pre +:+ s1) = initial_slashes_of (pre +:+ s2).
Proof.
  intros H1 H2. unfold initial_slashes_of, Str.startswith.
  rewrite (prefix_slashes "/" pre s1 s2), (prefix_slashes "//" pre s1 s2),
    (prefix_slashes "///" pre s1 s2) by (assumption || reflexivity).
  reflexivity.
Qed.

Lemma kept_of_app a b :
  kept_of (a +:+ String "/" b) = kept_of a ++ kept_of b.
Proof.
  unfold kept_of, Str.slash. rewrite split_on_app. apply List.filter_app.
Qed.

Lemma startswith_slash_app r x :
  r <> "" -> Str.startswith (r +:+ x) "/" = Str.startswith r "/".
Proof.
  destruct r as [|a r]; [contradiction|]. intros _.
  rewrite append_cons, !startswith_slash_cons. reflexivity.
Qed.

Lemma prefix_nil s : String.prefix "" s = true.
Proof. destruct s; reflexivity. Qed.

Lemma rev_app_last s acc :
  s <> "" ->
  exists s' c, s = s' +:+ String c "" /\ String.rev_app s acc = String c (String.rev_app s' acc).
Proof.
  revert acc. induction s as [|a t IH]; intros acc Hne; [contradiction|].
  cbn [String.rev_app]. destruct t as [|b t].
  - exists "", a. split; reflexivity.
  - destruct (IH (String a acc)) as (t' & c & Ht & Hr); [discriminate|].
    exists (String a t'), c. rewrite Ht at 1. split; [reflexivity | exact Hr].
Qed.

(** A name that ends with a slash is a name followed by the slash. *)
Lemma endswith_slash s :
  Str.endswith s "/" = true -> exists s', s = s' +:+ "/".
Proof.
  unfold Str.endswith. change (String.rev "/") with "/". unfold String.rev.
  destruct s as [|a t]; [discriminate|].
  destruct (rev_app_last (String a t) "") as (s' & c & Hs & Hr); [discriminate|].
  rewrite Hr, prefix_cons. destruct (ascii_dec "/" c) as [<-|]; [|discriminate].
  intros _. exists s'. exact Hs.
Qed.

Lemma append_slash_assoc a s : (a +:+ "/") +:+ s = a +:+ String "/" s.
Proof.
  induction a as [|c a IH]; [reflexivity|]. rewrite !append_cons, IH. reflexivity.
Qed.

(** [nibabel.load], which rewrites the name with pathlib, and a lookup of
    the name as given end at the same normalized absolute path. *)
Lemma abspath_as_posix (cwd p : string) :
  Posixpath.abspath cwd (Pathlib.as_posix p) = Posixpath.abspath cwd p.
Proof.
  unfold Posixpath.abspath, Posixpath.isabs. rewrite as_posix_isabs.
  destruct (Str.startswith p "/") eqn:Habs.
  - apply normpath_parts; [apply as_posix_initial_slashes | apply kept_of_as_posix].
  - pose proof (as_posix_isabs p) as Ha. rewrite Habs in Ha.
    unfold Posixpath.join. rewrite Ha, Habs.
    destruct (String.eqb_spec cwd "") as [->|Hne]; cbn [orb].
    + change ("" +:+ ?x) with x.
      apply normpath_parts; [apply as_posix_initial_slashes | apply kept_of_as_posix].
    + destruct (Str.endswith cwd "/") eqn:He.
      * destruct (endswith_slash _ He) as (c' & ->).
        apply normpath_parts; [apply initial_slashes_app; assumption|].
        fold (kept_of ((c' +:+ "/") +:+ Pathlib.as_posix p)).
        fold (kept_of ((c' +:+ "/") +:+ p)).
        rewrite !append_slash_assoc, !kept_of_app, kept_of_as_posix. reflexivity.
      * change ("/" +:+ ?x) with (String "/" x).
        rewrite <- (append_slash_assoc cwd p),
          <- (append_slash_assoc cwd (Pathlib.as_posix p)).
        apply normpath_parts; [apply initial_slashes_app; assumption|].
        fold (kept_of ((cwd +:+ "/") +:+ Pathlib.as_posix p)).
        fold (kept_of ((cwd +:+ "/") +:+ p)).
        rewrite !append_slash_assoc, !kept_of_app, kept_of_as_posix. reflexivity.
Qed.

(** ** Arrays: indices, offsets and [build] *)

Module NpFacts.
Import Np.

Lemma nth_flat_map_uniform {A B} (f : A -> list B) (m : nat) (l : list A) (dA : A) (dB : B) :
  (forall a, length (f a) = m) ->
  forall i k, (i < length l)%nat -> (k < m)%nat ->
  nth (i * m + k) (flat_map f l) dB = nth k (f (nth i l dA)) dB.
Proof.
  intros Hlen. induction l as [|a l IH]; intros i k Hi Hk; simpl in *; [lia|].
  destruct i as [|i].
  - simpl. rewrite app_nth1; [reflexivity | rewrite Hlen; lia].
  - rewrite app_nth2; rewrite Hlen; [|lia].
    replace (S i * m + k - m)%nat with (i * m + k)%nat by lia.
    apply IH; lia.
Qed.

Lemma length_flat_map_uniform {A B} (f : A -> list B) (m : nat) (l : list A) :
  (forall a, length (f a) = m) -> length (flat_map f l) = (length l * m)%nat.
Proof.
  intros Hlen. induction l as [|a l IH]; simpl; [reflexivity|].
  rewrite length_app, Hlen, IH. reflexivity.
Qed.

Lemma length_indices sh : length (indices sh) = size_of sh.
Proof.
  induction sh as [|n rest IH]; simpl; [reflexivity|].
  rewrite (length_flat_map_uniform _ (size_of rest)).
  - rewrite length_seq. reflexivity.
  - intros a. rewrite length_map. exact IH.
Qed.

Lemma offset_lt sh idx : in_range sh idx -> (offset sh idx < size_of sh)%nat.
Proof.
  unfold in_range. intros H. induction H as [|i n idx sh Hi H IH]; simpl; [lia|].
  nia.
Qed.

Lemma nth_indices sh idx d : in_range sh idx -> nth (offset sh idx) (indices sh) d = idx.
Proof.
  unfold in_range. intros H. induction H as [|i n idx sh Hi H IH]; simpl; [reflexivity|].
  rewrite (nth_flat_map_uniform _ (size_of sh) _ 0%nat).
  - rewrite seq_nth by lia. simpl.
    rewrite (nth_indep _ d (i :: d)) by (rewrite length_map, length_indices; apply offset_lt; exact H).
    rewrite map_nth. f_equal. apply IH.
  - intros a. rewrite length_map. apply length_indices.
  - rewrite length_seq. lia.
  - apply offset_lt. exact H.
Qed.

Lemma indices_in_range sh idx : In idx (indices sh) -> in_range sh idx.
Proof.
  unfold in_range. revert idx. induction sh as [|n rest IH]; simpl; intros idx H.
  - destruct H as [<-|[]]. constructor.
  - apply in_flat_map in H. destruct H as [i [Hi H]].
    apply in_map_iff in H. destruct H as [idx' [<- H]].
    apply in_seq in Hi. constructor; [lia | apply IH; exact H].
Qed.

Lemma item_build {A} (d : A) sh f idx : in_range sh idx -> item d (build sh f) idx = f idx.
Proof.
  intros H. unfold item, build. simpl.
  rewrite (nth_indep _ d (f idx)) by (rewrite length_map, length_indices; apply offset_lt; exact H).
  rewrite map_nth. f_equal. apply nth_indices. exact H.
Qed.

Lemma build_ext {A} sh (f g : list nat -> A) :
  (forall idx, in_range sh idx -> f idx = g idx) -> build sh f = build sh g.
Proof.
  intros H. unfold build. f_equal. apply map_ext_in.
  intros idx Hin. apply H. apply indices_in_range. exact Hin.
Qed.

Lemma offset_nth_indices sh k d :
  (k < size_of sh)%nat -> offset sh (nth k (indices sh) d) = k.
Proof.
  revert k. induction sh as [|n rest IH]; simpl; intros k Hk.
  - destruct k; [reflexivity | lia].
  - assert (Hm : (0 < size_of rest)%nat) by nia.
    pose proof (Nat.div_mod_eq k (size_of rest)) as Hdm.
    pose proof (Nat.mod_upper_bound k (size_of rest) ltac:(lia)) as Hmod.
    assert (Hq : (k / size_of rest < n)%nat) by (apply Nat.Div0.div_lt_upper_bound; lia).
    rewrite Hdm at 1.
    replace (size_of rest * (k / size_of rest) + k mod size_of rest)%nat
      with (k / size_of rest * size_of rest + k mod size_of rest)%nat by lia.
    rewrite (nth_flat_map_uniform _ (size_of rest) _ 0%nat).
    + rewrite seq_nth by lia. simpl.
      rewrite (nth_indep _ d ((k / size_of rest)%nat :: d))
        by (rewrite length_map, length_indices; lia).
      rewrite map_nth. simpl. rewrite IH by lia. lia.
    + intros a. rewrite length_map. apply length_indices.
    + rewrite length_seq. lia.
    + lia.
Qed.

Lemma build_item {A} (d : A) (a : ndarray A) : wf a -> build (shape a) (item d a) = a.
Proof.
  unfold wf, build, item. destruct a as [sh dat]. simpl. intros Hwf. f_equal.
  apply (nth_ext _ _ d d).
  - rewrite length_map, length_indices. lia.
  - intros k Hk. rewrite length_map, length_indices in Hk.
    rewrite (nth_indep _ d (nth (offset sh []) dat d)) by (rewrite length_map, length_indices; lia).
    rewrite (map_nth (fun idx => nth (offset sh idx) dat d)).
    rewrite offset_nth_indices by lia. reflexivity.
Qed.

End NpFacts.

(** ** Rotation *)

Module RotFacts.
Import Np NpFacts.

Lemma in_range_2 X Y idx :
  in_range [X; Y] idx -> exists i j, idx = [i; j] /\ (i < X)%nat /\ (j < Y)%nat.
Proof.
  unfold in_range. intros H.
  inversion H as [|i n idx1 sh1 Hi H1]; subst.
  inversion H1 as [|j m idx2 sh2 Hj H2]; subst.
  inversion H2; subst. exists i, j. auto.
Qed.

Lemma in_range_2_intro X Y i j : (i < X)%nat -> (j < Y)%nat -> in_range [X; Y] [i; j].
Proof. intros. repeat constructor; assumption. Qed.

(** The plane [a] turned by a quarter: entry [(i, j)] is [a[j, Y-1-i]]. *)
Definition quarter {A} (d : A) (a : ndarray A) : ndarray A :=
  match shape a with
  | [X; Y] =>
      build [Y; X] (fun idx => match idx with
                               | [i; j] => item d a [j; (Y - 1 - i)%nat]
                               | _ => d
                               end)
  | _ => a
  end.

Lemma rot90_1_quarter {A} (d : A) (a : ndarray A) X Y :
  shape a = [X; Y] -> rot90 d a 1 = Return (quarter d a).
Proof.
  intros Hs. unfold rot90, ndim, quarter. rewrite Hs. simpl. f_equal.
  unfold swap01, flip1. rewrite Hs. simpl.
  apply build_ext. intros idx Hr.
  destruct (in_range_2 _ _ _ Hr) as (i & j & -> & Hi & Hj).
  rewrite item_build by (apply in_range_2_intro; lia). reflexivity.
Qed.

Lemma shape_quarter {A} (d : A) (a : ndarray A) X Y :
  shape a = [X; Y] -> shape (quarter d a) = [Y; X].
Proof. intros Hs. unfold quarter. rewrite Hs. reflexivity. Qed.

Lemma item_quarter {A} (d : A) (a : ndarray A) X Y i j :
  shape a = [X; Y] -> (i < Y)%nat -> (j < X)%nat ->
  item d (quarter d a) [i; j] = item d a [j; (Y - 1 - i)%nat].
Proof.
  intros Hs Hi Hj. unfold quarter. rewrite Hs.
  rewrite item_build by (apply in_range_2_intro; lia). reflexivity.
Qed.

Lemma quarter_four {A} (d : A) (a : ndarray A) X Y :
  shape a = [X; Y] -> wf a ->
  quarter d (quarter d (quarter d (quarter d a))) = a.
Proof.
  intros Hs Hwf.
  pose proof (shape_quarter d a X Y Hs) as H1.
  pose proof (shape_quarter d _ Y X H1) as H2.
  pose proof (shape_quarter d _ X Y H2) as H3.
  transitivity (build (shape a) (item d a)); [| apply build_item; exact Hwf].
  rewrite Hs. unfold quarter at 1. rewrite H3.
  apply build_ext. intros idx Hr.
  destruct (in_range_2 _ _ _ Hr) as (i & j & -> & Hi & Hj).
  rewrite (item_quarter d _ X Y) by (assumption || lia).
  rewrite (item_quarter d _ Y X) by (assumption || lia).
  rewrite (item_quarter d _ X Y) by (assumption || lia).
  f_equal. f_equal; [lia | f_equal; lia].
Qed.

End RotFacts.

(** ** float64 facts used by the intensity normalizer *)

Module F64Facts.
Import F64.

(** The library states its operations with the integer functions of
    [IntDef]; these are the ones of [BinInt] under another name. *)
Ltac to_binint :=
  repeat match goal with
    | |- context [IntDef.Z.sub ?a ?b] => change (IntDef.Z.sub a b) with (Z.sub a b)
    | |- context [IntDef.Z.add ?a ?b] => change (IntDef.Z.add a b) with (Z.add a b)
    | |- context [IntDef.Z.div_eucl ?a ?b] => change (IntDef.Z.div_eucl a b) with (Z.div_eucl a b)
    | |- context [IntDef.Z.shiftl ?a ?b] => change (IntDef.Z.shiftl a b) with (Z.shiftl a b)
    | |- context [IntDef.Z.even ?a] => change (IntDef.Z.even a) with (Z.even a)
    end.

Lemma sub_finite_inv a b :
  is_finite (sub a b) = true -> is_finite a = true /\ is_finite b = true.
Proof.
  destruct a as [sa|sa| |sa ma ea], b as [sb|sb| |sb mb eb];
    try destruct sa; try destruct sb; simpl; intros H; try discriminate; auto.
Qed.

Lemma eqb_finite_cases x y :
  eqb x y = true -> is_finite y = true ->
  x = y \/ (is_zero x = true /\ is_zero y = true).
Proof.
  unfold eqb, SFeqb.
  destruct x as [sx|sx| |sx mx ex], y as [sy|sy| |sy my ey]; simpl;
    try discriminate; auto;
    try (destruct sx; discriminate); try (destruct sy; discriminate).
  intros H _. left.
  destruct sx, sy; try discriminate;
    destruct (Z.compare_spec ex ey) as [He|He|He]; try discriminate; subst;
    rewrite Pos.compare_cont_spec in H; simpl in H;
    destruct (Pos.compare_spec mx my) as [Hm|Hm|Hm]; try discriminate; subst; reflexivity.
Qed.

Lemma sub_diag x : is_finite x = true -> is_zero (sub x x) = true.
Proof.
  destruct x as [s|s| |s m e]; simpl; try discriminate; intros _.
  - destruct s; reflexivity.
  - unfold sub, SFsub. rewrite Z.min_id. unfold shl_align. to_binint.
    rewrite Z.sub_diag. cbv beta iota. unfold fst.
    replace (IntDef.Z.sub (cond_Zopp s (Z.pos m)) (cond_Zopp s (Z.pos m))) with 0
      by (symmetry; apply Z.sub_diag).
    reflexivity.
Qed.

Lemma one_as_quotient s m e :
  div (S754_finite s m e) (S754_finite s m e)
  = S754_finite false 4503599627370496 (-52).
Proof.
  unfold div, SFdiv, SFdiv_core_binary. to_binint.
  replace (Z.sub (Z.add (Zdigits2 (Z.pos m)) e) (Z.add (Zdigits2 (Z.pos m)) e)) with 0 by lia.
  rewrite Z.sub_diag.
  change (Z.min (fexp prec emax 0) 0) with (-53).
  change (0 - -53) with 53.
  cbv beta iota.
  rewrite Z.shiftl_mul_pow2 by lia.
  assert (Hdiv : Z.div_eucl (Z.pos m * 2 ^ 53) (Z.pos m) = (2 ^ 53, 0)).
  { assert (Hm0 : Z.pos m <> 0) by lia.
    rewrite (surjective_pairing (Z.div_eucl (Z.pos m * 2 ^ 53) (Z.pos m))).
    change (Z.div_eucl (Z.pos m * 2 ^ 53) (Z.pos m)).1 with ((Z.pos m * 2 ^ 53) / Z.pos m).
    change (Z.div_eucl (Z.pos m * 2 ^ 53) (Z.pos m)).2 with ((Z.pos m * 2 ^ 53) mod Z.pos m).
    rewrite (Z.mul_comm (Z.pos m)), Z.div_mul, Z.mod_mul by exact Hm0. reflexivity. }
  rewrite Hdiv.
  replace (new_location (Z.pos m) 0) with loc_Exact
    by (unfold new_location, new_location_even, new_location_odd;
        destruct (Z.even (Z.pos m)); reflexivity).
  destruct s; reflexivity.
Qed.

End F64Facts.

(** ** The orientation normalizer and the slice selector of the single-slice tool *)

Import Np NpFacts RotFacts.

(** C5. Rotating a 2-D plane by 360 degrees returns the plane itself:
    [360 // 90 = 4] and [numpy.rot90] with [k = 4] hands back its argument.
    Four successive rotations by 90 degrees also rebuild a well-formed plane,
    element for element. *)
Theorem rotate_360_identity (p : ndarray float) (X Y : nat) :
  shape p = [X; Y] ->
  _rotate_image p (Some 360) = Return p /\
  (wf p ->
   rbind (_rotate_image p (Some 90)) (fun r1 =>
   rbind (_rotate_image r1 (Some 90)) (fun r2 =>
   rbind (_rotate_image r2 (Some 90)) (fun r3 =>
   _rotate_image r3 (Some 90)))) = Return p).
Proof.
  intros Hs. split.
  - unfold _rotate_image, rot90, ndim. rewrite Hs. reflexivity.
  - intros Hwf. unfold _rotate_image.
    change (90 / 90) with 1.
    pose proof (shape_quarter S754_nan p X Y Hs) as H1.
    pose proof (shape_quarter S754_nan _ Y X H1) as H2.
    pose proof (shape_quarter S754_nan _ X Y H2) as H3.
    rewrite (rot90_1_quarter _ p X Y Hs). simpl.
    rewrite (rot90_1_quarter _ _ Y X H1). simpl.
    rewrite (rot90_1_quarter _ _ X Y H2). simpl.
    rewrite (rot90_1_quarter _ _ Y X H3).
    f_equal. apply (quarter_four _ p X Y Hs Hwf).
Qed.

Definition sample_plane : ndarray float :=
  build [2; 3]%nat
    (fun idx => match idx with
                | [i; j] => F64.of_int (Z.of_nat (10 * i + j))
                | _ => S754_nan
                end).

Lemma rotate_360_identity_witness :
  _rotate_image sample_plane (Some 360) = Return sample_plane /\
  rbind (_rotate_image sample_plane (Some 90)) (fun r1 =>
  rbind (_rotate_image r1 (Some 90)) (fun r2 =>
  rbind (_rotate_image r2 (Some 90)) (fun r3 =>
  _rotate_image r3 (Some 90)))) = Return sample_plane.
Proof.
  destruct (rotate_360_identity sample_plane 2 3 eq_refl) as [H1 H2].
  split; [exact H1 | apply H2; reflexivity].
Defined.

(** C6. The slice the single-slice tool extracts is slice 0 of a 3-D
    volume and slice 0 of volume 0 of a 4-D volume, and two volumes of one
    shape that agree there give the same plane, whatever else they hold. *)
Theorem first_slice_selects_origin (a : ndarray float) :
  (forall X Y Z, shape a = [X; Y; Z] -> (0 < Z)%nat ->
     exists p, first_slice a = Return p /\ shape p = [X; Y] /\
       forall i j, (i < X)%nat -> (j < Y)%nat ->
         item S754_nan p [i; j] = item S754_nan a [i; j; 0%nat]) /\
  (forall X Y Z W, shape a = [X; Y; Z; W] -> (0 < Z)%nat -> (0 < W)%nat ->
     exists p, first_slice a = Return p /\ shape p = [X; Y] /\
       forall i j, (i < X)%nat -> (j < Y)%nat ->
         item S754_nan p [i; j] = item S754_nan a [i; j; 0%nat; 0%nat]) /\
  (forall b X Y Z, shape a = [X; Y; Z] -> shape b = [X; Y; Z] ->
     (forall i j, (i < X)%nat -> (j < Y)%nat ->
        item S754_nan a [i; j; 0%nat] = item S754_nan b [i; j; 0%nat]) ->
     first_slice a = first_slice b) /\
  (forall b X Y Z W, shape a = [X; Y; Z; W] -> shape b = [X; Y; Z; W] ->
     (forall i j, (i < X)%nat -> (j < Y)%nat ->
        item S754_nan a [i; j; 0%nat; 0%nat] = item S754_nan b [i; j; 0%nat; 0%nat]) ->
     first_slice a = first_slice b).
Proof.
  repeat split.
  - intros X Y Z Hs HZ. unfold first_slice, ndim, index_axis2. rewrite Hs. simpl.
    destruct Z as [|Z]; [lia|]. simpl.
    eexists. split; [reflexivity|]. split; [reflexivity|].
    intros i j Hi Hj. rewrite item_build by (apply in_range_2_intro; lia). reflexivity.
  - intros X Y Z W Hs HZ HW. unfold first_slice, ndim, index_axis23. rewrite Hs. simpl.
    destruct Z as [|Z]; [lia|]. destruct W as [|W]; [lia|]. simpl.
    eexists. split; [reflexivity|]. split; [reflexivity|].
    intros i j Hi Hj. rewrite item_build by (apply in_range_2_intro; lia). reflexivity.
  - intros b X Y Z Ha Hb Hagree. unfold first_slice, ndim, index_axis2.
    rewrite Ha, Hb. simpl. destruct (0 <? Z)%nat; [|reflexivity].
    f_equal. apply build_ext. intros idx Hr.
    destruct (in_range_2 _ _ _ Hr) as (i & j & -> & Hi & Hj). apply Hagree; assumption.
  - intros b X Y Z W Ha Hb Hagree. unfold first_slice, ndim, index_axis23.
    rewrite Ha, Hb. simpl. destruct (0 <? Z)%nat; [|reflexivity].
    destruct (0 <? W)%nat; [|reflexivity].
    f_equal. apply build_ext. intros idx Hr.
    destruct (in_range_2 _ _ _ Hr) as (i & j & -> & Hi & Hj). apply Hagree; assumption.
Qed.

(** ** The intensity normalizer *)

(** A plane holds two values that differ. *)
Definition two_distinct (p : ndarray float) : Prop :=
  exists x y, In x (elems p) /\ In y (elems p) /\ F64.eqb x y = false.

(** What the normalizer is expected to deliver on [p]: an 8-bit plane of
    the same shape, 0 wherever [p] has its minimum and 255 wherever it has
    its maximum. *)
Definition spans_0_255 (cast_undefined : float -> Z) (p : ndarray float) : Prop :=
  exists out lo hi,
    normalize cast_undefined p = Return out /\ amin p = Return lo /\ amax p = Return hi /\
    shape out = shape p /\ length (elems out) = length (elems p) /\
    (forall v, In v (elems out) -> 0 <= v <= 255) /\
    (forall i x, nth_error (elems p) i = Some x -> F64.eqb x lo = true ->
                 nth_error (elems out) i = Some 0) /\
    (forall i x, nth_error (elems p) i = Some x -> F64.eqb x hi = true ->
                 nth_error (elems out) i = Some 255).

Section Normalizer.
Variable cast_undefined : float -> Z.
Import F64 F64Facts.

Definition rescale (lo range x : float) : Z :=
astype_uint8 cast_undefined (mul (div (sub x lo) range) (of_int 255)).

Lemma normalize_rescale p lo hi :
amin p = Return lo -> amax p = Return hi ->
normalize cast_undefined p = Return (map_elems (rescale lo (sub hi lo)) p).
Proof. intros Hlo Hhi. unfold normalize. rewrite Hlo, Hhi. reflexivity. Qed.

Lemma astype_uint8_range x : 0 <= astype_uint8 cast_undefined x <= 255.
Proof.
unfold astype_uint8.
pose proof (Z.mod_pos_bound (cast_undefined x) 256 ltac:(lia)).
destruct (trunc x) as [z|]; [|lia].
destruct (0 <=? z) eqn:H0; destruct (z <=? 255) eqn:H1; simpl; lia.
Qed.

Lemma rescale_zero_numerator lo range x :
is_zero (sub x lo) = true -> is_finite range = true -> is_zero range = false ->
rescale lo range x = 0.
Proof.
unfold rescale. intros Hz Hf Hnz.
destruct (sub x lo) as [s| | |]; try discriminate.
destruct range as [sr|sr| |sr mr er]; try discriminate.
destruct s, sr; reflexivity.
Qed.

Lemma rescale_at_min lo hi x :
is_finite (sub hi lo) = true -> is_zero (sub hi lo) = false ->
eqb x lo = true -> rescale lo (sub hi lo) x = 0.
Proof.
intros Hf Hnz Heq. apply rescale_zero_numerator; try assumption.
destruct (sub_finite_inv _ _ Hf) as [_ Hlo].
destruct (eqb_finite_cases _ _ Heq Hlo) as [->|[Hx Hl]].
- apply sub_diag. exact Hlo.
- destruct x as [sx| | |]; try discriminate.
destruct lo as [sl| | |]; try discriminate.
destruct sx, sl; reflexivity.
Qed.

Lemma sub_eqb_left x hi lo :
is_finite (sub hi lo) = true -> is_zero (sub hi lo) = false ->
eqb x hi = true -> sub x lo = sub hi lo.
Proof.
intros Hf Hnz Heq.
destruct (sub_finite_inv _ _ Hf) as [Hhi Hlo].
destruct (eqb_finite_cases _ _ Heq Hhi) as [->|[Hx Hh]]; [reflexivity|].
destruct x as [sx| | |]; try discriminate.
destruct hi as [sh| | |]; try discriminate.
destruct lo as [sl|sl| |sl ml el]; try discriminate.
- destruct sh, sl; discriminate.
- reflexivity.
Qed.

Lemma rescale_at_max lo hi x :
is_finite (sub hi lo) = true -> is_zero (sub hi lo) = false ->
eqb x hi = true -> rescale lo (sub hi lo) x = 255.
Proof.
intros Hf Hnz Heq. unfold rescale.
rewrite (sub_eqb_left _ _ _ Hf Hnz Heq).
destruct (sub hi lo) as [s|s| |s m e]; try discriminate.
rewrite one_as_quotient. reflexivity.
Qed.

(** C4, amended. When the range [max - min] of a plane, as float64
computes it, is finite and not zero, the normalizer returns an 8-bit
plane of the same shape with 0 at every position of the minimum and
255 at every position of the maximum. *)
Theorem normalize_spans_0_255 (p : ndarray float) (lo hi : float) :
amin p = Return lo -> amax p = Return hi ->
is_finite (sub hi lo) = true -> is_zero (sub hi lo) = false ->
spans_0_255 cast_undefined p.
Proof.
intros Hlo Hhi Hf Hnz. exists (map_elems (rescale lo (sub hi lo)) p), lo, hi.
split; [apply normalize_rescale; assumption|].
split; [assumption|]. split; [assumption|].
split; [reflexivity|]. split; [apply length_map|].
split; [|split].
- simpl. intros v Hv. apply in_map_iff in Hv. destruct Hv as [x [<- _]].
apply astype_uint8_range.
- simpl. intros i x Hi Heq. rewrite nth_error_map, Hi. simpl.
f_equal. apply rescale_at_min; assumption.
- simpl. intros i x Hi Heq. rewrite nth_error_map, Hi. simpl.
f_equal. apply rescale_at_max; assumption.
Qed.
End Normalizer.

Definition ramp_plane : ndarray float :=
  mk_ndarray [1; 3]%nat [F64.of_int 5; F64.of_int 2; F64.of_int 9].

Lemma normalize_spans_0_255_witness : spans_0_255 (fun _ => 0) ramp_plane.
Proof.
  apply (normalize_spans_0_255 (fun _ => 0) ramp_plane (F64.of_int 2) (F64.of_int 9));
    reflexivity.
Defined.

Example normalize_ramp :
  normalize (fun _ => 0) ramp_plane = Return (mk_ndarray [1; 3]%nat [109; 0; 255]).
Proof. reflexivity. Qed.

Definition infinite_plane : ndarray float :=
  mk_ndarray [1; 2]%nat [S754_infinity true; S754_infinity false].

(** C4 as stated fails: a plane holding minus and plus infinity has two
    distinct values, yet both pixels come out of the undefined cast of NaN
    and so are equal, whatever the platform makes of that cast. *)
Lemma normalize_fails_on_infinities :
  two_distinct infinite_plane /\
  forall cast_undefined, ~ spans_0_255 cast_undefined infinite_plane.
Proof.
  split.
  - exists (S754_infinity true), (S754_infinity false). simpl. auto.
  - intros cast (out & lo & hi & Hn & Hlo & Hhi & _ & _ & _ & Hmin & Hmax).
    injection Hlo as <-. injection Hhi as <-.
    assert (Hout : out = mk_ndarray [1; 2]%nat
                           [cast S754_nan mod 256; cast S754_nan mod 256]).
    { assert (Hc : normalize cast infinite_plane
                   = Return (mk_ndarray [1; 2]%nat
                               [cast S754_nan mod 256; cast S754_nan mod 256]))
        by reflexivity.
      congruence. }
    subst out.
    specialize (Hmin 0%nat (S754_infinity true) eq_refl eq_refl).
    specialize (Hmax 1%nat (S754_infinity false) eq_refl eq_refl).
    simpl in Hmin, Hmax. congruence.
Qed.

(** ** The single-slice driver *)

(** A result that, if it is an exception, is an instance of [Exception]. *)
Definition rsafe {A} (r : result A) : Prop :=
  match r with
  | Return _ => True
  | Raise (Exception _ _) => True
  | Raise _ => False
  end.

(** A computation that raises nothing but instances of [Exception]. *)
Definition safe {A} (m : M A) : Prop := forall w, rsafe (m w).1.

Lemma rsafe_rbind {A B} (r : result A) (k : A -> result B) :
  rsafe r -> (forall a, rsafe (k a)) -> rsafe (rbind r k).
Proof. destruct r as [a|e]; simpl; auto. Qed.

Lemma safe_ret {A} (a : A) : safe (ret a).
Proof. intros w. exact I. Qed.

Lemma safe_lift {A} (r : result A) : rsafe r -> safe (lift r).
Proof. intros H w. exact H. Qed.

Lemma safe_bind {A B} (m : M A) (k : A -> M B) :
  safe m -> (forall a, safe (k a)) -> safe (bind m k).
Proof.
  intros Hm Hk w. unfold bind. specialize (Hm w).
  destruct (m w) as [[a|e] w']; simpl in *; [apply Hk | exact Hm].
Qed.

Lemma rsafe_rot90 {A} (d : A) m k : rsafe (rot90 d m k).
Proof.
  unfold rot90. destruct (ndim m <? 2)%nat; simpl; [exact I|].
  destruct (k mod 4 =? 0); [exact I|]. destruct (k mod 4 =? 2); [exact I|].
  destruct (k mod 4 =? 1); exact I.
Qed.

Lemma rsafe_first_slice a : rsafe (first_slice a).
Proof.
  unfold first_slice, index_axis2, index_axis23.
  destruct (ndim a =? 4)%nat, (shape a) as [|X [|Y [|Z [|W rest]]]]; simpl; try exact I;
    destruct (0 <? Z)%nat; simpl; try exact I; destruct (0 <? W)%nat; exact I.
Qed.

Lemma rsafe_rotate_image p a : rsafe (_rotate_image p a).
Proof. destruct a as [a|]; simpl; [apply rsafe_rot90 | exact I]. Qed.

Lemma rsafe_normalize cast p : rsafe (normalize cast p).
Proof.
  unfold normalize, amin, amax. destruct (elems p); simpl; exact I.
Qed.

Lemma rsafe_fromarray a : rsafe (Image_fromarray a).
Proof.
  unfold Image_fromarray.
  destruct (shape a) as [|X [|Y [|c [|? ?]]]]; try exact I.
  destruct (Nat.leb 2 c && Nat.leb c 4)%bool; exact I.
Qed.

Lemma safe_nib_load p : safe (nib_load p).
Proof.
  intros w. unfold nib_load.
  destruct (files w !! Posixpath.abspath (cwd w) (Pathlib.as_posix p)) as [[img|c msg|r]|];
    simpl; try exact I.
  destruct (Os.is_dir w _); exact I.
Qed.

Lemma safe_write_raster p r : safe (Os.write_raster p r).
Proof.
  intros w. unfold Os.write_raster.
  destruct (String.eqb p ""); simpl; [exact I|].
  destruct (Os.is_dir w _); simpl; [exact I|].
  destruct (Os.is_file w _); simpl; [exact I|].
  destruct (negb (Os.is_dir w _)); exact I.
Qed.

Lemma safe_uuid4_hex : safe uuid4_hex.
Proof. intros w. exact I. Qed.

Lemma safe_run_body cast self p a : safe (_run_body cast self p a).
Proof.
  unfold _run_body, _process_nifti.
  apply safe_bind.
  - apply safe_bind; [apply safe_nib_load | intros img].
    apply safe_bind; [apply safe_lift, rsafe_first_slice | intros s].
    apply safe_bind; [apply safe_lift, rsafe_rotate_image | intros r].
    apply safe_bind; [apply safe_lift, rsafe_normalize | intros n].
    apply safe_ret.
  - intros [img_array metadata].
    apply safe_bind; [apply safe_uuid4_hex | intros hex].
    apply safe_bind; [apply safe_lift, rsafe_fromarray | intros img].
    apply safe_bind; [apply safe_write_raster | intros _].
    apply safe_ret.
Qed.

(** The record [_run] returns from its [except] clause. *)
Definition failure_metadata (nifti_path msg : string) : gmap string pyval :=
  <["error_details" := PStr msg]>
  (<["analysis_status" := PStr "failed"]>
  (<["nifti_path" := PStr nifti_path]> ∅)).

(** C1. [_run] always returns a pair and raises nothing; when a step of its
    body raises, the exception is an [Exception] with some text [msg], the
    output dictionary is [{"error": msg}], and the metadata has
    [analysis_status = "failed"] and [error_details = msg]. *)
Theorem run_never_raises cast (self : NiftiProcessorTool) (nifti_path : string)
    (rotation_angle : option Z) (w : world) :
  (exists out meta w',
     _run cast self nifti_path rotation_angle w = (Return (out, meta), w')) /\
  (forall e w',
     _run_body cast self nifti_path rotation_angle w = (Raise e, w') ->
     exists c msg out meta,
       e = Exception c msg /\
       _run cast self nifti_path rotation_angle w = (Return (out, meta), w') /\
       out !! "error" = Some msg /\
       meta !! "analysis_status" = Some (PStr "failed") /\
       meta !! "error_details" = Some (PStr msg)).
Proof.
  pose proof (safe_run_body cast self nifti_path rotation_angle w) as Hsafe.
  unfold _run, try_except_Exception, ret.
  destruct (_run_body cast self nifti_path rotation_angle w) as [[[out meta]|e] w'] eqn:Hb;
    simpl in Hsafe.
  - split; [eauto | intros e w'' H; discriminate].
  - destruct e as [c msg| |code]; try contradiction.
    split; [eauto|].
    intros e w'' H. injection H as <- <-.
    eexists c, msg, _, _. split; [reflexivity|]. split; [reflexivity|].
    split; [apply lookup_singleton_eq|].
    split; reflexivity.
Qed.

Lemma nib_load_Return p w img w1 :
  nib_load p w = (Return img, w1) ->
  files w !! Posixpath.abspath (cwd w) p = Some (NiftiFile img) /\ w1 = log (ELoad p) w.
Proof.
  unfold nib_load. rewrite abspath_as_posix.
  destruct (files w !! Posixpath.abspath (cwd w) p) as [[img'|c msg|r]|]; try discriminate.
  - intros H. injection H as <- <-. auto.
  - destruct (Os.is_dir w _); discriminate.
Qed.

Lemma write_raster_Return p r w w' :
  Os.write_raster p r w = (Return tt, w') ->
  Os.can_write w p = true /\
  w' = mk_world (cwd w) (dirs w)
         (<[Posixpath.abspath (cwd w) p := RasterFile r]> (files w))
         (uuid_hex w) (uuid_drawn w) (EWrite p r :: trace w).
Proof.
  unfold Os.write_raster, Os.can_write.
  destruct (String.eqb p ""); [discriminate|].
  destruct (Os.is_dir w (Posixpath.abspath (cwd w) p)); [discriminate|].
  destruct (Os.is_file w _); [discriminate|].
  destruct (Os.is_dir w _); [|discriminate].
  simpl. intros H. injection H as <-. auto.
Qed.

Lemma write_raster_can_write p r w :
  Os.can_write w p = true ->
  Os.write_raster p r w =
    (Return tt,
     mk_world (cwd w) (dirs w)
       (<[Posixpath.abspath (cwd w) p := RasterFile r]> (files w))
       (uuid_hex w) (uuid_drawn w) (EWrite p r :: trace w)).
Proof.
  unfold Os.write_raster, Os.can_write.
  destruct (String.eqb p ""); [discriminate|].
  destruct (Os.is_dir w (Posixpath.abspath (cwd w) p)); [discriminate|].
  destruct (Os.is_file w _); [discriminate|].
  destruct (Os.is_dir w _); [|discriminate].
  reflexivity.
Qed.

Lemma fromarray_Return a r : Image_fromarray a = Return r -> r = GrayL a.
Proof.
  unfold Image_fromarray.
  destruct (shape a) as [|X [|Y [|c [|? ?]]]]; try discriminate.
  - intros H. injection H as <-. reflexivity.
  - destruct (Nat.leb 2 c && Nat.leb c 4)%bool; [|discriminate].
    intros H. injection H as <-. reflexivity.
Qed.

(** The path [_run] writes to in world [w]. *)
Definition output_path_in (self : NiftiProcessorTool) (w : world) : string :=
  path_child (temp_dir self)
    ("processed_nifti_" +:+ String.substring 0 8 (uuid_hex w (uuid_drawn w)) +:+ ".png").

(** The metadata of a completed run. *)
Definition success_metadata (img : nifti_image) (nifti_path output_path : string)
    (rotation_angle : option Z) : gmap string pyval :=
  <["analysis_status" := PStr "completed"]>
  (<["rotation_angle" := match rotation_angle with
                         | Some a => PInt a
                         | None => PNone
                         end]>
  (<["output_path" := PStr output_path]>
  (<["original_path" := PStr nifti_path]> (base_metadata img)))).

Lemma run_body_Return cast self p a w out meta w' :
  _run_body cast self p a w = (Return (out, meta), w') ->
  exists img pix,
    files w !! Posixpath.abspath (cwd w) p = Some (NiftiFile img) /\
    out = {[ "image_path" := output_path_in self w ]} /\
    meta = success_metadata img p (output_path_in self w) a /\
    files w' !! Posixpath.abspath (cwd w) (output_path_in self w) = Some (RasterFile (GrayL pix)).
Proof.
  unfold _run_body, _process_nifti, bind, lift, ret. intros H.
  destruct (nib_load p w) as [[img|e] w1] eqn:Hload; [|discriminate].
  apply nib_load_Return in Hload. destruct Hload as [Hfile ->].
  destruct (first_slice (fdata img)) as [s|e]; [|discriminate].
  destruct (_rotate_image s a) as [r|e]; [|discriminate].
  destruct (normalize cast r) as [n|e]; [|discriminate].
  unfold uuid4_hex in H. simpl in H.
  destruct (Image_fromarray n) as [im|e] eqn:Him; [|discriminate].
  apply fromarray_Return in Him. subst im.
  match type of H with
  | context [Os.write_raster ?q ?r ?w0] =>
      destruct (Os.write_raster q r w0) as [[[]|e] w3] eqn:Hw; [|discriminate]
  end.
  apply write_raster_Return in Hw. destruct Hw as [_ ->].
  injection H as <- <- <-.
  exists img, n. split; [exact Hfile|]. split; [reflexivity|]. split; [reflexivity|].
  simpl. apply lookup_insert_eq.
Qed.

(** C9, amended. Every run returns a metadata record. After a completed run
    it holds [dimensions], [shape], [affine] (a nested list), [header_info],
    [original_path], [output_path] and [rotation_angle], with
    [analysis_status = "completed"] and no [error_details]. After a failed run
    it holds exactly [nifti_path], [analysis_status = "failed"] and
    [error_details]. *)
Theorem run_metadata_record cast (self : NiftiProcessorTool) (nifti_path : string)
    (rotation_angle : option Z) (w : world) :
  exists out meta w',
    _run cast self nifti_path rotation_angle w = (Return (out, meta), w') /\
    ((meta !! "analysis_status" = Some (PStr "completed") /\
      (exists img,
         files w !! Posixpath.abspath (cwd w) nifti_path = Some (NiftiFile img) /\
         meta !! "dimensions" = Some (PInt (Z.of_nat (ndim (fdata img)))) /\
         meta !! "shape" = Some (PTuple (map Z.of_nat (shape (fdata img)))) /\
         meta !! "affine" = Some (tolist (affine img)) /\
         meta !! "header_info" = Some (PHeader (header img))) /\
      meta !! "original_path" = Some (PStr nifti_path) /\
      (exists output_path,
         meta !! "output_path" = Some (PStr output_path) /\
         out !! "image_path" = Some output_path) /\
      (exists angle, rotation_angle = Some angle /\
                     meta !! "rotation_angle" = Some (PInt angle)) /\
      meta !! "error_details" = None)
     \/
     (meta !! "analysis_status" = Some (PStr "failed") /\
      (exists msg, meta !! "error_details" = Some (PStr msg) /\ out !! "error" = Some msg) /\
      meta !! "nifti_path" = Some (PStr nifti_path) /\
      dom meta = ({[ "nifti_path"; "analysis_status"; "error_details" ]} : gset string))).
Proof.
  pose proof (safe_run_body cast self nifti_path rotation_angle w) as Hsafe.
  unfold _run, try_except_Exception, ret.
  destruct (_run_body cast self nifti_path rotation_angle w) as [[[out meta]|e] w'] eqn:Hb;
    simpl in Hsafe.
  - exists out, meta, w'. split; [reflexivity|]. left.
    assert (Ha : exists angle, rotation_angle = Some angle).
    { destruct rotation_angle as [angle|]; [eauto|].
      exfalso. revert Hb. unfold _run_body, _process_nifti, bind, lift, ret.
      destruct (nib_load nifti_path w) as [[img|e] w1]; [|discriminate].
      destruct (first_slice (fdata img)) as [s|e]; discriminate. }
    destruct Ha as [angle ->].
    apply run_body_Return in Hb. destruct Hb as (img & pix & Hfile & -> & -> & _).
    split; [reflexivity|].
    split; [exists img; repeat split; [exact Hfile | reflexivity..] |].
    split; [reflexivity|].
    split; [eexists; split; [reflexivity | apply lookup_singleton_eq] |].
    split; [eauto | reflexivity].
  - destruct e as [c msg| |code]; try contradiction.
    eexists _, _, w'. split; [reflexivity|]. right.
    split; [reflexivity|].
    split; [exists msg; split; [reflexivity | apply lookup_singleton_eq] |].
    split; [reflexivity|].
    rewrite !dom_insert_L, dom_empty_L. set_solver.
Qed.

(** *** A constant volume *)

Lemma minimum_idem c : minimum c c = c.
Proof. unfold minimum. destruct (F64.ltb c c || F64.is_nan c)%bool; reflexivity. Qed.

Lemma maximum_idem c : maximum c c = c.
Proof. unfold maximum. destruct (F64.ltb c c || F64.is_nan c)%bool; reflexivity. Qed.

Lemma fold_minimum_repeat c n : fold_left minimum (repeat c n) c = c.
Proof. induction n as [|n IH]; simpl; [reflexivity | rewrite minimum_idem; exact IH]. Qed.

Lemma fold_maximum_repeat c n : fold_left maximum (repeat c n) c = c.
Proof. induction n as [|n IH]; simpl; [reflexivity | rewrite maximum_idem; exact IH]. Qed.

(** With all values equal the range is zero or NaN, and the rescaled value
    is NaN whatever the common value. *)
Lemma degenerate_quotient c :
  F64.mul (F64.div (F64.sub c c) (F64.sub c c)) (F64.of_int 255) = S754_nan.
Proof.
  destruct c as [s|s| |s m e].
  - destruct s; reflexivity.
  - destruct s; reflexivity.
  - reflexivity.
  - pose proof (F64Facts.sub_diag (S754_finite s m e) eq_refl) as Hz.
    destruct (F64.sub (S754_finite s m e) (S754_finite s m e)) as [s'| | |]; try discriminate.
    destruct s'; reflexivity.
Qed.

Lemma normalize_constant cast c sh n :
  normalize cast (mk_ndarray sh (repeat c (S n)))
  = Return (mk_ndarray sh (repeat (cast S754_nan mod 256) (S n))).
Proof.
  unfold normalize, amin, amax. cbn [elems repeat rbind].
  rewrite fold_minimum_repeat, fold_maximum_repeat.
  unfold map_elems. cbn [shape elems]. f_equal. f_equal.
  change (c :: repeat c n) with (repeat c (S n)).
  rewrite map_repeat, degenerate_quotient. reflexivity.
Qed.

Lemma rot90_constant_4x4 (c : float) k :
  rot90 S754_nan (mk_ndarray [4; 4]%nat (repeat c 16)) k
  = Return (mk_ndarray [4; 4]%nat (repeat c 16)).
Proof.
  unfold rot90. cbn [ndim shape length Nat.ltb Nat.leb].
  destruct (k mod 4 =? 0); [reflexivity|].
  destruct (k mod 4 =? 2); [reflexivity|].
  destruct (k mod 4 =? 1); reflexivity.
Qed.

(** C8. A 3-D volume of shape (4, 4, 2) with all values equal, read from a
    file that decodes and saved where a file can be written, goes through
    the single-slice driver to a completed result: the output holds the image
    path, the metadata [analysis_status = "completed"] and [shape = (4, 4, 2)],
    and the image written is a 4 x 4 plane of the one value the platform's
    cast gives NaN. *)
Theorem run_constant_volume cast (self : NiftiProcessorTool) (nifti_path : string)
    (angle : Z) (w : world) (img : nifti_image) (c : float) :
  files w !! Posixpath.abspath (cwd w) nifti_path = Some (NiftiFile img) ->
  nifti_path <> "" -> Str.endswith nifti_path "/" = false ->
  fdata img = mk_ndarray [4; 4; 2]%nat (repeat c 32) ->
  Os.can_write w (output_path_in self w) = true ->
  exists out meta w',
    _run cast self nifti_path (Some angle) w = (Return (out, meta), w') /\
    out !! "image_path" = Some (output_path_in self w) /\
    meta !! "analysis_status" = Some (PStr "completed") /\
    meta !! "shape" = Some (PTuple [4; 4; 2]) /\
    meta !! "error_details" = None /\
    files w' !! Posixpath.abspath (cwd w) (output_path_in self w)
      = Some (RasterFile (GrayL (mk_ndarray [4; 4]%nat (repeat (cast S754_nan mod 256) 16)))).
Proof.
  intros Hfile Hne Hslash Hdata Hcw.
  assert (Hload : nib_load nifti_path w = (Return img, log (ELoad nifti_path) w)).
  { unfold nib_load. rewrite abspath_as_posix, Hfile. reflexivity. }
  assert (Hslice : first_slice (fdata img) = Return (mk_ndarray [4; 4]%nat (repeat c 16))).
  { rewrite Hdata. reflexivity. }
  assert (Hbody : _run_body cast self nifti_path (Some angle) w
                  = (Return ({[ "image_path" := output_path_in self w ]},
                             success_metadata img nifti_path (output_path_in self w) (Some angle)),
                     mk_world (cwd w) (dirs w)
                       (<[Posixpath.abspath (cwd w) (output_path_in self w)
                          := RasterFile (GrayL (mk_ndarray [4; 4]%nat
                                                  (repeat (cast S754_nan mod 256) 16)))]>
                          (files w))
                       (uuid_hex w) (S (uuid_drawn w))
                       (EWrite (output_path_in self w)
                          (GrayL (mk_ndarray [4; 4]%nat (repeat (cast S754_nan mod 256) 16)))
                          :: ELoad nifti_path :: trace w))).
  { unfold _run_body, _process_nifti, bind, lift, ret.
    rewrite Hload, Hslice. unfold _rotate_image. rewrite rot90_constant_4x4.
    rewrite (normalize_constant cast c [4; 4]%nat 15).
    unfold uuid4_hex. cbn [Image_fromarray shape].
    match goal with
    | |- context [Os.write_raster ?q ?r ?w0] =>
        rewrite (write_raster_can_write q r w0) by exact Hcw
    end.
    reflexivity. }
  unfold _run, try_except_Exception. rewrite Hbody.
  eexists _, _, _. split; [reflexivity|].
  split; [apply lookup_singleton_eq|].
  split; [reflexivity|].
  split; [unfold success_metadata, base_metadata; rewrite Hdata; reflexivity|].
  split; [reflexivity|].
  cbn [files]. apply lookup_insert_eq.
Qed.


(** *** A sample world *)

Definition ramp_volume : ndarray float :=
  build [2; 3; 2]%nat
    (fun idx => match idx with
                | [i; j; k] => F64.of_int (Z.of_nat (100 * i + 10 * j + k))
                | _ => S754_nan
                end).

Definition identity_affine : ndarray float :=
  build [4; 4]%nat
    (fun idx => match idx with
                | [i; j] => F64.of_int (if (i =? j)%nat then 1 else 0)
                | _ => S754_nan
                end).

Definition ramp_image : nifti_image :=
  mk_nifti ramp_volume identity_affine [("descrip", "ramp")].

Definition flat_image : nifti_image :=
  mk_nifti (mk_ndarray [4; 4; 2]%nat (repeat (F64.of_int 7) 32)) identity_affine
    [("descrip", "flat")].

Definition demo_world : world :=
  mk_world "/data"
    {[ "/data"; "/tmp"; "/tmp/medrax" ]}
    {[ "/data/scan.nii.gz" := NiftiFile ramp_image;
       "/data/flat.nii" := NiftiFile flat_image;
       "/data/broken.nii" := BadFile ImageFileError "File /data/broken.nii is not a nifti1 image";
       "/data/notes.txt" := BadFile ImageFileError "Cannot work out file type of notes.txt" ]}
    (fun n => "9f86d081884c7d659a2feaa0c55ad015")
    0 [].

Definition demo_tool : NiftiProcessorTool := mk_tool "/tmp/medrax".

(** A trailing slash after the name of a file does not keep nibabel from
    loading it, while [os.path.exists] does not find the file under that
    name. *)
Example load_trailing_slash_ex :
  (nib_load "scan.nii.gz/" demo_world).1 = Return ramp_image /\
  Os.path_exists demo_world "scan.nii.gz/" = false.
Proof. split; vm_compute; reflexivity. Qed.

Lemma run_constant_volume_witness :
  exists out meta w',
    _run (fun _ => 0) demo_tool "flat.nii" (Some 90) demo_world = (Return (out, meta), w') /\
    out !! "image_path" = Some (output_path_in demo_tool demo_world) /\
    meta !! "analysis_status" = Some (PStr "completed") /\
    meta !! "shape" = Some (PTuple [4; 4; 2]) /\
    meta !! "error_details" = None /\
    files w' !! Posixpath.abspath (cwd demo_world) (output_path_in demo_tool demo_world)
      = Some (RasterFile (GrayL (mk_ndarray [4; 4]%nat (repeat (0 mod 256) 16)))).
Proof.
  apply (run_constant_volume (fun _ => 0) demo_tool "flat.nii" 90 demo_world
           flat_image (F64.of_int 7));
    [reflexivity | discriminate | reflexivity | reflexivity | reflexivity].
Defined.


(** *** Runs that complete, runs that fail *)

(** A plane: two axes and as many elements as its shape says, at least one. *)
Definition plane_like {A} (p : ndarray A) : Prop :=
  (exists X Y, shape p = [X; Y]) /\ length (elems p) = size_of (shape p) /\
  (0 < length (elems p))%nat.

Lemma plane_like_build {A} X Y (f : list nat -> A) :
  (0 < X * Y)%nat -> plane_like (build [X; Y] f).
Proof.
  intros H. unfold plane_like, build. cbn [shape elems].
  rewrite length_map, length_indices. cbn [size_of fold_right].
  split; [eauto|]. split; [reflexivity | lia].
Qed.

Lemma rot90_plane_like {A} (d : A) (p : ndarray A) k :
  plane_like p -> exists r, rot90 d p k = Return r /\ plane_like r.
Proof.
  intros ((X & Y & Hs) & Hlen & Hpos).
  assert (HXY : (0 < X * Y)%nat).
  { rewrite Hs in Hlen. cbn [size_of fold_right] in Hlen. lia. }
  unfold rot90, ndim. rewrite Hs. cbn [length Nat.ltb Nat.leb].
  destruct (k mod 4 =? 0).
  { eexists. split; [reflexivity|]. split; [eauto | split; assumption]. }
  unfold flip0, flip1, swap01. rewrite Hs. cbn [shape build].
  destruct (k mod 4 =? 2); [|destruct (k mod 4 =? 1)];
    (eexists; split; [reflexivity|]; apply plane_like_build; lia).
Qed.

Lemma first_slice_plane_like (a : ndarray float) :
  ((exists X Y Z, shape a = [X; Y; Z] /\ (0 < X * Y * Z)%nat) \/
   (exists X Y Z W, shape a = [X; Y; Z; W] /\ (0 < X * Y * Z * W)%nat)) ->
  exists p, first_slice a = Return p /\ plane_like p.
Proof.
  unfold first_slice, ndim, index_axis2, index_axis23.
  intros [(X & Y & Z & Hs & Hpos)|(X & Y & Z & W & Hs & Hpos)]; rewrite Hs;
    cbn [length Nat.eqb].
  - destruct Z as [|Z]; [lia|]. cbn [Nat.ltb Nat.leb].
    eexists. split; [reflexivity|]. apply plane_like_build. nia.
  - destruct Z as [|Z]; [lia|]. destruct W as [|W]; [lia|]. cbn [Nat.ltb Nat.leb].
    eexists. split; [reflexivity|]. apply plane_like_build. nia.
Qed.

Lemma normalize_plane_like cast (p : ndarray float) :
  plane_like p ->
  exists pix, normalize cast p = Return pix /\ exists X Y, shape pix = [X; Y].
Proof.
  intros (Hs & _ & Hpos). unfold normalize, amin, amax.
  destruct (elems p) as [|x l] eqn:He; [cbn in Hpos; lia|].
  cbn [rbind]. eexists. split; [reflexivity|]. exact Hs.
Qed.

(** A run on a file that decodes to a 3-D or 4-D volume with no empty axis,
    whatever the integer angle, completes when the image can be written:
    [_run] returns the image path and the metadata of a completed run, and
    the only effects are the load and the one file written. *)
Lemma run_completes_any_name cast (self : NiftiProcessorTool) (nifti_path : string)
    (angle : Z) (w : world) (img : nifti_image) :
  files w !! Posixpath.abspath (cwd w) nifti_path = Some (NiftiFile img) ->
  ((exists X Y Z, shape (fdata img) = [X; Y; Z] /\ (0 < X * Y * Z)%nat) \/
   (exists X Y Z W, shape (fdata img) = [X; Y; Z; W] /\ (0 < X * Y * Z * W)%nat)) ->
  Os.can_write w (output_path_in self w) = true ->
  exists pix w',
    _run cast self nifti_path (Some angle) w
    = (Return ({[ "image_path" := output_path_in self w ]},
               success_metadata img nifti_path (output_path_in self w) (Some angle)), w') /\
    files w' = <[Posixpath.abspath (cwd w) (output_path_in self w) := RasterFile (GrayL pix)]>
                 (files w) /\
    dirs w' = dirs w /\
    trace w' = EWrite (output_path_in self w) (GrayL pix) :: ELoad nifti_path :: trace w.
Proof.
  intros Hfile Hshape Hcw.
  assert (Hload : nib_load nifti_path w = (Return img, log (ELoad nifti_path) w)).
  { unfold nib_load. rewrite abspath_as_posix, Hfile. reflexivity. }
  destruct (first_slice_plane_like _ Hshape) as (s & Hs & Hsp).
  destruct (rot90_plane_like S754_nan s (angle / 90) Hsp) as (r & Hr & Hrp).
  destruct (normalize_plane_like cast r Hrp) as (pix & Hn & X & Y & Hps).
  exists pix.
  unfold _run, try_except_Exception, _run_body, _process_nifti, bind, lift, ret.
  rewrite Hload, Hs. unfold _rotate_image. rewrite Hr, Hn.
  unfold uuid4_hex, Image_fromarray. rewrite Hps.
  match goal with
  | |- context [Os.write_raster ?q ?c ?w0] =>
      rewrite (write_raster_can_write q c w0) by exact Hcw
  end.
  eexists. split; [reflexivity|]. split; [reflexivity|]. split; reflexivity.
Qed.

Lemma run_completes cast (self : NiftiProcessorTool) (nifti_path : string)
    (angle : Z) (w : world) (img : nifti_image) :
  files w !! Posixpath.abspath (cwd w) nifti_path = Some (NiftiFile img) ->
  nifti_path <> "" -> Str.endswith nifti_path "/" = false ->
  ((exists X Y Z, shape (fdata img) = [X; Y; Z] /\ (0 < X * Y * Z)%nat) \/
   (exists X Y Z W, shape (fdata img) = [X; Y; Z; W] /\ (0 < X * Y * Z * W)%nat)) ->
  Os.can_write w (output_path_in self w) = true ->
  exists pix w',
    _run cast self nifti_path (Some angle) w
    = (Return ({[ "image_path" := output_path_in self w ]},
               success_metadata img nifti_path (output_path_in self w) (Some angle)), w') /\
    files w' = <[Posixpath.abspath (cwd w) (output_path_in self w) := RasterFile (GrayL pix)]>
                 (files w) /\
    dirs w' = dirs w /\
    trace w' = EWrite (output_path_in self w) (GrayL pix) :: ELoad nifti_path :: trace w.
Proof.
  intros Hfile _ _. apply run_completes_any_name. exact Hfile.
Qed.

Lemma nib_load_missing p w :
  files w !! Posixpath.abspath (cwd w) p = None ->
  Os.is_dir w (Posixpath.abspath (cwd w) p) = false ->
  nib_load p w
  = (Raise (Exception FileNotFoundError
              ("No such file or no access: '" +:+ Pathlib.as_posix p +:+ "'")),
     log (ELoad p) w).
Proof.
  intros Hf Hd. unfold nib_load. rewrite abspath_as_posix, Hf, Hd. reflexivity.
Qed.

(** A path that names neither a file nor a directory makes the single-slice
    driver return the failure record; the load was attempted and nothing
    else happened: no file or directory is made. *)
Lemma run_on_missing_path cast (self : NiftiProcessorTool) (nifti_path : string)
    (rotation_angle : option Z) (w : world) :
  files w !! Posixpath.abspath (cwd w) nifti_path = None ->
  Os.is_dir w (Posixpath.abspath (cwd w) nifti_path) = false ->
  exists msg,
    _run cast self nifti_path rotation_angle w
    = (Return ({[ "error" := msg ]}, failure_metadata nifti_path msg),
       log (ELoad nifti_path) w).
Proof.
  intros Hf Hd. eexists.
  unfold _run, try_except_Exception, _run_body, _process_nifti, bind.
  rewrite (nib_load_missing _ _ Hf Hd). reflexivity.
Qed.


(** C9 as stated fails: the record of a failed run has none of the fields of
    a completed one. *)
Lemma failed_run_lacks_fields :
  exists out meta w',
    _run (fun _ => 0) demo_tool "missing.nii" (Some 90) demo_world = (Return (out, meta), w') /\
    meta !! "analysis_status" = Some (PStr "failed") /\
    meta !! "dimensions" = None /\ meta !! "shape" = None /\ meta !! "affine" = None /\
    meta !! "header_info" = None /\ meta !! "original_path" = None.
Proof.
  destruct (run_on_missing_path (fun _ => 0) demo_tool "missing.nii" (Some 90) demo_world)
    as (msg & Hrun).
  - vm_compute. reflexivity.
  - vm_compute. reflexivity.
  - eexists _, _, _. split; [exact Hrun|]. repeat split.
Qed.
(** ** The batch converter *)

(** The suffix test of [convert_nii_to_png]. *)
Definition recognized (file_path : string) : bool :=
  Str.endswith file_path ".nii" || Str.endswith file_path ".nii.gz".

(** [fname_noext]: the base name up to its first dot. *)
Definition stem_of (file_path : string) : string :=
  hd "" (Str.split_on Str.dot (Posixpath.basename file_path)).

(** [output_dir], as [convert_nii_to_png] computes it in world [w]. *)
Definition output_dir_of (w : world) (file_path : string) (output_dir_path : option string)
  : string :=
  Posixpath.join
    match output_dir_path with
    | None => Posixpath.dirname (Posixpath.abspath (cwd w) file_path)
    | Some o => Posixpath.abspath (cwd w) o
    end
    (stem_of file_path).

Lemma recognized_not_dir_like p :
  recognized p = true -> p <> "" /\ Str.endswith p "/" = false.
Proof.
  unfold recognized, Str.endswith. intros H. split.
  - intros ->. discriminate.
  - destruct (String.rev p) as [|c r]; [reflexivity|].
    change (String.rev "/") with "/". change (String.rev ".nii") with "iin." in H.
    change (String.rev ".nii.gz") with "zg.iin." in H.
    cbn [String.prefix] in *.
    destruct (ascii_dec "/" c) as [<-|]; [|reflexivity].
    destruct (ascii_dec "i" "/"); [discriminate|].
    destruct (ascii_dec "z" "/"); discriminate.
Qed.

Lemma normpath_nonempty p : Posixpath.normpath p <> "".
Proof.
  unfold Posixpath.normpath.
  destruct (String.eqb p ""); [discriminate|].
  match goal with |- context [String.eqb ?x ""] => destruct (String.eqb_spec x "") end;
    [discriminate | assumption].
Qed.

Lemma makedirs_Return p w w1 :
  Os.makedirs p w = (Return tt, w1) ->
  w1 = mk_world (cwd w)
         (dirs w ∪ list_to_set (Posixpath.ancestors (Posixpath.abspath (cwd w) p)))
         (files w) (uuid_hex w) (uuid_drawn w) (EMakedirs p :: trace w) /\
  Os.is_dir w1 (Posixpath.abspath (cwd w) p) = true.
Proof.
  unfold Os.makedirs.
  destruct (String.eqb p ""); [discriminate|].
  destruct (Os.is_file w _); [discriminate|].
  destruct (existsb _ _); [discriminate|].
  intros H. injection H as <-. split; [reflexivity|].
  unfold Os.is_dir. cbn [dirs log].
  set (q := Posixpath.abspath (cwd w) p).
  assert (Hq : q <> "") by apply normpath_nonempty.
  apply String.eqb_neq in Hq. rewrite Hq. cbn [negb andb].
  destruct (Str.all_chars Str.slash q) eqn:Hall; [reflexivity|].
  cbn [orb]. apply bool_decide_eq_true.
  apply elem_of_union_r, elem_of_list_to_set.
  unfold Posixpath.ancestors. destruct q as [|a q']; [discriminate|].
  cbn [String.length Posixpath.ancestors_upto].
  rewrite Hq, Hall. cbn [orb]. apply list_elem_of_here.
Qed.

Lemma path_exists_of_file p w f :
  files w !! Posixpath.abspath (cwd w) p = Some f -> recognized p = true ->
  Os.path_exists w p = true.
Proof.
  intros Hf Hrec. destruct (recognized_not_dir_like p Hrec) as [Hne Hsl].
  unfold Os.path_exists, Os.is_file. rewrite Hf, Hsl.
  apply String.eqb_neq in Hne. rewrite Hne.
  rewrite bool_decide_eq_true_2 by eauto. cbn. apply orb_true_r.
Qed.

(** C2. A path that does not exist makes the batch converter raise
    [FileNotFoundError], and an existing path without the suffix [.nii] or
    [.nii.gz] makes it raise [ValueError]; in both cases the world is left as
    it was: no directory made, no load attempted, nothing written. *)
Theorem convert_rejects_early imsave_error (file_path : string)
    (output_dir_path : option string) (rotation_angle : Z) (w : world) :
  (Os.path_exists w file_path = false ->
   convert_nii_to_png imsave_error file_path output_dir_path rotation_angle w
   = (Raise (Exception FileNotFoundError ("Input file not found: " +:+ file_path)), w)) /\
  (Os.path_exists w file_path = true -> recognized file_path = false ->
   convert_nii_to_png imsave_error file_path output_dir_path rotation_angle w
   = (Raise (Exception ValueError
               ("Input file must be a NIfTI file (.nii or .nii.gz): " +:+ file_path)), w)).
Proof.
  unfold convert_nii_to_png, bind, os_path_exists, recognized. split.
  - intros ->. reflexivity.
  - intros -> ->. reflexivity.
Qed.

(** C10. For an existing path with a recognized suffix whose file does not
    decode, the batch converter makes the output directory first, then tries
    to load, and the error of the load leaves with the directory still
    there: nothing is undone. *)
Theorem convert_keeps_directory_on_decode_error imsave_error (file_path : string)
    (output_dir_path : option string) (rotation_angle : Z) (w w1 : world)
    (c : exc_class) (msg : string) :
  recognized file_path = true ->
  files w !! Posixpath.abspath (cwd w) file_path = Some (BadFile c msg) ->
  Os.makedirs (output_dir_of w file_path output_dir_path) w = (Return tt, w1) ->
  exists w',
    convert_nii_to_png imsave_error file_path output_dir_path rotation_angle w
    = (Raise (Exception c msg), w') /\
    trace w' = ELoad file_path
               :: EPrint ("Output directory: " +:+ output_dir_of w file_path output_dir_path)
               :: EMakedirs (output_dir_of w file_path output_dir_path)
               :: trace w /\
    dirs w' = dirs w1 /\
    Os.is_dir w' (Posixpath.abspath (cwd w) (output_dir_of w file_path output_dir_path)) = true /\
    files w' = files w.
Proof.
  intros Hrec Hfile Hmk.
  pose proof (path_exists_of_file _ _ _ Hfile Hrec) as Hex.
  destruct (makedirs_Return _ _ _ Hmk) as [Hw1 Hdir].
  unfold convert_nii_to_png, bind, os_path_exists, os_path_abspath, ret, print.
  rewrite Hex. cbn [negb]. fold (recognized file_path). rewrite Hrec. cbn [negb].
  fold (stem_of file_path).
  destruct output_dir_path as [o|]; unfold output_dir_of in *.
  all: rewrite Hmk; unfold nib_load; subst w1; cbn [cwd files log];
    rewrite abspath_as_posix, Hfile; eexists; split; [reflexivity|];
    split; [reflexivity|]; split; [reflexivity|]; split; [exact Hdir | reflexivity].
Qed.

(** *** The planes written *)

(** The paths written so far, oldest first. *)
Definition written (w : world) : list string :=
  flat_map (fun ev => match ev with EWrite p _ => [p] | _ => [] end) (rev (trace w)).

(** The file names of a conversion, in the order of the loops. *)
Definition targets (output_dir fname_noext : string) (sh : list nat) : list string :=
  match sh with
  | [_; _; nz] =>
      map (fun s => Posixpath.join output_dir (name_3d fname_noext s)) (range nz)
  | [_; _; nz; nw] =>
      flat_map (fun v => map (fun s => Posixpath.join output_dir (name_4d fname_noext v s))
                           (range nz))
        (range nw)
  | _ => []
  end.

(** [w] is [w0] after some files were written where they could be: same
    directories, and no new file where [w0] has a directory. *)
Definition after_writes (w0 w : world) : Prop :=
  cwd w = cwd w0 /\ dirs w = dirs w0 /\
  (forall q, Os.is_file w q = true -> Os.is_file w0 q = true \/ Os.is_dir w0 q = false).

(** Every file of [w] is a file of [w']. *)
Definition files_kept (w w' : world) : Prop :=
  forall q, Os.is_file w q = true -> Os.is_file w' q = true.

Lemma after_writes_refl w : after_writes w w.
Proof. repeat split; auto. Qed.

Lemma files_kept_trans w1 w2 w3 : files_kept w1 w2 -> files_kept w2 w3 -> files_kept w1 w3.
Proof. intros H12 H23 q Hq. apply H23, H12, Hq. Qed.

Lemma written_log_print w line : written (log (EPrint line) w) = written w.
Proof. unfold written. cbn [trace log rev]. rewrite flat_map_app. cbn. apply app_nil_r. Qed.

Lemma can_write_after w0 w t :
  after_writes w0 w -> Os.can_write w0 t = true -> Os.can_write w t = true.
Proof.
  intros (Hc & Hd & Hf). unfold Os.can_write, Os.is_dir. rewrite Hc, Hd.
  intros H. apply andb_prop in H. destruct H as [H H4].
  apply andb_prop in H. destruct H as [H H3].
  rewrite H, H4. cbn [andb].
  destruct (Os.is_file w _) eqn:Hfile; [|reflexivity].
  apply Hf in Hfile. destruct Hfile as [Hfile|Hdir].
  - rewrite Hfile in H3. discriminate.
  - unfold Os.is_dir in Hdir. rewrite Hdir in H4. discriminate.
Qed.

Lemma write_raster_after w0 w t r :
  after_writes w0 w -> Os.can_write w0 t = true ->
  exists w',
    Os.write_raster t r w = (Return tt, w') /\ after_writes w0 w' /\
    written w' = written w ++ [t] /\
    files_kept w w' /\
    Os.is_file w' (Posixpath.abspath (cwd w0) t) = true.
Proof.
  intros Haft Hcw.
  pose proof (can_write_after _ _ _ Haft Hcw) as Hcw'.
  rewrite (write_raster_can_write _ _ _ Hcw'). eexists. split; [reflexivity|].
  destruct Haft as (Hc & Hd & Hf).
  split; [|split; [|split]].
  - split; [exact Hc|]. split; [exact Hd|].
    intros q. unfold Os.is_file at 1. cbn [files].
    destruct (decide (Posixpath.abspath (cwd w) t = q)) as [<-|Hne].
    + intros _. right. rewrite Hc.
      unfold Os.can_write in Hcw. destruct (Os.is_dir w0 _); [|reflexivity].
      destruct (String.eqb t ""); cbn in Hcw; discriminate.
    + rewrite lookup_insert_ne by exact Hne. apply Hf.
  - unfold written. cbn [trace rev]. rewrite flat_map_app. cbn. reflexivity.
  - intros q Hq. unfold Os.is_file in *. cbn [files].
    apply bool_decide_eq_true in Hq. apply bool_decide_eq_true.
    destruct (decide (Posixpath.abspath (cwd w) t = q)) as [<-|Hne].
    + rewrite lookup_insert_eq. eauto.
    + rewrite lookup_insert_ne by exact Hne. exact Hq.
  - unfold Os.is_file. cbn [files]. rewrite Hc, lookup_insert_eq.
    apply bool_decide_eq_true. eauto.
Qed.

Section BatchLoops.
Variable imsave_error : ndarray float -> option (exc_class * string).
Hypothesis render_ok : forall arr, imsave_error arr = None.
Variable angle : Z.
Hypothesis angle_supported : angle = 90 \/ angle = 180 \/ angle = 270.
Variable w0 : world.

Lemma rotate_chain_supported (plane : ndarray float) data0 X Y :
shape plane = [X; Y] ->
exists r, rotate_chain angle (Return plane) data0 = Return (Some r).
Proof.
intros Hs.
pose proof (shape_quarter S754_nan plane X Y Hs) as H1.
pose proof (shape_quarter S754_nan _ Y X H1) as H2.
unfold rotate_chain. cbn [rbind].
rewrite (rot90_1_quarter _ plane X Y Hs). cbn [rbind].
rewrite (rot90_1_quarter _ _ Y X H1). cbn [rbind].
rewrite (rot90_1_quarter _ _ X Y H2). cbn [rbind].
destruct angle_supported as [Ha | [Ha | Ha]]; rewrite Ha; cbn; eauto.
Qed.

Lemma index_axis2_in_range (a : ndarray float) X Y Z k :
shape a = [X; Y; Z] -> (k < Z)%nat ->
exists p, index_axis2 S754_nan a k = Return p /\ shape p = [X; Y].
Proof.
intros Hs Hk. unfold index_axis2. rewrite Hs.
apply Nat.ltb_lt in Hk. rewrite Hk. eexists. split; reflexivity.
Qed.

Lemma index_axis23_in_range (a : ndarray float) X Y Z W k v :
shape a = [X; Y; Z; W] -> (k < Z)%nat -> (v < W)%nat ->
exists p, index_axis23 S754_nan a k v = Return p /\ shape p = [X; Y].
Proof.
intros Hs Hk Hv. unfold index_axis23. rewrite Hs.
apply Nat.ltb_lt in Hk. apply Nat.ltb_lt in Hv. rewrite Hk, Hv.
eexists. split; reflexivity.
Qed.

(** What a step that saves the planes [ts], in this order, achieves. *)
Definition saved (ts : list string) (l : locals) (w : world) (l' : locals) (w' : world)
: Prop :=
after_writes w0 w' /\ written w' = written w ++ ts /\ files_kept w w' /\
Forall (fun t => Os.is_file w' (Posixpath.abspath (cwd w0) t) = true) ts /\
slice_counter l' = (slice_counter l + length ts)%nat.

Lemma body_3d_saves (a : ndarray float) X Y Z stem od total k l w :
shape a = [X; Y; Z] -> (k < Z)%nat ->
after_writes w0 w ->
Os.can_write w0 (Posixpath.join od (name_3d stem k)) = true ->
exists l' w',
  body_3d imsave_error a angle stem od total k l w = (Return l', w') /\
  saved [Posixpath.join od (name_3d stem k)] l w l' w'.
Proof.
intros Hs Hk Haft Hcw.
destruct (index_axis2_in_range a X Y Z k Hs Hk) as (p & Hp & Hps).
destruct (rotate_chain_supported p (data l) X Y Hps) as (r & Hr).
unfold body_3d, bind, lift, print, ret. rewrite Hp, Hr. cbn [read_data].
unfold imsave. rewrite render_ok.
match goal with
| |- context [Os.write_raster ?t ?c ?w1] =>
    destruct (write_raster_after w0 w1 t c Haft Hcw) as (w' & Hw & Ha & Hwr & Hk' & Hf)
end.
rewrite Hw. eexists _, w'. split; [reflexivity|].
split; [exact Ha|]. split; [rewrite Hwr, written_log_print; reflexivity|].
split; [exact Hk'|]. split; [constructor; [exact Hf | constructor]|]. cbn. lia.
Qed.

Lemma body_4d_saves (a : ndarray float) X Y Z W stem od tv ts v k l w :
shape a = [X; Y; Z; W] -> (k < Z)%nat -> (v < W)%nat ->
after_writes w0 w ->
Os.can_write w0 (Posixpath.join od (name_4d stem v k)) = true ->
exists l' w',
  body_4d imsave_error a angle stem od tv ts v k l w = (Return l', w') /\
  saved [Posixpath.join od (name_4d stem v k)] l w l' w'.
Proof.
intros Hs Hk Hv Haft Hcw.
destruct (index_axis23_in_range a X Y Z W k v Hs Hk Hv) as (p & Hp & Hps).
destruct (rotate_chain_supported p (data l) X Y Hps) as (r & Hr).
unfold body_4d, bind, lift, print, ret. rewrite Hp, Hr. cbn [read_data].
unfold imsave. rewrite render_ok.
match goal with
| |- context [Os.write_raster ?t ?c ?w1] =>
    destruct (write_raster_after w0 w1 t c Haft Hcw) as (w' & Hw & Ha & Hwr & Hk' & Hf)
end.
rewrite Hw. eexists _, w'. split; [reflexivity|].
split; [exact Ha|]. split; [rewrite Hwr, written_log_print; reflexivity|].
split; [exact Hk'|]. split; [constructor; [exact Hf | constructor]|]. cbn. lia.
Qed.

(** A loop whose every iteration saves its planes saves them all, in order. *)
Lemma for_each_saves {X : Type} (T : X -> list string) (body : X -> locals -> M locals)
  (ks : list X) :
(forall k l w, In k ks -> after_writes w0 w ->
   exists l' w', body k l w = (Return l', w') /\ saved (T k) l w l' w') ->
forall l w, after_writes w0 w ->
exists l' w', for_each ks body l w = (Return l', w') /\ saved (flat_map T ks) l w l' w'.
Proof.
induction ks as [|k ks IH]; intros Hbody l w Haft.
- exists l, w. cbn [for_each flat_map]. split; [reflexivity|].
  split; [exact Haft|]. split; [symmetry; apply app_nil_r|].
  split; [intros q Hq; exact Hq|]. split; [constructor | cbn; lia].
- destruct (Hbody k l w (or_introl eq_refl) Haft)
    as (l1 & w1 & Hb & Ha1 & Hw1 & Hk1 & Hf1 & Hc1).
  destruct (IH (fun k' l' w' Hin => Hbody k' l' w' (or_intror Hin)) l1 w1 Ha1)
    as (l2 & w2 & Hl & Ha2 & Hw2 & Hk2 & Hf2 & Hc2).
  exists l2, w2. cbn [for_each flat_map]. unfold bind at 1. rewrite Hb, Hl.
  split; [reflexivity|]. split; [exact Ha2|].
  split; [rewrite Hw2, Hw1, <- app_assoc; reflexivity|].
  split; [exact (files_kept_trans _ _ _ Hk1 Hk2)|].
  split.
  + apply Forall_app. split; [|exact Hf2].
    eapply Forall_impl; [exact Hf1|]. intros t Ht. apply Hk2, Ht.
  + rewrite Hc2, Hc1, length_app. lia.
Qed.

Lemma flat_map_singleton {X Y : Type} (f : X -> Y) (l : list X) :
flat_map (fun x => [f x]) l = map f l.
Proof. induction l as [|x l IH]; cbn; [reflexivity | rewrite IH; reflexivity]. Qed.

(** The loops of the converter save every target of the array's shape. *)
Lemma convert_slices_saves (a : ndarray float) stem od w :
after_writes w0 w ->
(forall t, In t (targets od stem (shape a)) -> Os.can_write w0 t = true) ->
exists l' w',
  convert_slices imsave_error a angle stem od w = (Return l', w') /\
  saved (targets od stem (shape a)) (mk_locals None 0) w l' w'.
Proof.
intros Haft Hcw. unfold convert_slices.
destruct (shape a) as [|X [|Y [|Z [|W [|V rest]]]]] eqn:Hs;
  try (eexists _, w; split; [reflexivity|];
       split; [exact Haft|]; split; [symmetry; apply app_nil_r|];
       split; [intros q Hq; exact Hq|]; split; [constructor | reflexivity]).
- (* three dimensions *)
  cbn [targets] in *. rewrite <- flat_map_singleton in *.
  destruct (for_each_saves (fun s => [Posixpath.join od (name_3d stem s)])
              (body_3d imsave_error a angle stem od Z) (range Z)) with
    (l := mk_locals None 0) (w := w)
    as (l1 & w1 & Hl & Ha1 & Hw1 & Hk1 & Hf1 & Hc1).
  + intros k l w' Hin Haft'. apply (body_3d_saves a X Y Z); try assumption.
    * apply in_seq in Hin. lia.
    * apply Hcw. apply in_flat_map. exists k. split; [exact Hin | left; reflexivity].
  + exact Haft.
  + unfold bind, print, ret. rewrite Hl. eexists _, _. split; [reflexivity|].
    split; [exact Ha1|]. split; [rewrite written_log_print; exact Hw1|].
    split; [exact Hk1|]. split; [exact Hf1 | exact Hc1].
- (* four dimensions *)
  cbn [targets] in *.
  destruct (for_each_saves
              (fun v => map (fun s => Posixpath.join od (name_4d stem v s)) (range Z))
              (fun current_volume l =>
                 bind (for_each (range Z)
                         (body_4d imsave_error a angle stem od W Z current_volume) l)
                   (fun l =>
                      bind (print ("Finished converting volume "
                                     +:+ Str.of_nat (current_volume + 1) +:+ "/"
                                     +:+ Str.of_nat W))
                        (fun _ => ret l)))
              (range W)) with (l := mk_locals None 0) (w := w)
    as (l1 & w1 & Hl & Hsaved).
  + intros v l w' Hv Haft'. apply in_seq in Hv.
    destruct (for_each_saves (fun s => [Posixpath.join od (name_4d stem v s)])
                (body_4d imsave_error a angle stem od W Z v) (range Z)) with
      (l := l) (w := w')
      as (l2 & w2 & Hl2 & Ha2 & Hw2 & Hk2 & Hf2 & Hc2).
    * intros k l' w'' Hin Haft''. apply (body_4d_saves a X Y Z W); try assumption.
      -- apply in_seq in Hin. lia.
      -- lia.
      -- apply Hcw. apply in_flat_map. exists v. split; [apply in_seq; lia|].
         apply (in_map (fun s => Posixpath.join od (name_4d stem v s))). exact Hin.
    * exact Haft'.
    * rewrite flat_map_singleton in *.
      unfold bind, print, ret. rewrite Hl2. eexists _, _. split; [reflexivity|].
      split; [exact Ha2|]. split; [rewrite written_log_print; exact Hw2|].
      split; [exact Hk2|]. split; [exact Hf2 | exact Hc2].
  + exact Haft.
  + eexists _, _. split; [exact Hl | exact Hsaved].
Qed.
End BatchLoops.

Lemma written_log_other w ev :
  match ev with EWrite _ _ => False | _ => True end -> written (log ev w) = written w.
Proof.
  intros H. unfold written. cbn [trace log rev]. rewrite flat_map_app.
  destruct ev; try contradiction; cbn; apply app_nil_r.
Qed.

(** C3. For a file that decodes to a 3-D volume of shape (X, Y, Z) the batch
    converter writes the Z files [<stem>_z<slice+1, three digits>.png], for a
    4-D volume of shape (X, Y, Z, W) the Z * W files
    [<stem>_vol<volume+1>_z<slice+1, three digits>.png], volume by volume,
    all in the output directory, and returns that directory; the stem is the
    base name up to its first dot. The angle is 90, 180 or 270, rendering
    does not fail, the directory can be made and each file written in it. *)
Theorem convert_writes_every_plane imsave_error (file_path : string)
    (output_dir_path : option string) (rotation_angle : Z) (w w1 : world)
    (img : nifti_image) :
  recognized file_path = true ->
  files w !! Posixpath.abspath (cwd w) file_path = Some (NiftiFile img) ->
  rotation_angle = 90 \/ rotation_angle = 180 \/ rotation_angle = 270 ->
  (forall arr, imsave_error arr = None) ->
  Os.makedirs (output_dir_of w file_path output_dir_path) w = (Return tt, w1) ->
  (forall t,
     In t (targets (output_dir_of w file_path output_dir_path) (stem_of file_path)
             (shape (fdata img))) ->
     Os.can_write w1 t = true) ->
  exists w',
    convert_nii_to_png imsave_error file_path output_dir_path rotation_angle w
    = (Return (output_dir_of w file_path output_dir_path), w') /\
    written w' = written w
                 ++ targets (output_dir_of w file_path output_dir_path) (stem_of file_path)
                      (shape (fdata img)) /\
    Forall (fun t => Os.is_file w' (Posixpath.abspath (cwd w) t) = true)
      (targets (output_dir_of w file_path output_dir_path) (stem_of file_path)
         (shape (fdata img))) /\
    (forall X Y Z, shape (fdata img) = [X; Y; Z] ->
       targets (output_dir_of w file_path output_dir_path) (stem_of file_path)
         (shape (fdata img))
       = map (fun s =>
                Posixpath.join (output_dir_of w file_path output_dir_path)
                  (stem_of file_path +:+ "_z" +:+ Str.zfill 3 (Str.of_nat (s + 1)) +:+ ".png"))
           (seq 0 Z) /\
       length (targets (output_dir_of w file_path output_dir_path) (stem_of file_path)
                 (shape (fdata img))) = Z) /\
    (forall X Y Z W, shape (fdata img) = [X; Y; Z; W] ->
       targets (output_dir_of w file_path output_dir_path) (stem_of file_path)
         (shape (fdata img))
       = flat_map
           (fun v =>
              map (fun s =>
                     Posixpath.join (output_dir_of w file_path output_dir_path)
                       (stem_of file_path +:+ "_vol" +:+ Str.of_nat (v + 1) +:+ "_z"
                          +:+ Str.zfill 3 (Str.of_nat (s + 1)) +:+ ".png"))
                (seq 0 Z))
           (seq 0 W) /\
       length (targets (output_dir_of w file_path output_dir_path) (stem_of file_path)
                 (shape (fdata img))) = (Z * W)%nat).
Proof.
  intros Hrec Hfile Hangle Hrender Hmk Hcw.
  pose proof (path_exists_of_file _ _ _ Hfile Hrec) as Hex.
  destruct (recognized_not_dir_like _ Hrec) as [Hne Hsl].
  apply String.eqb_neq in Hne.
  destruct (makedirs_Return _ _ _ Hmk) as [Hw1 _].
  set (od := output_dir_of w file_path output_dir_path) in *.
  assert (Hc1 : cwd w1 = cwd w) by (rewrite Hw1; reflexivity).
  assert (Hf1 : files w1 = files w) by (rewrite Hw1; reflexivity).
  assert (Hwr1 : written w1 = written w).
  { rewrite Hw1. apply (written_log_other w (EMakedirs od)). exact I. }
  set (w2 := log (EPrint ("Image dimensions: "
                            +:+ Str.of_nat (length (shape (fdata img))) +:+ "D"))
               (log (ELoad file_path) (log (EPrint ("Output directory: " +:+ od)) w1))).
  destruct (convert_slices_saves imsave_error Hrender rotation_angle Hangle w1
              (fdata img) (stem_of file_path) od w2 (after_writes_refl w1) Hcw)
    as (l' & w3 & Hconv & Ha3 & Hw3 & Hk3 & Hfl3 & Hcnt).
  exists (log (EPrint ("Successfully converted " +:+ Str.of_nat (slice_counter l')
                         +:+ " slices to PNG")) w3).
  split; [|split; [|split; [|split]]].
  - unfold convert_nii_to_png, bind, os_path_exists, os_path_abspath, ret, print.
    rewrite Hex. cbn [negb]. fold (recognized file_path). rewrite Hrec. cbn [negb].
    fold (stem_of file_path).
    subst w2 od. unfold output_dir_of in *.
    destruct output_dir_path as [o|];
      rewrite Hmk; unfold nib_load; cbn [cwd files log];
      rewrite abspath_as_posix, Hc1, Hf1, Hfile;
      rewrite Hconv; reflexivity.
  - rewrite written_log_print, Hw3. unfold w2.
    rewrite written_log_print, (written_log_other _ (ELoad file_path) I),
      written_log_print, Hwr1. reflexivity.
  - rewrite <- Hc1. exact Hfl3.
  - intros X Y Z Hs. rewrite Hs. cbn [targets]. split; [reflexivity|].
    rewrite length_map. apply length_seq.
  - intros X Y Z W Hs. rewrite Hs. cbn [targets]. split; [reflexivity|].
    rewrite (NpFacts.length_flat_map_uniform _ Z).
    + unfold range. rewrite length_seq. apply Nat.mul_comm.
    + intros v. rewrite length_map. apply length_seq.
Qed.

(** *** The batch converter in the sample world *)

Definition no_render_error : ndarray float -> option (exc_class * string) := fun _ => None.

Lemma convert_rejects_early_witness :
  convert_nii_to_png no_render_error "missing.nii" None 90 demo_world
  = (Raise (Exception FileNotFoundError "Input file not found: missing.nii"), demo_world) /\
  convert_nii_to_png no_render_error "notes.txt" None 90 demo_world
  = (Raise (Exception ValueError
              "Input file must be a NIfTI file (.nii or .nii.gz): notes.txt"), demo_world).
Proof.
  destruct (convert_rejects_early no_render_error "missing.nii" None 90 demo_world) as [H1 _].
  destruct (convert_rejects_early no_render_error "notes.txt" None 90 demo_world) as [_ H2].
  split; [apply H1 | apply H2]; vm_compute; reflexivity.
Defined.

(** The sample world once the output directory of [broken.nii] is made. *)
Definition demo_world_broken_dir : world :=
  (Os.makedirs (output_dir_of demo_world "broken.nii" None) demo_world).2.

Lemma convert_keeps_directory_on_decode_error_witness :
  exists w',
    convert_nii_to_png no_render_error "broken.nii" None 90 demo_world
    = (Raise (Exception ImageFileError "File /data/broken.nii is not a nifti1 image"), w') /\
    trace w' = ELoad "broken.nii"
               :: EPrint ("Output directory: " +:+ output_dir_of demo_world "broken.nii" None)
               :: EMakedirs (output_dir_of demo_world "broken.nii" None)
               :: trace demo_world /\
    dirs w' = dirs demo_world_broken_dir /\
    Os.is_dir w' (Posixpath.abspath (cwd demo_world)
                    (output_dir_of demo_world "broken.nii" None)) = true /\
    files w' = files demo_world.
Proof.
  apply (convert_keeps_directory_on_decode_error no_render_error "broken.nii" None 90
           demo_world demo_world_broken_dir ImageFileError
           "File /data/broken.nii is not a nifti1 image");
    vm_compute; reflexivity.
Defined.

(** The sample world once the output directory of [scan.nii.gz] under [out]
    is made. *)
Definition demo_world_scan_dir : world :=
  (Os.makedirs (output_dir_of demo_world "scan.nii.gz" (Some "out")) demo_world).2.

Lemma convert_writes_every_plane_witness :
  exists w',
    convert_nii_to_png no_render_error "scan.nii.gz" (Some "out") 180 demo_world
    = (Return "/data/out/scan", w') /\
    written w' = ["/data/out/scan/scan_z001.png"; "/data/out/scan/scan_z002.png"] /\
    Os.is_file w' "/data/out/scan/scan_z001.png" = true /\
    Os.is_file w' "/data/out/scan/scan_z002.png" = true.
Proof.
  destruct (convert_writes_every_plane no_render_error "scan.nii.gz" (Some "out") 180
              demo_world demo_world_scan_dir ramp_image)
    as (w' & Hrun & Hw & Hf & _).
  - vm_compute. reflexivity.
  - vm_compute. reflexivity.
  - right. left. reflexivity.
  - intros arr. reflexivity.
  - vm_compute. reflexivity.
  - intros t Ht. vm_compute in Ht.
    destruct Ht as [<-|[<-|[]]]; vm_compute; reflexivity.
  - exists w'. split; [exact Hrun|]. split; [exact Hw|].
    apply Forall_cons in Hf. destruct Hf as [Hf1 Hf].
    apply Forall_cons in Hf. destruct Hf as [Hf2 _].
    split; [exact Hf1 | exact Hf2].
Defined.

(** ** More on rotation: quarter turns, composition, the two drivers *)

Lemma flip_both_quarters {A} (d : A) (p : ndarray A) X Y :
  shape p = [X; Y] -> flip1 d (flip0 d p) = quarter d (quarter d p).
Proof.
  intros Hs. pose proof (shape_quarter d p X Y Hs) as Hq.
  unfold flip1, flip0. rewrite Hs. cbn [shape build].
  unfold quarter at 1. rewrite Hq.
  apply build_ext. intros idx Hr.
  destruct (in_range_2 _ _ _ Hr) as (i & j & -> & Hi & Hj).
  rewrite item_build by (apply in_range_2_intro; lia).
  rewrite (item_quarter d p X Y) by (assumption || lia).
  reflexivity.
Qed.

Lemma flip_swap_quarters {A} (d : A) (p : ndarray A) X Y :
  shape p = [X; Y] -> flip1 d (swap01 d p) = quarter d (quarter d (quarter d p)).
Proof.
  intros Hs. pose proof (shape_quarter d p X Y Hs) as H1.
  pose proof (shape_quarter d _ Y X H1) as H2.
  unfold flip1, swap01. rewrite Hs. cbn [shape build].
  unfold quarter at 1. rewrite H2.
  apply build_ext. intros idx Hr.
  destruct (in_range_2 _ _ _ Hr) as (i & j & -> & Hi & Hj).
  rewrite item_build by (apply in_range_2_intro; lia).
  rewrite (item_quarter d _ Y X) by (assumption || lia).
  rewrite (item_quarter d p X Y) by (assumption || lia).
  f_equal. f_equal. f_equal. lia.
Qed.

(** [numpy.rot90] on a plane is [k mod 4] quarter turns. *)
Lemma rot90_quarters {A} (d : A) (p : ndarray A) X Y k :
  shape p = [X; Y] ->
  rot90 d p k = Return (Nat.iter (Z.to_nat (k mod 4)) (quarter d) p).
Proof.
  intros Hs. unfold rot90, ndim. rewrite Hs. cbn [length Nat.ltb Nat.leb].
  pose proof (Z.mod_pos_bound k 4 ltac:(lia)) as Hb.
  destruct (Z.eqb_spec (k mod 4) 0) as [->|H0]; [reflexivity|].
  destruct (Z.eqb_spec (k mod 4) 2) as [->|H2].
  { rewrite (flip_both_quarters d p X Y Hs). reflexivity. }
  destruct (Z.eqb_spec (k mod 4) 1) as [->|H1].
  { fold (rot90 d p 1). pose proof (rot90_1_quarter d p X Y Hs) as Hq.
    unfold rot90, ndim in Hq. rewrite Hs in Hq. exact Hq. }
  assert (H3 : k mod 4 = 3) by lia. rewrite H3.
  rewrite (flip_swap_quarters d p X Y Hs). reflexivity.
Qed.

Lemma shape_quarters {A} (d : A) (p : ndarray A) X Y n :
  shape p = [X; Y] ->
  shape (Nat.iter n (quarter d) p) = if Nat.even n then [X; Y] else [Y; X].
Proof.
  intros Hs. induction n as [|n IH]; [exact Hs|].
  cbn [Nat.iter nat_rect]. rewrite Nat.even_succ, <- Nat.negb_even.
  destruct (Nat.even n); cbn [negb].
  - apply (shape_quarter d _ X Y IH).
  - apply (shape_quarter d _ Y X IH).
Qed.

Lemma iter_quarter_mod4 {A} (d : A) (p : ndarray A) X Y n :
  shape p = [X; Y] -> wf p ->
  Nat.iter n (quarter d) p = Nat.iter (n mod 4) (quarter d) p.
Proof.
  intros Hs Hwf.
  assert (Hn : n = (4 * (n / 4) + n mod 4)%nat) by apply Nat.div_mod_eq.
  revert Hn. generalize (n mod 4)%nat. generalize (n / 4)%nat.
  intros q r ->. induction q as [|q IH]; [f_equal; lia|].
  replace (4 * S q + r)%nat with ((4 * q + r) + 4)%nat by lia.
  rewrite Nat.iter_add. cbn [Nat.iter nat_rect].
  rewrite (quarter_four d p X Y Hs Hwf). exact IH.
Qed.

(** Turning by [90 * i] and then by [90 * j] degrees is turning by
    [90 * (i + j)] degrees: the quarter turns of a well-formed plane add up
    modulo four. *)
Theorem rotate_image_composes (p : ndarray float) (X Y : nat) (i j : Z) :
  shape p = [X; Y] -> wf p ->
  rbind (_rotate_image p (Some (90 * i))) (fun r => _rotate_image r (Some (90 * j)))
  = _rotate_image p (Some (90 * (i + j))).
Proof.
  intros Hs Hwf. unfold _rotate_image.
  rewrite !(Z.mul_comm 90), !Z.div_mul by lia.
  rewrite (rot90_quarters _ p X Y i Hs). cbn [rbind].
  pose proof (shape_quarters S754_nan p X Y (Z.to_nat (i mod 4)) Hs) as Hs1.
  assert (Hrot : forall q, shape q = (if Nat.even (Z.to_nat (i mod 4)) then [X; Y] else [Y; X]) ->
                 rot90 S754_nan q j = Return (Nat.iter (Z.to_nat (j mod 4)) (quarter S754_nan) q)).
  { intros q Hq. destruct (Nat.even (Z.to_nat (i mod 4)));
      [apply (rot90_quarters _ q X Y) | apply (rot90_quarters _ q Y X)]; exact Hq. }
  rewrite (Hrot _ Hs1), (rot90_quarters _ p X Y (i + j) Hs). f_equal.
  rewrite <- Nat.iter_add.
  rewrite (iter_quarter_mod4 _ p X Y _ Hs Hwf). f_equal.
  pose proof (Z.mod_pos_bound i 4 ltac:(lia)).
  pose proof (Z.mod_pos_bound j 4 ltac:(lia)).
  pose proof (Z.mod_pos_bound (i + j) 4 ltac:(lia)).
  apply Nat2Z.inj. rewrite Nat2Z.inj_mod, Nat2Z.inj_add, !Z2Nat.id by lia.
  change (Z.of_nat 4) with 4. rewrite <- Zplus_mod. f_equal; lia.
Qed.

Lemma rotate_image_composes_witness :
  rbind (_rotate_image sample_plane (Some (90 * 3))) (fun r => _rotate_image r (Some (90 * 2)))
  = _rotate_image sample_plane (Some (90 * (3 + 2))).
Proof. apply (rotate_image_composes sample_plane 2 3 3 2); reflexivity. Defined.

Lemma rotate_chain_rot90 (p : ndarray float) (X Y : nat)
    (angle : Z) (data0 : option (ndarray float)) :
  shape p = [X; Y] -> angle = 90 \/ angle = 180 \/ angle = 270 ->
  rotate_chain angle (Return p) data0
  = rbind (_rotate_image p (Some angle)) (fun r => Return (Some r)).
Proof.
  intros Hs Hangle.
  pose proof (shape_quarter S754_nan p X Y Hs) as H1.
  pose proof (shape_quarter S754_nan _ Y X H1) as H2.
  unfold rotate_chain, _rotate_image. cbn [rbind].
  rewrite (rot90_1_quarter _ p X Y Hs). cbn [rbind].
  rewrite (rot90_1_quarter _ _ Y X H1). cbn [rbind].
  rewrite (rot90_1_quarter _ _ X Y H2). cbn [rbind].
  destruct Hangle as [-> | [-> | ->]]; cbn [Z.eqb Pos.eqb];
    rewrite (rot90_quarters _ p X Y _ Hs); reflexivity.
Qed.

(** On a plane the batch converter's nested [rot90] calls and the
    single-slice tool's [rot90(k = angle // 90)] give the same array, for each
    of the angles 90, 180 and 270. *)
Theorem rotate_chain_agrees_with_rotate_image (p : ndarray float) (X Y : nat)
    (angle : Z) (data0 : option (ndarray float)) :
  shape p = [X; Y] -> angle = 90 \/ angle = 180 \/ angle = 270 ->
  rotate_chain angle (Return p) data0
  = rbind (_rotate_image p (Some angle)) (fun r => Return (Some r)).
Proof. apply rotate_chain_rot90. Qed.

Lemma rotate_chain_agrees_with_rotate_image_witness :
  rotate_chain 270 (Return sample_plane) None
  = rbind (_rotate_image sample_plane (Some 270)) (fun r => Return (Some r)).
Proof.
  apply (rotate_chain_agrees_with_rotate_image sample_plane 2 3 270 None);
    [reflexivity | right; right; reflexivity].
Defined.

Lemma wf_build {A} sh (f : list nat -> A) : wf (build sh f).
Proof. unfold wf, build. simpl. rewrite length_map. apply length_indices. Qed.

Lemma wf_quarter {A} (d : A) (q : ndarray A) X Y : shape q = [X; Y] -> wf (quarter d q).
Proof. intros Hs. unfold quarter. rewrite Hs. apply wf_build. Qed.

(** The plane a rotation returns has the axes of its argument, exchanged for
    an odd number of quarter turns, and is well formed. *)
Theorem rotate_image_shape (p : ndarray float) (X Y : nat) (angle : Z) :
  shape p = [X; Y] -> wf p ->
  exists r, _rotate_image p (Some angle) = Return r /\ wf r /\
            shape r = if Z.even (angle / 90) then [X; Y] else [Y; X].
Proof.
  intros Hs Hwf. unfold _rotate_image. rewrite (rot90_quarters _ p X Y _ Hs).
  eexists. split; [reflexivity|].
  pose proof (Z.mod_pos_bound (angle / 90) 4 ltac:(lia)) as Hb.
  rewrite (shape_quarters _ p X Y _ Hs).
  assert (Hev : Nat.even (Z.to_nat ((angle / 90) mod 4)) = Z.even (angle / 90)).
  { rewrite (Z.div_mod (angle / 90) 4) at 2 by lia.
    rewrite Z.even_add, Z.even_mul. cbn [Z.even orb].
    assert (Hc : (angle / 90) mod 4 = 0 \/ (angle / 90) mod 4 = 1 \/
                 (angle / 90) mod 4 = 2 \/ (angle / 90) mod 4 = 3) by lia.
    destruct Hc as [-> | [-> | [-> | ->]]]; reflexivity. }
  rewrite Hev. split; [|reflexivity].
  destruct (Z.to_nat ((angle / 90) mod 4)) as [|n]; [exact Hwf|].
  change (Nat.iter (S n) (quarter S754_nan) p)
    with (quarter S754_nan (Nat.iter n (quarter S754_nan) p)).
  pose proof (shape_quarters S754_nan p X Y n Hs) as Hn.
  destruct (Nat.even n); [apply (wf_quarter _ _ X Y Hn) | apply (wf_quarter _ _ Y X Hn)].
Qed.

Lemma rotate_image_shape_witness :
  exists r, _rotate_image sample_plane (Some 90) = Return r /\ wf r /\
            shape r = if Z.even (90 / 90) then [2; 3]%nat else [3; 2]%nat.
Proof. apply (rotate_image_shape sample_plane 2 3 90); reflexivity. Defined.

(** ** More on the intensity normalizer *)

Lemma minimum_nan_l y : minimum S754_nan y = S754_nan.
Proof. reflexivity. Qed.

Lemma minimum_nan_r x : minimum x S754_nan = S754_nan.
Proof. destruct x as [s|s| |s m e]; try destruct s; reflexivity. Qed.

Lemma maximum_nan_l y : maximum S754_nan y = S754_nan.
Proof. unfold maximum. rewrite orb_true_r. reflexivity. Qed.

Lemma maximum_nan_r x : maximum x S754_nan = S754_nan.
Proof. destruct x as [s|s| |s m e]; try destruct s; reflexivity. Qed.

Lemma fold_minimum_nan l x : In S754_nan (x :: l) -> fold_left minimum l x = S754_nan.
Proof.
  revert x. induction l as [|y l IH]; intros x Hin.
  - destruct Hin as [->|[]]. reflexivity.
  - cbn [fold_left]. apply IH. destruct Hin as [-> | [-> | Hin]].
    + left. apply minimum_nan_l.
    + left. apply minimum_nan_r.
    + right. exact Hin.
Qed.

Lemma fold_maximum_nan l x : In S754_nan (x :: l) -> fold_left maximum l x = S754_nan.
Proof.
  revert x. induction l as [|y l IH]; intros x Hin.
  - destruct Hin as [->|[]]. reflexivity.
  - cbn [fold_left]. apply IH. destruct Hin as [-> | [-> | Hin]].
    + left. apply maximum_nan_l.
    + left. apply maximum_nan_r.
    + right. exact Hin.
Qed.

Lemma rescale_by_nan cast x :
  astype_uint8 cast (F64.mul (F64.div (F64.sub x S754_nan) (F64.sub S754_nan S754_nan))
                       (F64.of_int 255))
  = cast S754_nan mod 256.
Proof. destruct x as [s|s| |s m e]; reflexivity. Qed.

(** One NaN in a plane makes its minimum and maximum NaN, and then every
    pixel of the normalized plane is what the platform's cast makes of NaN:
    the image is uniform whatever the other values. *)
Theorem normalize_nan_poisons cast (p : ndarray float) :
  In S754_nan (elems p) ->
  normalize cast p = Return (map_elems (fun _ => cast S754_nan mod 256) p).
Proof.
  intros Hin. unfold normalize, amin, amax.
  destruct (elems p) as [|x l] eqn:He; [destruct Hin|].
  cbn [rbind]. rewrite (fold_minimum_nan l x Hin), (fold_maximum_nan l x Hin).
  unfold map_elems. rewrite He. f_equal. f_equal.
  apply map_ext. intros y. apply rescale_by_nan.
Qed.

Definition nan_plane : ndarray float :=
  mk_ndarray [1; 3]%nat [F64.of_int 5; S754_nan; F64.of_int 9].

Lemma normalize_nan_poisons_witness :
  normalize (fun _ => 0) nan_plane
  = Return (map_elems (fun _ => 0 mod 256) nan_plane).
Proof. apply (normalize_nan_poisons (fun _ => 0) nan_plane). right. left. reflexivity. Defined.

(** The normalizer fails on an array without elements, with NumPy's
    [ValueError], and on any other array returns an 8-bit array of the same
    shape and size. *)
Theorem normalize_outcome cast (p : ndarray float) :
  (elems p = [] ->
   normalize cast p
   = Raise (Exception ValueError
              "zero-size array to reduction operation minimum which has no identity")) /\
  (elems p <> [] ->
   exists out, normalize cast p = Return out /\ shape out = shape p /\
               length (elems out) = length (elems p) /\
               Forall (fun v => 0 <= v <= 255) (elems out)).
Proof.
  unfold normalize, amin, amax. split.
  - intros ->. reflexivity.
  - intros Hne. destruct (elems p) as [|x l] eqn:He; [contradiction|].
    cbn [rbind]. eexists. split; [reflexivity|]. split; [reflexivity|].
    unfold map_elems. cbn [elems]. rewrite He. split; [apply length_map|].
    apply Forall_forall. intros v Hv. apply list_elem_of_In in Hv.
    apply in_map_iff in Hv. destruct Hv as (y & <- & _).
    apply astype_uint8_range.
Qed.

Lemma normalize_outcome_witness :
  normalize (fun _ => 0) (mk_ndarray [0; 3]%nat [])
  = Raise (Exception ValueError
             "zero-size array to reduction operation minimum which has no identity") /\
  exists out, normalize (fun _ => 0) ramp_plane = Return out /\ shape out = shape ramp_plane /\
              length (elems out) = length (elems ramp_plane) /\
              Forall (fun v => 0 <= v <= 255) (elems out).
Proof.
  destruct (normalize_outcome (fun _ => 0) (mk_ndarray [0; 3]%nat [])) as [H1 _].
  destruct (normalize_outcome (fun _ => 0) ramp_plane) as [_ H2].
  split; [apply H1; reflexivity | apply H2; discriminate].
Defined.

(** A plane of any shape whose values are all the same float, whatever it
    is, normalizes to a uniform plane: every pixel is what the platform's
    cast makes of NaN (0 / 0 for a finite value). *)
Theorem normalize_uniform_plane cast (c : float) (sh : list nat) (n : nat) :
  (0 < n)%nat ->
  normalize cast (mk_ndarray sh (repeat c n))
  = Return (mk_ndarray sh (repeat (cast S754_nan mod 256) n)).
Proof.
  intros Hn. destruct n as [|n]; [lia|]. apply normalize_constant.
Qed.

Lemma normalize_uniform_plane_witness :
  normalize (fun _ => 0) (mk_ndarray [2; 2]%nat (repeat (F64.of_int 3) 4))
  = Return (mk_ndarray [2; 2]%nat (repeat (0 mod 256) 4)).
Proof. apply (normalize_uniform_plane (fun _ => 0) (F64.of_int 3) [2; 2]%nat 4). lia. Defined.

(** ** More on the single-slice driver *)

Lemma shape_flip0 {A} (d : A) (m : ndarray A) : shape (flip0 d m) = shape m.
Proof. unfold flip0. destruct (shape m) as [|X rest] eqn:Hs; [exact Hs | reflexivity]. Qed.

Lemma shape_flip1 {A} (d : A) (m : ndarray A) : shape (flip1 d m) = shape m.
Proof.
  unfold flip1. destruct (shape m) as [|X [|Y rest]] eqn:Hs; try exact Hs. reflexivity.
Qed.

Lemma ndim_swap01 {A} (d : A) (m : ndarray A) : ndim (swap01 d m) = ndim m.
Proof.
  unfold swap01, ndim. destruct (shape m) as [|X [|Y rest]] eqn:Hs; rewrite ?Hs; reflexivity.
Qed.

Lemma rot90_ndim {A} (d : A) (m r : ndarray A) k : rot90 d m k = Return r -> ndim r = ndim m.
Proof.
  unfold rot90. destruct (ndim m <? 2)%nat; [discriminate|].
  destruct (k mod 4 =? 0); [intros H; injection H as <-; reflexivity|].
  destruct (k mod 4 =? 2); [|destruct (k mod 4 =? 1)]; intros H; injection H as <-;
    unfold ndim; rewrite ?shape_flip1, ?shape_flip0; fold (ndim m);
    try reflexivity.
  - fold (ndim (flip1 d m)). fold (ndim (swap01 d (flip1 d m))).
    rewrite ndim_swap01. unfold ndim. rewrite shape_flip1. reflexivity.
  - fold (ndim (swap01 d m)). apply ndim_swap01.
Qed.

Lemma iter_quarter_wf {A} (d : A) (p : ndarray A) X Y n :
  shape p = [X; Y] -> wf p -> wf (Nat.iter n (quarter d) p).
Proof.
  intros Hs Hwf. destruct n as [|n]; [exact Hwf|].
  change (Nat.iter (S n) (quarter d) p) with (quarter d (Nat.iter n (quarter d) p)).
  pose proof (shape_quarters d p X Y n Hs) as Hn.
  destruct (Nat.even n); [apply (wf_quarter _ _ X Y Hn) | apply (wf_quarter _ _ Y X Hn)].
Qed.

Lemma rot90_plane_size {A} (d : A) (s r : ndarray A) X Y k :
  shape s = [X; Y] -> wf s -> rot90 d s k = Return r -> length (elems r) = (X * Y)%nat.
Proof.
  intros Hs Hwf Hr. rewrite (rot90_quarters d s X Y k Hs) in Hr. injection Hr as <-.
  rewrite (iter_quarter_wf d s X Y _ Hs Hwf), (shape_quarters d s X Y _ Hs).
  destruct (Nat.even _); cbn [size_of fold_right]; lia.
Qed.

Lemma normalize_Return cast (r : ndarray float) n :
  normalize cast r = Return n -> shape n = shape r /\ elems r <> [].
Proof.
  unfold normalize, amin, amax. destruct (elems r) as [|x l]; [discriminate|].
  cbn [rbind]. intros H. injection H as <-. split; [reflexivity | discriminate].
Qed.

Lemma first_slice_Return (a s : ndarray float) :
  first_slice a = Return s ->
  (exists X Y Z, shape a = [X; Y; Z] /\ (0 < Z)%nat /\ shape s = [X; Y] /\ wf s) \/
  (exists X Y Z W, shape a = [X; Y; Z; W] /\ (0 < Z * W)%nat /\ shape s = [X; Y] /\ wf s) \/
  (4 <= ndim s)%nat.
Proof.
  unfold first_slice, ndim, index_axis2, index_axis23.
  destruct (shape a) as [|X [|Y [|Z [|W [|V rest]]]]] eqn:Hs; cbn [length Nat.eqb];
    try discriminate.
  - destruct (Nat.ltb_spec 0 Z) as [HZ|HZ]; [|discriminate]. intros H. injection H as <-.
    left. exists X, Y, Z. split; [reflexivity|]. split; [assumption|].
    split; [reflexivity | apply wf_build].
  - destruct (Nat.ltb_spec 0 Z) as [HZ|HZ]; [|discriminate].
    destruct (Nat.ltb_spec 0 W) as [HW|HW]; [|discriminate]. intros H. injection H as <-.
    right. left. exists X, Y, Z, W. split; [reflexivity|]. split; [nia|].
    split; [reflexivity | apply wf_build].
  - destruct (0 <? Z)%nat; [|discriminate]. intros H. injection H as <-.
    right. right. cbn. lia.
Qed.

Lemma write_raster_Raise p r w e w' : Os.write_raster p r w = (Raise e, w') -> w' = w.
Proof.
  unfold Os.write_raster.
  destruct (String.eqb p ""); [intros H; injection H as _ <-; reflexivity|].
  destruct (Os.is_dir w _); [intros H; injection H as _ <-; reflexivity|].
  destruct (Os.is_file w _); [intros H; injection H as _ <-; reflexivity|].
  destruct (negb (Os.is_dir w _)); [intros H; injection H as _ <-; reflexivity|].
  discriminate.
Qed.

(** What a returning body went through. *)
Lemma run_body_Return_inv cast self p a w out meta w' :
  _run_body cast self p a w = (Return (out, meta), w') ->
  exists img angle,
    a = Some angle /\
    files w !! Posixpath.abspath (cwd w) p = Some (NiftiFile img) /\
    ((exists X Y Z, shape (fdata img) = [X; Y; Z] /\ (0 < X * Y * Z)%nat) \/
     (exists X Y Z W, shape (fdata img) = [X; Y; Z; W] /\ (0 < X * Y * Z * W)%nat)) /\
    Os.can_write w (output_path_in self w) = true.
Proof.
  unfold _run_body, _process_nifti, bind, lift, ret. intros H.
  destruct (nib_load p w) as [[img|e] w1] eqn:Hload; [|discriminate].
  apply nib_load_Return in Hload. destruct Hload as [Hfile ->].
  destruct (first_slice (fdata img)) as [s|e] eqn:Hs; [|discriminate].
  destruct a as [angle|]; [|discriminate]. unfold _rotate_image in H.
  destruct (rot90 S754_nan s (angle / 90)) as [r|e] eqn:Hr; [|discriminate].
  destruct (normalize cast r) as [n|e] eqn:Hn; [|discriminate].
  unfold uuid4_hex in H. cbn [uuid_hex uuid_drawn log] in H.
  destruct (Image_fromarray n) as [im|e] eqn:Him; [|discriminate].
  match type of H with
  | context [Os.write_raster ?q ?c ?w0] =>
      destruct (Os.write_raster q c w0) as [[[]|e] w3] eqn:Hw; [|discriminate]
  end.
  apply write_raster_Return in Hw. destruct Hw as [Hcw _].
  exists img, angle. split; [reflexivity|]. split; [exact Hfile|].
  apply normalize_Return in Hn. destruct Hn as [Hns Hne].
  pose proof (rot90_ndim _ _ _ _ Hr) as Hnd.
  assert (Hn23 : (ndim n <= 3)%nat).
  { unfold Image_fromarray in Him. unfold ndim.
    destruct (shape n) as [|? [|? [|? [|? ?]]]]; try discriminate; cbn; lia. }
  unfold ndim in Hn23, Hnd. rewrite Hns, Hnd in Hn23.
  split; [|exact Hcw].
  destruct (first_slice_Return _ _ Hs)
    as [(X & Y & Z & Ha & HZ & Hss & Hwf) | [(X & Y & Z & W & Ha & HZ & Hss & Hwf) | Hbig]].
  - left. exists X, Y, Z. split; [exact Ha|].
    pose proof (rot90_plane_size _ _ _ _ _ _ Hss Hwf Hr) as Hlen.
    destruct (elems r); [contradiction|]. cbn in Hlen. nia.
  - right. exists X, Y, Z, W. split; [exact Ha|].
    pose proof (rot90_plane_size _ _ _ _ _ _ Hss Hwf Hr) as Hlen.
    destruct (elems r); [contradiction|]. cbn in Hlen. nia.
  - unfold ndim in Hbig. lia.
Qed.

(** A completed run implies all of: an integer angle, a file that decodes to
    a 3-D or 4-D volume with no empty axis, and a writable image path. *)
Theorem run_completed_only_if cast (self : NiftiProcessorTool) (nifti_path : string)
    (rotation_angle : option Z) (w : world) out meta w' :
  _run cast self nifti_path rotation_angle w = (Return (out, meta), w') ->
  meta !! "analysis_status" = Some (PStr "completed") ->
  exists img angle,
    rotation_angle = Some angle /\
    files w !! Posixpath.abspath (cwd w) nifti_path = Some (NiftiFile img) /\
    ((exists X Y Z, shape (fdata img) = [X; Y; Z] /\ (0 < X * Y * Z)%nat) \/
     (exists X Y Z W, shape (fdata img) = [X; Y; Z; W] /\ (0 < X * Y * Z * W)%nat)) /\
    Os.can_write w (output_path_in self w) = true.
Proof.
  unfold _run, try_except_Exception, ret. intros Hrun Hst.
  destruct (_run_body cast self nifti_path rotation_angle w) as [[[o m]|e] w1] eqn:Hb.
  - injection Hrun as -> -> ->. apply (run_body_Return_inv _ _ _ _ _ _ _ _ Hb).
  - destruct e as [c msg| |code]; try discriminate.
    injection Hrun as <- <- <-. discriminate.
Qed.

Lemma run_completed_only_if_witness :
  exists img angle,
    Some 90 = Some angle /\
    files demo_world !! Posixpath.abspath (cwd demo_world) "scan.nii.gz"
      = Some (NiftiFile img) /\
    ((exists X Y Z, shape (fdata img) = [X; Y; Z] /\ (0 < X * Y * Z)%nat) \/
     (exists X Y Z W, shape (fdata img) = [X; Y; Z; W] /\ (0 < X * Y * Z * W)%nat)) /\
    Os.can_write demo_world (output_path_in demo_tool demo_world) = true.
Proof.
  destruct (run_completes (fun _ => 0) demo_tool "scan.nii.gz" 90 demo_world ramp_image)
    as (pix & w' & Hrun & _).
  - vm_compute. reflexivity.
  - discriminate.
  - vm_compute. reflexivity.
  - left. exists 2%nat, 3%nat, 2%nat. split; [reflexivity | cbn; lia].
  - vm_compute. reflexivity.
  - apply (run_completed_only_if (fun _ => 0) demo_tool "scan.nii.gz" (Some 90) demo_world
             _ _ w' Hrun).
    unfold success_metadata. apply lookup_insert_eq.
Defined.

Lemma nib_load_outcome p w :
  exists r, nib_load p w = (r, log (ELoad p) w) /\ rsafe r.
Proof.
  pose proof (safe_nib_load p w) as Hsafe. revert Hsafe. unfold nib_load.
  destruct (files w !! Posixpath.abspath (cwd w) (Pathlib.as_posix p)) as [[img|c msg|r]|];
    cbn [fst]; eauto.
  destruct (Os.is_dir w _); eauto.
Qed.

(** Every effect of a run, whatever its outcome: the load is attempted, and
    then either nothing else happens or the one image is written to the
    path drawn for it; no directory is made and no other file touched. *)
Theorem run_effects cast (self : NiftiProcessorTool) (nifti_path : string)
    (rotation_angle : option Z) (w : world) :
  exists r w',
    _run cast self nifti_path rotation_angle w = (r, w') /\
    cwd w' = cwd w /\ dirs w' = dirs w /\
    ((trace w' = ELoad nifti_path :: trace w /\ files w' = files w) \/
     (exists pix,
        trace w' = EWrite (output_path_in self w) (GrayL pix) :: ELoad nifti_path :: trace w /\
        files w' = <[Posixpath.abspath (cwd w) (output_path_in self w)
                     := RasterFile (GrayL pix)]> (files w))).
Proof.
  unfold _run, try_except_Exception, _run_body, _process_nifti, bind, lift, ret.
  destruct (nib_load_outcome nifti_path w) as (r0 & Hl & Hs0). rewrite Hl.
  destruct r0 as [img|[c msg| |code]]; try contradiction;
    [|eexists _, _; split; [reflexivity|]; cbn; auto].
  pose proof (rsafe_first_slice (fdata img)) as Hs1.
  destruct (first_slice (fdata img)) as [s|[c msg| |code]]; try contradiction;
    [|eexists _, _; split; [reflexivity|]; cbn; auto].
  pose proof (rsafe_rotate_image s rotation_angle) as Hs2.
  destruct (_rotate_image s rotation_angle) as [r|[c msg| |code]]; try contradiction;
    [|eexists _, _; split; [reflexivity|]; cbn; auto].
  pose proof (rsafe_normalize cast r) as Hs3.
  destruct (normalize cast r) as [n|[c msg| |code]]; try contradiction;
    [|eexists _, _; split; [reflexivity|]; cbn; auto].
  unfold uuid4_hex. cbn [uuid_hex uuid_drawn log cwd dirs files trace].
  pose proof (rsafe_fromarray n) as Hs4.
  destruct (Image_fromarray n) as [im|[c msg| |code]] eqn:Him; try contradiction;
    [|eexists _, _; split; [reflexivity|]; cbn; auto].
  apply fromarray_Return in Him. subst im.
  match goal with
  | |- context [Os.write_raster ?q ?c ?w0] =>
      pose proof (safe_write_raster q c w0) as Hs5;
      destruct (Os.write_raster q c w0) as [[[]|e] w3] eqn:Hw
  end.
  - apply write_raster_Return in Hw. destruct Hw as [_ ->].
    eexists _, _. split; [reflexivity|]. cbn. split; [reflexivity|].
    split; [reflexivity|]. right. exists n. split; reflexivity.
  - apply write_raster_Raise in Hw. subst w3. cbn in Hs5.
    destruct e as [c msg| |code]; try contradiction.
    eexists _, _. split; [reflexivity|]. cbn. auto.
Qed.

(** A run without an angle ([rotation_angle = None]) never completes: it
    returns the failure record, having done nothing but attempt the load. *)
Theorem run_without_angle_fails cast (self : NiftiProcessorTool) (nifti_path : string)
    (w : world) :
  exists msg,
    _run cast self nifti_path None w
    = (Return ({[ "error" := msg ]}, failure_metadata nifti_path msg),
       log (ELoad nifti_path) w).
Proof.
  unfold _run, try_except_Exception, _run_body, _process_nifti, bind, lift, ret.
  destruct (nib_load_outcome nifti_path w) as (r0 & Hl & Hs0). rewrite Hl.
  destruct r0 as [img|[c msg| |code]]; try contradiction; [|eauto].
  pose proof (rsafe_first_slice (fdata img)) as Hs1.
  destruct (first_slice (fdata img)) as [s|[c msg| |code]]; try contradiction; [|eauto].
  cbn. eauto.
Qed.

(** A run on a file that decodes to a 3-D or 4-D volume with no empty axis
    completes for every integer angle, multiple of 90 or not, when the image
    can be written: it returns the image path and the full metadata, writes
    that one file and makes no directory. *)
Theorem run_completes_for_every_angle cast (self : NiftiProcessorTool)
    (nifti_path : string) (angle : Z) (w : world) (img : nifti_image) :
  files w !! Posixpath.abspath (cwd w) nifti_path = Some (NiftiFile img) ->
  nifti_path <> "" -> Str.endswith nifti_path "/" = false ->
  ((exists X Y Z, shape (fdata img) = [X; Y; Z] /\ (0 < X * Y * Z)%nat) \/
   (exists X Y Z W, shape (fdata img) = [X; Y; Z; W] /\ (0 < X * Y * Z * W)%nat)) ->
  Os.can_write w (output_path_in self w) = true ->
  exists pix w',
    _run cast self nifti_path (Some angle) w
    = (Return ({[ "image_path" := output_path_in self w ]},
               success_metadata img nifti_path (output_path_in self w) (Some angle)), w') /\
    files w' = <[Posixpath.abspath (cwd w) (output_path_in self w) := RasterFile (GrayL pix)]>
                 (files w) /\
    dirs w' = dirs w /\
    trace w' = EWrite (output_path_in self w) (GrayL pix) :: ELoad nifti_path :: trace w.
Proof. apply run_completes. Qed.

Lemma run_completes_for_every_angle_witness :
  exists pix w',
    _run (fun _ => 0) demo_tool "scan.nii.gz" (Some (-45)) demo_world
    = (Return ({[ "image_path" := output_path_in demo_tool demo_world ]},
               success_metadata ramp_image "scan.nii.gz"
                 (output_path_in demo_tool demo_world) (Some (-45))), w') /\
    files w' = <[Posixpath.abspath (cwd demo_world) (output_path_in demo_tool demo_world)
                 := RasterFile (GrayL pix)]> (files demo_world) /\
    dirs w' = dirs demo_world /\
    trace w' = EWrite (output_path_in demo_tool demo_world) (GrayL pix)
               :: ELoad "scan.nii.gz" :: trace demo_world.
Proof.
  apply (run_completes_for_every_angle (fun _ => 0) demo_tool "scan.nii.gz" (-45)
           demo_world ramp_image).
  - vm_compute. reflexivity.
  - discriminate.
  - vm_compute. reflexivity.
  - left. exists 2%nat, 3%nat, 2%nat. split; [reflexivity | cbn; lia].
  - vm_compute. reflexivity.
Defined.

(** On a path that names nothing, the single-slice driver returns the
    failure record and creates nothing: files and directories are as before,
    and the only effect is the attempted load. The path names nothing when,
    normalized, it is neither a file nor a directory; as nibabel expands a
    leading [~] of the name it has rewritten, such names are left out. *)
Theorem run_missing_path_creates_nothing cast (self : NiftiProcessorTool)
    (nifti_path : string) (rotation_angle : option Z) (w : world) :
  files w !! Posixpath.abspath (cwd w) nifti_path = None ->
  Os.is_dir w (Posixpath.abspath (cwd w) nifti_path) = false ->
  Str.startswith (Pathlib.as_posix nifti_path) "~" = false ->
  exists msg w',
    _run cast self nifti_path rotation_angle w
    = (Return ({[ "error" := msg ]}, failure_metadata nifti_path msg), w') /\
    files w' = files w /\ dirs w' = dirs w /\
    trace w' = ELoad nifti_path :: trace w.
Proof.
  intros Hf Hd _.
  destruct (run_on_missing_path cast self nifti_path rotation_angle w Hf Hd)
    as (msg & Hrun).
  exists msg, (log (ELoad nifti_path) w). split; [exact Hrun|]. repeat split.
Qed.

Lemma run_missing_path_creates_nothing_witness :
  exists msg w',
    _run (fun _ => 0) demo_tool "missing.nii/" (Some 90) demo_world
    = (Return ({[ "error" := msg ]}, failure_metadata "missing.nii/" msg), w') /\
    files w' = files demo_world /\ dirs w' = dirs demo_world /\
    trace w' = ELoad "missing.nii/" :: trace demo_world.
Proof.
  apply (run_missing_path_creates_nothing (fun _ => 0) demo_tool "missing.nii/" (Some 90)
           demo_world); vm_compute; reflexivity.
Defined.

(** ** More on the batch converter *)

Lemma rotate_chain_unsupported angle plane data0 :
  angle <> 90 -> angle <> 180 -> angle <> 270 ->
  rotate_chain angle plane data0 = Return data0.
Proof.
  intros H1 H2 H3. unfold rotate_chain.
  apply Z.eqb_neq in H1. apply Z.eqb_neq in H2. apply Z.eqb_neq in H3.
  rewrite H1, H2, H3. reflexivity.
Qed.

Definition unbound_data : base_exception :=
  Exception UnboundLocalError
    "cannot access local variable 'data' where it is not associated with a value".

(** The progress line printed for the first plane. *)
Definition first_progress_line (sh : list nat) : string :=
  match sh with
  | [_; _; nz] => "Saving slice 1/" +:+ Str.of_nat nz +:+ "..."
  | [_; _; nz; nw] =>
      "Saving volume 1/" +:+ Str.of_nat nw +:+ ", slice 1/" +:+ Str.of_nat nz +:+ "..."
  | _ => ""
  end.

(** With an angle other than 90, 180 and 270 the loops fail at their first
    plane, where [data] is read without ever having been assigned; only the
    progress line of that plane was printed. *)
Lemma convert_slices_unsupported_angle imsave_error (a : ndarray float) angle stem od w :
  angle <> 90 -> angle <> 180 -> angle <> 270 ->
  ((exists X Y Z, shape a = [X; Y; Z] /\ (0 < Z)%nat) \/
   (exists X Y Z W, shape a = [X; Y; Z; W] /\ (0 < Z)%nat /\ (0 < W)%nat)) ->
  convert_slices imsave_error a angle stem od w
  = (Raise unbound_data, log (EPrint (first_progress_line (shape a))) w).
Proof.
  intros H1 H2 H3 Hshape. unfold convert_slices.
  destruct Hshape as [(X & Y & Z & Hs & HZ) | (X & Y & Z & W & Hs & HZ & HW)]; rewrite Hs.
  - destruct Z as [|Z]; [lia|]. unfold range. cbn [seq for_each].
    unfold bind at 1. unfold bind at 1. unfold body_3d, bind, lift, print.
    rewrite (rotate_chain_unsupported _ _ _ H1 H2 H3). reflexivity.
  - destruct Z as [|Z]; [lia|]. destruct W as [|W]; [lia|].
    unfold range. cbn [seq for_each].
    unfold bind at 1. unfold bind at 1. unfold bind at 1. unfold body_4d, bind, lift, print.
    rewrite (rotate_chain_unsupported _ _ _ H1 H2 H3). reflexivity.
Qed.

(** What the batch converter has done when it fails on an unsupported
    angle: the directory made, the file loaded, three lines printed. *)
Lemma convert_unbound_trace imsave_error (file_path : string)
    (output_dir_path : option string) (rotation_angle : Z) (w w1 : world)
    (img : nifti_image) :
  recognized file_path = true ->
  files w !! Posixpath.abspath (cwd w) file_path = Some (NiftiFile img) ->
  rotation_angle <> 90 -> rotation_angle <> 180 -> rotation_angle <> 270 ->
  ((exists X Y Z, shape (fdata img) = [X; Y; Z] /\ (0 < Z)%nat) \/
   (exists X Y Z W, shape (fdata img) = [X; Y; Z; W] /\ (0 < Z)%nat /\ (0 < W)%nat)) ->
  Os.makedirs (output_dir_of w file_path output_dir_path) w = (Return tt, w1) ->
  exists w',
    convert_nii_to_png imsave_error file_path output_dir_path rotation_angle w
    = (Raise unbound_data, w') /\
    trace w'
    = EPrint (first_progress_line (shape (fdata img)))
      :: EPrint ("Image dimensions: " +:+ Str.of_nat (length (shape (fdata img))) +:+ "D")
      :: ELoad file_path
      :: EPrint ("Output directory: " +:+ output_dir_of w file_path output_dir_path)
      :: EMakedirs (output_dir_of w file_path output_dir_path)
      :: trace w /\
    written w' = written w /\ files w' = files w /\ dirs w' = dirs w1 /\
    Os.is_dir w' (Posixpath.abspath (cwd w) (output_dir_of w file_path output_dir_path)) = true.
Proof.
  intros Hrec Hfile H1 H2 H3 Hshape Hmk.
  pose proof (path_exists_of_file _ _ _ Hfile Hrec) as Hex.
  destruct (makedirs_Return _ _ _ Hmk) as [Hw1 Hdir].
  assert (Hc1 : cwd w1 = cwd w) by (rewrite Hw1; reflexivity).
  assert (Hf1 : files w1 = files w) by (rewrite Hw1; reflexivity).
  assert (Ht1 : trace w1 = EMakedirs (output_dir_of w file_path output_dir_path) :: trace w)
    by (rewrite Hw1; reflexivity).
  assert (Hwr1 : written w1 = written w).
  { rewrite Hw1.
    apply (written_log_other w (EMakedirs (output_dir_of w file_path output_dir_path))).
    exact I. }
  unfold convert_nii_to_png, bind, os_path_exists, os_path_abspath, ret, print.
  rewrite Hex. cbn [negb]. fold (recognized file_path). rewrite Hrec. cbn [negb].
  fold (stem_of file_path). unfold output_dir_of in *.
  destruct output_dir_path as [o|].
  all: rewrite Hmk; unfold nib_load; cbn [cwd files log];
    rewrite abspath_as_posix, Hc1, Hf1, Hfile.
  all: rewrite (convert_slices_unsupported_angle _ _ _ _ _ _ H1 H2 H3 Hshape).
  all: eexists; split; [reflexivity|].
  all: split; [cbn [trace log]; rewrite Ht1; reflexivity|].
  all: split; [rewrite !written_log_print, (written_log_other _ (ELoad file_path) I),
                 written_log_print; exact Hwr1|].
  all: split; [exact Hf1|].
  all: split; [reflexivity | exact Hdir].
Qed.

Lemma convert_unbound imsave_error (file_path : string)
    (output_dir_path : option string) (rotation_angle : Z) (w w1 : world)
    (img : nifti_image) :
  recognized file_path = true ->
  files w !! Posixpath.abspath (cwd w) file_path = Some (NiftiFile img) ->
  rotation_angle <> 90 -> rotation_angle <> 180 -> rotation_angle <> 270 ->
  ((exists X Y Z, shape (fdata img) = [X; Y; Z] /\ (0 < Z)%nat) \/
   (exists X Y Z W, shape (fdata img) = [X; Y; Z; W] /\ (0 < Z)%nat /\ (0 < W)%nat)) ->
  Os.makedirs (output_dir_of w file_path output_dir_path) w = (Return tt, w1) ->
  exists w',
    convert_nii_to_png imsave_error file_path output_dir_path rotation_angle w
    = (Raise unbound_data, w') /\
    written w' = written w /\ files w' = files w /\ dirs w' = dirs w1 /\
    Os.is_dir w' (Posixpath.abspath (cwd w) (output_dir_of w file_path output_dir_path)) = true.
Proof.
  intros Hrec Hfile H1 H2 H3 Hshape Hmk.
  destruct (convert_unbound_trace imsave_error _ _ _ _ _ _ Hrec Hfile H1 H2 H3 Hshape Hmk)
    as (w' & Hconv & _ & Hrest).
  exists w'. split; [exact Hconv | exact Hrest].
Qed.

(** With a rotation angle other than 90, 180 and 270 and a volume that has
    at least one plane, the batch converter raises [UnboundLocalError] at the
    first plane: the output directory has been made and the file loaded, but
    no plane is written. *)
Theorem convert_unsupported_angle imsave_error (file_path : string)
    (output_dir_path : option string) (rotation_angle : Z) (w w1 : world)
    (img : nifti_image) :
  recognized file_path = true ->
  files w !! Posixpath.abspath (cwd w) file_path = Some (NiftiFile img) ->
  rotation_angle <> 90 -> rotation_angle <> 180 -> rotation_angle <> 270 ->
  ((exists X Y Z, shape (fdata img) = [X; Y; Z] /\ (0 < Z)%nat) \/
   (exists X Y Z W, shape (fdata img) = [X; Y; Z; W] /\ (0 < Z)%nat /\ (0 < W)%nat)) ->
  Os.makedirs (output_dir_of w file_path output_dir_path) w = (Return tt, w1) ->
  exists w',
    convert_nii_to_png imsave_error file_path output_dir_path rotation_angle w
    = (Raise unbound_data, w') /\
    written w' = written w /\ files w' = files w /\ dirs w' = dirs w1 /\
    Os.is_dir w' (Posixpath.abspath (cwd w) (output_dir_of w file_path output_dir_path)) = true.
Proof. apply convert_unbound. Qed.

Lemma convert_unsupported_angle_witness :
  exists w',
    convert_nii_to_png no_render_error "scan.nii.gz" (Some "out") 45 demo_world
    = (Raise unbound_data, w') /\
    written w' = written demo_world /\ files w' = files demo_world /\
    dirs w' = dirs demo_world_scan_dir /\
    Os.is_dir w' (Posixpath.abspath (cwd demo_world)
                    (output_dir_of demo_world "scan.nii.gz" (Some "out"))) = true.
Proof.
  apply (convert_unsupported_angle no_render_error "scan.nii.gz" (Some "out") 45
           demo_world demo_world_scan_dir ramp_image).
  - vm_compute. reflexivity.
  - vm_compute. reflexivity.
  - discriminate.
  - discriminate.
  - discriminate.
  - left. exists 2%nat, 3%nat, 2%nat. split; [reflexivity | lia].
  - vm_compute. reflexivity.
Defined.

(** *** Angles outside the supported set *)






(** *** Nothing is ever removed *)

(** A computation that keeps the working directory, every directory and
    every file, whatever its outcome. *)
Definition keeps_all {A} (m : M A) : Prop :=
  forall w, cwd (m w).2 = cwd w /\ dirs w ⊆ dirs (m w).2 /\ files_kept w (m w).2.

Lemma keeps_all_same {A} (m : M A) :
  (forall w, cwd (m w).2 = cwd w /\ dirs (m w).2 = dirs w /\ files (m w).2 = files w) ->
  keeps_all m.
Proof.
  intros H w. destruct (H w) as (Hc & Hd & Hf). split; [exact Hc|].
  split; [rewrite Hd; reflexivity|].
  intros q. unfold Os.is_file. rewrite Hf. auto.
Qed.

Lemma keeps_all_ret {A} (a : A) : keeps_all (ret a).
Proof. apply keeps_all_same. intros w. auto. Qed.

Lemma keeps_all_raise {A} e : keeps_all (@raise A e).
Proof. apply keeps_all_same. intros w. auto. Qed.

Lemma keeps_all_lift {A} (r : result A) : keeps_all (lift r).
Proof. apply keeps_all_same. intros w. auto. Qed.

Lemma keeps_all_print line : keeps_all (print line).
Proof. apply keeps_all_same. intros w. auto. Qed.

Lemma keeps_all_exists p : keeps_all (os_path_exists p).
Proof. apply keeps_all_same. intros w. auto. Qed.

Lemma keeps_all_abspath p : keeps_all (os_path_abspath p).
Proof. apply keeps_all_same. intros w. auto. Qed.

Lemma keeps_all_nib_load p : keeps_all (nib_load p).
Proof.
  apply keeps_all_same. intros w.
  destruct (nib_load_outcome p w) as (r & -> & _). auto.
Qed.

Lemma keeps_all_bind {A B} (m : M A) (k : A -> M B) :
  keeps_all m -> (forall a, keeps_all (k a)) -> keeps_all (bind m k).
Proof.
  intros Hm Hk w. unfold bind. specialize (Hm w).
  destruct (m w) as [[a|e] w1]; cbn [snd] in *; [|exact Hm].
  destruct Hm as (Hc & Hd & Hf). destruct (Hk a w1) as (Hc2 & Hd2 & Hf2).
  split; [congruence|]. split; [set_solver|].
  exact (files_kept_trans _ _ _ Hf Hf2).
Qed.

Lemma keeps_all_makedirs p : keeps_all (Os.makedirs p).
Proof.
  intros w. unfold Os.makedirs.
  destruct (String.eqb p ""); [cbn; split; [|split]; [reflexivity|reflexivity|intros q; auto]|].
  destruct (Os.is_file w _); [cbn; split; [|split]; [reflexivity|reflexivity|intros q; auto]|].
  destruct (existsb _ _); cbn; (split; [|split]; [reflexivity| |intros q; auto]);
    [reflexivity | set_solver].
Qed.

Lemma keeps_all_write_raster p r : keeps_all (Os.write_raster p r).
Proof.
  intros w. destruct (Os.write_raster p r w) as [[[]|e] w'] eqn:Hw; cbn [snd].
  - apply write_raster_Return in Hw. destruct Hw as [_ ->]. cbn.
    split; [reflexivity|]. split; [reflexivity|].
    intros q. unfold Os.is_file. cbn [files]. intros Hq.
    apply bool_decide_eq_true in Hq. apply bool_decide_eq_true.
    destruct (decide (Posixpath.abspath (cwd w) p = q)) as [<-|Hne].
    + rewrite lookup_insert_eq. eauto.
    + rewrite lookup_insert_ne by exact Hne. exact Hq.
  - apply write_raster_Raise in Hw. subst w'.
    split; [reflexivity|]. split; [reflexivity|]. intros q; auto.
Qed.

Lemma keeps_all_imsave imsave_error fname arr cmap :
  keeps_all (imsave imsave_error fname arr cmap).
Proof.
  unfold imsave. destruct (imsave_error arr) as [[c msg]|];
    [apply keeps_all_raise | apply keeps_all_write_raster].
Qed.

Lemma keeps_all_for_each {X S} (xs : list X) (body : X -> S -> M S) (s : S) :
  (forall x s', keeps_all (body x s')) -> keeps_all (for_each xs body s).
Proof.
  intros Hb. revert s. induction xs as [|x xs IH]; intros s; cbn [for_each].
  - apply keeps_all_ret.
  - apply keeps_all_bind; [apply Hb | exact IH].
Qed.

Ltac keeps_all_steps :=
  repeat first
    [ apply keeps_all_ret | apply keeps_all_raise | apply keeps_all_lift
    | apply keeps_all_print | apply keeps_all_exists | apply keeps_all_abspath
    | apply keeps_all_nib_load | apply keeps_all_makedirs | apply keeps_all_imsave
    | apply keeps_all_write_raster
    | apply keeps_all_for_each; intros
    | apply keeps_all_bind; [|intros] ].

Lemma keeps_all_convert_slices imsave_error a angle stem od :
  keeps_all (convert_slices imsave_error a angle stem od).
Proof.
  unfold convert_slices.
  destruct (shape a) as [|X [|Y [|Z [|W [|V rest]]]]]; try apply keeps_all_ret.
  - unfold body_3d. keeps_all_steps.
  - unfold body_4d. keeps_all_steps.
Qed.

(** Whatever its arguments and however it ends, the batch converter removes
    nothing: the working directory is the same, every directory is still a
    directory and every file still a file. *)
Theorem convert_removes_nothing imsave_error (file_path : string)
    (output_dir_path : option string) (rotation_angle : Z) (w : world) :
  exists r w',
    convert_nii_to_png imsave_error file_path output_dir_path rotation_angle w = (r, w') /\
    cwd w' = cwd w /\ dirs w ⊆ dirs w' /\
    (forall q, Os.is_file w q = true -> Os.is_file w' q = true).
Proof.
  assert (H : keeps_all (convert_nii_to_png imsave_error file_path output_dir_path
                           rotation_angle)).
  { unfold convert_nii_to_png.
    apply keeps_all_bind; [apply keeps_all_exists | intros found].
    destruct (negb found); [apply keeps_all_raise|].
    destruct (negb _); [apply keeps_all_raise|].
    apply keeps_all_bind.
    { destruct output_dir_path; keeps_all_steps. }
    intros od. apply keeps_all_bind; [apply keeps_all_makedirs | intros _].
    apply keeps_all_bind; [apply keeps_all_print | intros _].
    apply keeps_all_bind; [apply keeps_all_nib_load | intros img].
    apply keeps_all_bind; [apply keeps_all_print | intros _].
    apply keeps_all_bind; [apply keeps_all_convert_slices | intros l].
    keeps_all_steps. }
  specialize (H w).
  destruct (convert_nii_to_png imsave_error file_path output_dir_path rotation_angle w)
    as [r w'].
  exists r, w'. split; [reflexivity|]. exact H.
Qed.

(** *** What each written file holds *)

(** The files written so far with what was written, oldest first. *)
Definition write_events (w : world) : list (string * raster) :=
  flat_map (fun ev => match ev with EWrite p r => [(p, r)] | _ => [] end) (rev (trace w)).

(** Slice [k] of a 3-D array, and slice [k] of volume [v] of a 4-D array,
    turned as the single-slice tool turns a plane. *)
Definition rotated_slice_3d (a : ndarray float) (angle : Z) (k : nat)
  : result (ndarray float) :=
  rbind (index_axis2 S754_nan a k) (fun p => _rotate_image p (Some angle)).

Definition rotated_slice_4d (a : ndarray float) (angle : Z) (v k : nat)
  : result (ndarray float) :=
  rbind (index_axis23 S754_nan a k v) (fun p => _rotate_image p (Some angle)).

(** The array of a result, the empty array for an exception. *)
Definition the_plane (r : result (ndarray float)) : ndarray float :=
  match r with Return p => p | Raise _ => mk_ndarray [] [] end.

Definition gray (r : result (ndarray float)) : raster := Colormapped "gray" (the_plane r).

Lemma write_events_log_print w line : write_events (log (EPrint line) w) = write_events w.
Proof. unfold write_events. cbn [trace log rev]. rewrite flat_map_app. cbn. apply app_nil_r. Qed.

Lemma write_events_log_other w ev :
  match ev with EWrite _ _ => False | _ => True end ->
  write_events (log ev w) = write_events w.
Proof.
  intros H. unfold write_events. cbn [trace log rev]. rewrite flat_map_app.
  destruct ev; try contradiction; cbn; apply app_nil_r.
Qed.

Section BatchContents.
Variable imsave_error : ndarray float -> option (exc_class * string).
Hypothesis render_ok : forall arr, imsave_error arr = None.
Variable angle : Z.
Hypothesis angle_supported : angle = 90 \/ angle = 180 \/ angle = 270.
Variable w0 : world.

(** What a step that writes the files [evs], in this order, achieves. *)
Definition stored (evs : list (string * raster)) (l : locals) (w : world)
    (l' : locals) (w' : world) : Prop :=
  after_writes w0 w' /\ write_events w' = write_events w ++ evs /\
  slice_counter l' = (slice_counter l + length evs)%nat.

Lemma rotate_plane_Return (p : ndarray float) X Y :
  shape p = [X; Y] -> exists r, _rotate_image p (Some angle) = Return r.
Proof.
  intros Hs. unfold _rotate_image. rewrite (rot90_quarters _ p X Y _ Hs). eauto.
Qed.

Lemma write_stores w t c :
  after_writes w0 w -> Os.can_write w0 t = true ->
  exists w', Os.write_raster t c w = (Return tt, w') /\ after_writes w0 w' /\
             write_events w' = write_events w ++ [(t, c)].
Proof.
  intros Haft Hcw.
  destruct (write_raster_after w0 w t c Haft Hcw) as (w' & Hw & Ha & _).
  exists w'. split; [exact Hw|]. split; [exact Ha|].
  rewrite (write_raster_can_write _ _ _ (can_write_after _ _ _ Haft Hcw)) in Hw.
  injection Hw as <-. unfold write_events. cbn [trace rev]. rewrite flat_map_app. reflexivity.
Qed.

Lemma body_3d_stores (a : ndarray float) X Y Z stem od total k l w :
  shape a = [X; Y; Z] -> (k < Z)%nat ->
  after_writes w0 w ->
  Os.can_write w0 (Posixpath.join od (name_3d stem k)) = true ->
  is_Return (rotated_slice_3d a angle k) = true /\
  exists l' w',
    body_3d imsave_error a angle stem od total k l w = (Return l', w') /\
    stored [(Posixpath.join od (name_3d stem k), gray (rotated_slice_3d a angle k))] l w l' w'.
Proof.
  intros Hs Hk Haft Hcw.
  destruct (index_axis2_in_range a X Y Z k Hs Hk) as (p & Hp & Hps).
  destruct (rotate_plane_Return p X Y Hps) as (r & Hr).
  unfold rotated_slice_3d, gray. rewrite Hp. cbn [rbind]. rewrite Hr. cbn [the_plane is_Return].
  split; [reflexivity|].
  unfold body_3d, bind, lift, print, ret.
  rewrite Hp, (rotate_chain_rot90 p X Y angle _ Hps angle_supported), Hr.
  cbn [rbind read_data]. unfold imsave. rewrite render_ok.
  match goal with
  | |- context [Os.write_raster ?t ?c ?w1] =>
      destruct (write_stores w1 t c Haft Hcw) as (w' & Hw & Ha & Hev)
  end.
  rewrite Hw. eexists _, w'. split; [reflexivity|].
  split; [exact Ha|]. split; [rewrite Hev, write_events_log_print; reflexivity|].
  cbn. lia.
Qed.

Lemma body_4d_stores (a : ndarray float) X Y Z W stem od tv ts v k l w :
  shape a = [X; Y; Z; W] -> (k < Z)%nat -> (v < W)%nat ->
  after_writes w0 w ->
  Os.can_write w0 (Posixpath.join od (name_4d stem v k)) = true ->
  is_Return (rotated_slice_4d a angle v k) = true /\
  exists l' w',
    body_4d imsave_error a angle stem od tv ts v k l w = (Return l', w') /\
    stored [(Posixpath.join od (name_4d stem v k), gray (rotated_slice_4d a angle v k))]
      l w l' w'.
Proof.
  intros Hs Hk Hv Haft Hcw.
  destruct (index_axis23_in_range a X Y Z W k v Hs Hk Hv) as (p & Hp & Hps).
  destruct (rotate_plane_Return p X Y Hps) as (r & Hr).
  unfold rotated_slice_4d, gray. rewrite Hp. cbn [rbind]. rewrite Hr. cbn [the_plane is_Return].
  split; [reflexivity|].
  unfold body_4d, bind, lift, print, ret.
  rewrite Hp, (rotate_chain_rot90 p X Y angle _ Hps angle_supported), Hr.
  cbn [rbind read_data]. unfold imsave. rewrite render_ok.
  match goal with
  | |- context [Os.write_raster ?t ?c ?w1] =>
      destruct (write_stores w1 t c Haft Hcw) as (w' & Hw & Ha & Hev)
  end.
  rewrite Hw. eexists _, w'. split; [reflexivity|].
  split; [exact Ha|]. split; [rewrite Hev, write_events_log_print; reflexivity|].
  cbn. lia.
Qed.

Lemma for_each_stores {X : Type} (E : X -> list (string * raster))
    (body : X -> locals -> M locals) (ks : list X) :
  (forall k l w, In k ks -> after_writes w0 w ->
     exists l' w', body k l w = (Return l', w') /\ stored (E k) l w l' w') ->
  forall l w, after_writes w0 w ->
  exists l' w', for_each ks body l w = (Return l', w') /\ stored (flat_map E ks) l w l' w'.
Proof.
  induction ks as [|k ks IH]; intros Hbody l w Haft.
  - exists l, w. cbn [for_each flat_map]. split; [reflexivity|].
    split; [exact Haft|]. split; [symmetry; apply app_nil_r | cbn; lia].
  - destruct (Hbody k l w (or_introl eq_refl) Haft) as (l1 & w1 & Hb & Ha1 & Hw1 & Hc1).
    destruct (IH (fun k' l' w' Hin => Hbody k' l' w' (or_intror Hin)) l1 w1 Ha1)
      as (l2 & w2 & Hl & Ha2 & Hw2 & Hc2).
    exists l2, w2. cbn [for_each flat_map]. unfold bind at 1. rewrite Hb, Hl.
    split; [reflexivity|]. split; [exact Ha2|].
    split; [rewrite Hw2, Hw1, <- app_assoc; reflexivity|].
    rewrite Hc2, Hc1, length_app. lia.
Qed.

(** The files of a conversion with what goes into each. *)
Definition contents (od stem : string) (a : ndarray float) : list (string * raster) :=
  match shape a with
  | [_; _; nz] =>
      map (fun s => (Posixpath.join od (name_3d stem s), gray (rotated_slice_3d a angle s)))
        (range nz)
  | [_; _; nz; nw] =>
      flat_map
        (fun v => map (fun s => (Posixpath.join od (name_4d stem v s),
                                 gray (rotated_slice_4d a angle v s)))
                    (range nz))
        (range nw)
  | _ => []
  end.

Lemma contents_targets od stem a : map fst (contents od stem a) = targets od stem (shape a).
Proof.
  unfold contents, targets.
  destruct (shape a) as [|X [|Y [|Z [|W [|V rest]]]]]; try reflexivity.
  - rewrite map_map. reflexivity.
  - rewrite flat_map_concat_map, concat_map, map_map, <- flat_map_concat_map.
    apply flat_map_ext. intros v. rewrite map_map. reflexivity.
Qed.

Lemma convert_slices_stores (a : ndarray float) stem od w :
  after_writes w0 w ->
  (forall t, In t (targets od stem (shape a)) -> Os.can_write w0 t = true) ->
  exists l' w',
    convert_slices imsave_error a angle stem od w = (Return l', w') /\
    stored (contents od stem a) (mk_locals None 0) w l' w'.
Proof.
  intros Haft Hcw. unfold convert_slices, contents.
  destruct (shape a) as [|X [|Y [|Z [|W [|V rest]]]]] eqn:Hs;
    try (eexists _, w; split; [reflexivity|];
         split; [exact Haft|]; split; [symmetry; apply app_nil_r | reflexivity]).
  - cbn [targets] in Hcw. rewrite <- flat_map_singleton.
    destruct (for_each_stores
                (fun s => [(Posixpath.join od (name_3d stem s),
                            gray (rotated_slice_3d a angle s))])
                (body_3d imsave_error a angle stem od Z) (range Z)) with
      (l := mk_locals None 0) (w := w) as (l1 & w1 & Hl & Ha1 & Hw1 & Hc1).
    + intros k l w' Hin Haft'. apply (body_3d_stores a X Y Z); try assumption.
      * apply in_seq in Hin. lia.
      * apply Hcw. apply (in_map (fun s => Posixpath.join od (name_3d stem s))). exact Hin.
    + exact Haft.
    + unfold bind, print, ret. rewrite Hl. eexists _, _. split; [reflexivity|].
      split; [exact Ha1|]. split; [rewrite write_events_log_print; exact Hw1 | exact Hc1].
  - cbn [targets] in Hcw.
    destruct (for_each_stores
                (fun v => map (fun s => (Posixpath.join od (name_4d stem v s),
                                         gray (rotated_slice_4d a angle v s)))
                            (range Z))
                (fun current_volume l =>
                   bind (for_each (range Z)
                           (body_4d imsave_error a angle stem od W Z current_volume) l)
                     (fun l =>
                        bind (print ("Finished converting volume "
                                       +:+ Str.of_nat (current_volume + 1) +:+ "/"
                                       +:+ Str.of_nat W))
                          (fun _ => ret l)))
                (range W)) with (l := mk_locals None 0) (w := w)
      as (l1 & w1 & Hl & Hstored).
    + intros v l w' Hv Haft'. apply in_seq in Hv.
      destruct (for_each_stores
                  (fun s => [(Posixpath.join od (name_4d stem v s),
                              gray (rotated_slice_4d a angle v s))])
                  (body_4d imsave_error a angle stem od W Z v) (range Z)) with
        (l := l) (w := w') as (l2 & w2 & Hl2 & Ha2 & Hw2 & Hc2).
      * intros k l' w'' Hin Haft''. apply (body_4d_stores a X Y Z W); try assumption.
        -- apply in_seq in Hin. lia.
        -- lia.
        -- apply Hcw. apply in_flat_map. exists v. split; [apply in_seq; lia|].
           apply (in_map (fun s => Posixpath.join od (name_4d stem v s))). exact Hin.
      * exact Haft'.
      * rewrite flat_map_singleton in *.
        unfold bind, print, ret. rewrite Hl2. eexists _, _. split; [reflexivity|].
        split; [exact Ha2|]. split; [rewrite write_events_log_print; exact Hw2 | exact Hc2].
    + exact Haft.
    + eexists _, _. split; [exact Hl | exact Hstored].
Qed.
End BatchContents.

Lemma convert_stores imsave_error (file_path : string)
    (output_dir_path : option string) (rotation_angle : Z) (w w1 : world)
    (img : nifti_image) :
  recognized file_path = true ->
  files w !! Posixpath.abspath (cwd w) file_path = Some (NiftiFile img) ->
  rotation_angle = 90 \/ rotation_angle = 180 \/ rotation_angle = 270 ->
  (forall arr, imsave_error arr = None) ->
  Os.makedirs (output_dir_of w file_path output_dir_path) w = (Return tt, w1) ->
  (forall t,
     In t (targets (output_dir_of w file_path output_dir_path) (stem_of file_path)
             (shape (fdata img))) ->
     Os.can_write w1 t = true) ->
  exists w',
    convert_nii_to_png imsave_error file_path output_dir_path rotation_angle w
    = (Return (output_dir_of w file_path output_dir_path), w') /\
    write_events w'
    = write_events w
      ++ contents rotation_angle (output_dir_of w file_path output_dir_path)
           (stem_of file_path) (fdata img) /\
    hd_error (trace w')
    = Some (EPrint ("Successfully converted "
                      +:+ Str.of_nat (length (contents rotation_angle
                                                (output_dir_of w file_path output_dir_path)
                                                (stem_of file_path) (fdata img)))
                      +:+ " slices to PNG")) /\
    (forall X Y Z k, shape (fdata img) = [X; Y; Z] -> (k < Z)%nat ->
       is_Return (rotated_slice_3d (fdata img) rotation_angle k) = true) /\
    (forall X Y Z W v k, shape (fdata img) = [X; Y; Z; W] -> (k < Z)%nat -> (v < W)%nat ->
       is_Return (rotated_slice_4d (fdata img) rotation_angle v k) = true).
Proof.
  intros Hrec Hfile Hangle Hrender Hmk Hcw.
  pose proof (path_exists_of_file _ _ _ Hfile Hrec) as Hex.
  destruct (recognized_not_dir_like _ Hrec) as [Hne Hsl].
  apply String.eqb_neq in Hne.
  destruct (makedirs_Return _ _ _ Hmk) as [Hw1 _].
  assert (Hc1 : cwd w1 = cwd w) by (rewrite Hw1; reflexivity).
  assert (Hf1 : files w1 = files w) by (rewrite Hw1; reflexivity).
  assert (Hwr1 : write_events w1 = write_events w).
  { rewrite Hw1.
    apply (write_events_log_other w
             (EMakedirs (output_dir_of w file_path output_dir_path))).
    exact I. }
  destruct (convert_slices_stores imsave_error Hrender rotation_angle Hangle w1
              (fdata img) (stem_of file_path) (output_dir_of w file_path output_dir_path)
              (log (EPrint ("Image dimensions: "
                              +:+ Str.of_nat (length (shape (fdata img))) +:+ "D"))
                 (log (ELoad file_path)
                    (log (EPrint ("Output directory: "
                                    +:+ output_dir_of w file_path output_dir_path)) w1)))
              (after_writes_refl w1) Hcw)
    as (l' & w3 & Hconv & Ha3 & Hw3 & Hcnt).
  exists (log (EPrint ("Successfully converted " +:+ Str.of_nat (slice_counter l')
                         +:+ " slices to PNG")) w3).
  split; [|split; [|split; [|split]]].
  - unfold convert_nii_to_png, bind, os_path_exists, os_path_abspath, ret, print.
    rewrite Hex. cbn [negb]. fold (recognized file_path). rewrite Hrec. cbn [negb].
    fold (stem_of file_path). unfold output_dir_of in *.
    destruct output_dir_path as [o|];
      rewrite Hmk; unfold nib_load; cbn [cwd files log];
      rewrite abspath_as_posix, Hc1, Hf1, Hfile;
      rewrite Hconv; reflexivity.
  - rewrite write_events_log_print, Hw3.
    rewrite write_events_log_print, (write_events_log_other _ (ELoad file_path) I),
      write_events_log_print, Hwr1. reflexivity.
  - cbn [trace log hd_error]. rewrite Hcnt. reflexivity.
  - intros X Y Z k Hs Hk.
    destruct (index_axis2_in_range (fdata img) X Y Z k Hs Hk) as (p & Hp & Hps).
    destruct (rotate_plane_Return rotation_angle p X Y Hps) as (r & Hr).
    unfold rotated_slice_3d. rewrite Hp. cbn [rbind]. rewrite Hr. reflexivity.
  - intros X Y Z W v k Hs Hk Hv.
    destruct (index_axis23_in_range (fdata img) X Y Z W k v Hs Hk Hv) as (p & Hp & Hps).
    destruct (rotate_plane_Return rotation_angle p X Y Hps) as (r & Hr).
    unfold rotated_slice_4d. rewrite Hp. cbn [rbind]. rewrite Hr. reflexivity.
Qed.

(** A conversion that succeeds puts into file [<stem>_z<k+1>.png] slice [k]
    of the volume, and into [<stem>_vol<v+1>_z<k+1>.png] slice [k] of volume
    [v], each turned exactly as the single-slice tool turns a plane by the
    same angle and rendered with the gray colour map; the count in its last
    line of output is the number of files written. *)
Theorem convert_file_contents imsave_error (file_path : string)
    (output_dir_path : option string) (rotation_angle : Z) (w w1 : world)
    (img : nifti_image) :
  recognized file_path = true ->
  files w !! Posixpath.abspath (cwd w) file_path = Some (NiftiFile img) ->
  rotation_angle = 90 \/ rotation_angle = 180 \/ rotation_angle = 270 ->
  (forall arr, imsave_error arr = None) ->
  Os.makedirs (output_dir_of w file_path output_dir_path) w = (Return tt, w1) ->
  (forall t,
     In t (targets (output_dir_of w file_path output_dir_path) (stem_of file_path)
             (shape (fdata img))) ->
     Os.can_write w1 t = true) ->
  exists w',
    convert_nii_to_png imsave_error file_path output_dir_path rotation_angle w
    = (Return (output_dir_of w file_path output_dir_path), w') /\
    write_events w'
    = write_events w
      ++ contents rotation_angle (output_dir_of w file_path output_dir_path)
           (stem_of file_path) (fdata img) /\
    hd_error (trace w')
    = Some (EPrint ("Successfully converted "
                      +:+ Str.of_nat (length (contents rotation_angle
                                                (output_dir_of w file_path output_dir_path)
                                                (stem_of file_path) (fdata img)))
                      +:+ " slices to PNG")) /\
    (forall X Y Z k, shape (fdata img) = [X; Y; Z] -> (k < Z)%nat ->
       is_Return (rotated_slice_3d (fdata img) rotation_angle k) = true) /\
    (forall X Y Z W v k, shape (fdata img) = [X; Y; Z; W] -> (k < Z)%nat -> (v < W)%nat ->
       is_Return (rotated_slice_4d (fdata img) rotation_angle v k) = true).
Proof. apply convert_stores. Qed.

Lemma convert_file_contents_witness :
  exists w',
    convert_nii_to_png no_render_error "scan.nii.gz" (Some "out") 180 demo_world
    = (Return (output_dir_of demo_world "scan.nii.gz" (Some "out")), w') /\
    write_events w'
    = write_events demo_world
      ++ contents 180 (output_dir_of demo_world "scan.nii.gz" (Some "out"))
           (stem_of "scan.nii.gz") (fdata ramp_image) /\
    hd_error (trace w')
    = Some (EPrint ("Successfully converted "
                      +:+ Str.of_nat (length (contents 180
                                                (output_dir_of demo_world "scan.nii.gz"
                                                   (Some "out"))
                                                (stem_of "scan.nii.gz") (fdata ramp_image)))
                      +:+ " slices to PNG")) /\
    (forall X Y Z k, shape (fdata ramp_image) = [X; Y; Z] -> (k < Z)%nat ->
       is_Return (rotated_slice_3d (fdata ramp_image) 180 k) = true) /\
    (forall X Y Z W v k, shape (fdata ramp_image) = [X; Y; Z; W] ->
       (k < Z)%nat -> (v < W)%nat ->
       is_Return (rotated_slice_4d (fdata ramp_image) 180 v k) = true).
Proof.
  apply (convert_file_contents no_render_error "scan.nii.gz" (Some "out") 180
           demo_world demo_world_scan_dir ramp_image).
  - vm_compute. reflexivity.
  - vm_compute. reflexivity.
  - right. left. reflexivity.
  - intros arr. reflexivity.
  - vm_compute. reflexivity.
  - intros t Ht. vm_compute in Ht.
    destruct Ht as [<-|[<-|[]]]; vm_compute; reflexivity.
Defined.


(** *** File names: stems, digits, distinctness *)

Lemma Forall_last {A} (P : A -> Prop) (l : list A) (d : A) :
  P d -> Forall P l -> P (List.last l d).
Proof.
  intros Hd H. induction H as [|x l Hx Hl IH]; [exact Hd|].
  destruct l as [|y l]; [exact Hx | exact IH].
Qed.

Lemma basename_no_slash p : occurs Str.slash (Posixpath.basename p) = false.
Proof.
  unfold Posixpath.basename.
  apply (Forall_last (fun piece => occurs Str.slash piece = false)); [reflexivity|].
  apply split_on_pieces. left. reflexivity.
Qed.

Lemma stem_free p :
  occurs Str.slash (stem_of p) = false /\ occurs Str.dot (stem_of p) = false.
Proof.
  unfold stem_of. split.
  - pose proof (split_on_pieces Str.dot Str.slash (Posixpath.basename p)
                  (or_intror (basename_no_slash p))) as H.
    destruct (Str.split_on Str.dot (Posixpath.basename p)) as [|h t]; [reflexivity|].
    apply Forall_cons in H. apply H.
  - pose proof (split_on_pieces Str.dot Str.dot (Posixpath.basename p)
                  (or_introl eq_refl)) as H.
    destruct (Str.split_on Str.dot (Posixpath.basename p)) as [|h t]; [reflexivity|].
    apply Forall_cons in H. apply H.
Qed.

Lemma occurs_app c a b : occurs c (a +:+ b) = occurs c a || occurs c b.
Proof.
  induction a as [|x a IH]; [reflexivity|].
  rewrite append_cons. cbn [occurs]. rewrite IH. apply orb_assoc.
Qed.

Definition is_digit (c : ascii) : bool := occurs c "0123456789".

Lemma occurs_digits c d : is_digit c = false -> occurs c (NilEmpty.string_of_uint d) = false.
Proof.
  unfold is_digit. cbn [occurs]. intros H.
  repeat (apply orb_false_elim in H; destruct H as [? H]).
  induction d as [|d IH|d IH|d IH|d IH|d IH|d IH|d IH|d IH|d IH|d IH];
    cbn [NilEmpty.string_of_uint occurs]; [reflexivity|..]; rewrite IH;
    match goal with E : ?x = false |- ?x || false = false => rewrite E; reflexivity end.
Qed.

Lemma occurs_repeat_zero c k : is_digit c = false -> occurs c (Str.repeat_char Str.zero k) = false.
Proof.
  unfold is_digit. cbn [occurs]. intros H. apply orb_false_elim in H. destruct H as [H0 _].
  induction k as [|k IH]; [reflexivity|]. cbn [Str.repeat_char occurs].
  unfold Str.zero at 1. rewrite H0, IH. reflexivity.
Qed.

Lemma append_empty_r s : s +:+ "" = s.
Proof. induction s as [|a s IH]; [reflexivity|]. rewrite append_cons, IH. reflexivity. Qed.

(** On the digits of a number [zfill] only puts zeros in front. *)
Lemma zfill_digits w d :
  exists k, Str.zfill w (NilEmpty.string_of_uint d)
            = Str.repeat_char Str.zero k +:+ NilEmpty.string_of_uint d.
Proof.
  unfold Str.zfill.
  destruct (w <=? String.length (NilEmpty.string_of_uint d))%nat; [exists 0%nat; reflexivity|].
  destruct d; cbn [NilEmpty.string_of_uint];
    try (eexists; reflexivity).
  exists w. symmetry. apply append_empty_r.
Qed.

(** The number a string of digits denotes. *)
Definition digits_value (s : string) : nat :=
  match NilEmpty.uint_of_string s with
  | Some d => Nat.of_uint d
  | None => 0%nat
  end.

Lemma digits_value_of_nat n : digits_value (Str.of_nat n) = n.
Proof.
  unfold digits_value, Str.of_nat. rewrite NilEmpty.usu. apply DecimalNat.Unsigned.of_to.
Qed.

Lemma digits_value_zeros k s :
  digits_value (Str.repeat_char Str.zero k +:+ s) = digits_value s.
Proof.
  induction k as [|k IH]; [reflexivity|].
  cbn [Str.repeat_char]. rewrite append_cons. unfold digits_value in *.
  cbn [NilEmpty.uint_of_string].
  destruct (NilEmpty.uint_of_string (Str.repeat_char Str.zero k +:+ s)) as [d|];
    cbn; exact IH.
Qed.

Lemma zfill_of_nat_inj w n m :
  Str.zfill w (Str.of_nat n) = Str.zfill w (Str.of_nat m) -> n = m.
Proof.
  intros H. apply (f_equal digits_value) in H. unfold Str.of_nat in H.
  destruct (zfill_digits w (Nat.to_uint n)) as [k Hk].
  destruct (zfill_digits w (Nat.to_uint m)) as [k' Hk'].
  rewrite Hk, Hk', !digits_value_zeros in H.
  fold (Str.of_nat n) in H. fold (Str.of_nat m) in H.
  rewrite !digits_value_of_nat in H. exact H.
Qed.

Lemma of_nat_inj n m : Str.of_nat n = Str.of_nat m -> n = m.
Proof.
  intros H. apply (f_equal digits_value) in H. rewrite !digits_value_of_nat in H. exact H.
Qed.

Lemma append_inj_l a x y : a +:+ x = a +:+ y -> x = y.
Proof.
  induction a as [|c a IH]; [auto|]. rewrite !append_cons. intros H.
  injection H as H. apply IH, H.
Qed.

Lemma length_append a b : String.length (a +:+ b) = (String.length a + String.length b)%nat.
Proof.
  induction a as [|c a IH]; [reflexivity|]. rewrite append_cons. cbn [String.length].
  rewrite IH. reflexivity.
Qed.

Lemma append_inj_r b x y : x +:+ b = y +:+ b -> x = y.
Proof.
  revert y. induction x as [|c x IH]; intros [|c' y] H.
  - reflexivity.
  - apply (f_equal String.length) in H. rewrite !length_append in H.
    cbn [String.length] in H. lia.
  - apply (f_equal String.length) in H. rewrite !length_append in H.
    cbn [String.length] in H. lia.
  - rewrite !append_cons in H. injection H as -> H. f_equal. apply IH, H.
Qed.

(** Two strings free of [c], each followed by [c], are told apart there. *)
Lemma split_at_char c d1 r1 d2 r2 :
  occurs c d1 = false -> occurs c d2 = false ->
  d1 +:+ String c r1 = d2 +:+ String c r2 -> d1 = d2 /\ r1 = r2.
Proof.
  revert d2. induction d1 as [|a d1 IH]; intros [|b d2] H1 H2 H;
    rewrite ?append_cons in H; change ("" +:+ ?x) with x in H.
  - injection H as ->. auto.
  - injection H as <- _. cbn [occurs] in H2. rewrite Ascii.eqb_refl in H2. discriminate.
  - injection H as -> _. cbn [occurs] in H1. rewrite Ascii.eqb_refl in H1. discriminate.
  - injection H as -> H. cbn [occurs] in H1, H2.
    apply orb_false_elim in H1. apply orb_false_elim in H2.
    destruct (IH d2 (proj2 H1) (proj2 H2) H) as [-> ->]. auto.
Qed.

Lemma name_3d_inj stem s s' : name_3d stem s = name_3d stem s' -> s = s'.
Proof.
  unfold name_3d. intros H.
  apply append_inj_l, append_inj_l, append_inj_r, zfill_of_nat_inj in H. lia.
Qed.

Lemma name_4d_inj stem v s v' s' :
  name_4d stem v s = name_4d stem v' s' -> v = v' /\ s = s'.
Proof.
  unfold name_4d. intros H. apply append_inj_l, append_inj_l in H.
  change ("_z" +:+ ?x) with (String "_" (String "z" x)) in H.
  apply split_at_char in H; try (apply occurs_digits; reflexivity).
  destruct H as [Hv Hs]. apply of_nat_inj in Hv.
  injection Hs as Hs. apply append_inj_r, zfill_of_nat_inj in Hs. lia.
Qed.

Lemma no_slash_not_absolute n : occurs Str.slash n = false -> Str.startswith n "/" = false.
Proof.
  unfold Str.startswith. destruct n as [|b n]; [reflexivity|].
  cbn [occurs String.prefix]. intros H. apply orb_false_elim in H. destruct H as [H _].
  destruct (ascii_dec "/" b) as [<-|]; [|reflexivity].
  unfold Str.slash in H. rewrite Ascii.eqb_refl in H. discriminate.
Qed.

Lemma join_inj od n n' :
  occurs Str.slash n = false -> occurs Str.slash n' = false ->
  Posixpath.join od n = Posixpath.join od n' -> n = n'.
Proof.
  intros H H'. unfold Posixpath.join.
  rewrite (no_slash_not_absolute _ H), (no_slash_not_absolute _ H').
  destruct (String.eqb od "" || Str.endswith od "/")%bool; intros E.
  - apply append_inj_l in E. exact E.
  - apply append_inj_l, append_inj_l in E. exact E.
Qed.

Lemma zfill_of_nat_free c w n : is_digit c = false -> occurs c (Str.zfill w (Str.of_nat n)) = false.
Proof.
  intros Hc. unfold Str.of_nat. destruct (zfill_digits w (Nat.to_uint n)) as [k ->].
  rewrite occurs_app, occurs_repeat_zero, occurs_digits by exact Hc. reflexivity.
Qed.

Lemma name_3d_no_slash p s : occurs Str.slash (name_3d (stem_of p) s) = false.
Proof.
  unfold name_3d. rewrite !occurs_app, (proj1 (stem_free p)), zfill_of_nat_free by reflexivity.
  reflexivity.
Qed.

Lemma name_4d_no_slash p v s : occurs Str.slash (name_4d (stem_of p) v s) = false.
Proof.
  unfold name_4d. rewrite !occurs_app, (proj1 (stem_free p)), zfill_of_nat_free by reflexivity.
  unfold Str.of_nat. rewrite occurs_digits by reflexivity. reflexivity.
Qed.

(** The stem of a path, the [fname_noext] of the converter, holds neither a
    slash nor a dot, and no file name built from it holds a slash: the files
    lie directly in the output directory. *)
Theorem stem_has_no_slash_no_dot (file_path : string) :
  occurs Str.slash (stem_of file_path) = false /\
  occurs Str.dot (stem_of file_path) = false /\
  (forall s, occurs Str.slash (name_3d (stem_of file_path) s) = false) /\
  (forall v s, occurs Str.slash (name_4d (stem_of file_path) v s) = false).
Proof.
  split; [apply stem_free|]. split; [apply stem_free|].
  split; [apply name_3d_no_slash | apply name_4d_no_slash].
Qed.

Lemma NoDup_flat_map_pairs {V S T : Type} (g : V -> S -> T) (lv : list V) (ls : list S) :
  (forall v s v' s', g v s = g v' s' -> v = v' /\ s = s') ->
  NoDup lv -> NoDup ls -> NoDup (flat_map (fun v => map (g v) ls) lv).
Proof.
  intros Hg Hv Hs. induction Hv as [|v lv Hnin Hv IH]; [constructor|].
  cbn [flat_map]. apply NoDup_app. split; [|split].
  - apply NoDup_fmap_2_strong; [|exact Hs]. intros s s' _ _ E. apply Hg in E. apply E.
  - intros t Ht Ht'. apply list_elem_of_In in Ht, Ht'.
    apply in_map_iff in Ht. destruct Ht as (s & <- & _).
    apply in_flat_map in Ht'. destruct Ht' as (v' & Hv' & Ht').
    apply in_map_iff in Ht'. destruct Ht' as (s' & E & _).
    apply Hg in E. destruct E as [-> _]. apply Hnin. apply list_elem_of_In. exact Hv'.
  - exact IH.
Qed.

(** No two planes of a conversion go to the same path: the file names of the
    slices, and of the slices of the volumes, are pairwise different, so a
    3-D volume of depth Z gives Z files and a 4-D one Z * W. *)
Theorem targets_distinct (output_dir file_path : string) (sh : list nat) :
  NoDup (targets output_dir (stem_of file_path) sh).
Proof.
  unfold targets. destruct sh as [|X [|Y [|Z [|W [|V rest]]]]]; try constructor.
  - apply NoDup_fmap_2_strong; [|apply NoDup_seq].
    intros s s' _ _ E. apply join_inj in E; try apply name_3d_no_slash.
    apply name_3d_inj in E. exact E.
  - apply (NoDup_flat_map_pairs
             (fun v s => Posixpath.join output_dir (name_4d (stem_of file_path) v s)));
      try apply NoDup_seq.
    intros v s v' s' E. apply join_inj in E; try apply name_4d_no_slash.
    apply name_4d_inj in E. exact E.
Qed.

(** *** A volume without planes *)

(** [w] after the lines [lines] were printed, the last one first. *)
Definition after_prints (lines : list string) (w : world) : world :=
  fold_right (fun line => log (EPrint line)) w lines.

Lemma after_prints_fields lines w :
  cwd (after_prints lines w) = cwd w /\ dirs (after_prints lines w) = dirs w /\
  files (after_prints lines w) = files w /\ written (after_prints lines w) = written w.
Proof.
  induction lines as [|line lines IH]; [auto|].
  cbn [after_prints fold_right]. fold (after_prints lines w).
  rewrite written_log_print. exact IH.
Qed.

Lemma for_each_empty_volumes {S : Type} (body : nat -> nat -> S -> M S)
    (line : nat -> string) (n a : nat) (l : S) (w : world) :
  exists lines,
    for_each (seq a n)
      (fun current_volume l =>
         bind (for_each [] (body current_volume) l)
           (fun l => bind (print (line current_volume)) (fun _ => ret l)))
      l w
    = (Return l, after_prints lines w).
Proof.
  revert a w. induction n as [|n IH]; intros a w.
  - exists []. reflexivity.
  - destruct (IH (Datatypes.S a) (log (EPrint (line a)) w)) as (lines & Hl).
    exists (lines ++ [line a]). unfold after_prints. rewrite fold_right_app.
    cbn [fold_right]. fold (after_prints lines (log (EPrint (line a)) w)).
    rewrite <- Hl. reflexivity.
Qed.

(** Without a plane to convert the loops assign nothing and only print. *)
Lemma convert_slices_nothing imsave_error (a : ndarray float) angle stem od w :
  targets od stem (shape a) = [] ->
  exists lines,
    convert_slices imsave_error a angle stem od w
    = (Return (mk_locals None 0), after_prints lines w).
Proof.
  unfold convert_slices, targets.
  destruct (shape a) as [|X [|Y [|Z [|W [|V rest]]]]]; intros H;
    try (exists []; reflexivity).
  - destruct Z as [|Z]; [|discriminate].
    exists ["Finished converting 3D image"]. reflexivity.
  - destruct Z as [|Z].
    + apply for_each_empty_volumes.
    + destruct W as [|W]; [|discriminate]. exists []. reflexivity.
Qed.

Lemma convert_nothing imsave_error (file_path : string)
    (output_dir_path : option string) (rotation_angle : Z) (w w1 : world)
    (img : nifti_image) :
  recognized file_path = true ->
  files w !! Posixpath.abspath (cwd w) file_path = Some (NiftiFile img) ->
  targets (output_dir_of w file_path output_dir_path) (stem_of file_path)
    (shape (fdata img)) = [] ->
  Os.makedirs (output_dir_of w file_path output_dir_path) w = (Return tt, w1) ->
  exists w',
    convert_nii_to_png imsave_error file_path output_dir_path rotation_angle w
    = (Return (output_dir_of w file_path output_dir_path), w') /\
    written w' = written w /\ files w' = files w /\ dirs w' = dirs w1 /\
    hd_error (trace w') = Some (EPrint "Successfully converted 0 slices to PNG").
Proof.
  intros Hrec Hfile Hnone Hmk.
  pose proof (path_exists_of_file _ _ _ Hfile Hrec) as Hex.
  destruct (recognized_not_dir_like _ Hrec) as [Hne Hsl].
  apply String.eqb_neq in Hne.
  destruct (makedirs_Return _ _ _ Hmk) as [Hw1 _].
  assert (Hc1 : cwd w1 = cwd w) by (rewrite Hw1; reflexivity).
  assert (Hf1 : files w1 = files w) by (rewrite Hw1; reflexivity).
  assert (Hwr1 : written w1 = written w).
  { rewrite Hw1.
    apply (written_log_other w (EMakedirs (output_dir_of w file_path output_dir_path))).
    exact I. }
  unfold convert_nii_to_png, bind, os_path_exists, os_path_abspath, ret, print.
  rewrite Hex. cbn [negb]. fold (recognized file_path). rewrite Hrec. cbn [negb].
  fold (stem_of file_path). unfold output_dir_of in *.
  destruct output_dir_path as [o|].
  all: rewrite Hmk; unfold nib_load; cbn [cwd files log];
    rewrite abspath_as_posix, Hc1, Hf1, Hfile.
  all: match goal with
       | |- context [convert_slices ?ie ?a ?ang ?st ?od ?w0] =>
           destruct (convert_slices_nothing ie a ang st od w0 Hnone) as (lines & Hconv);
             rewrite Hconv;
             destruct (after_prints_fields lines w0) as (_ & Hd & Hf & Hwr)
       end.
  all: eexists; split; [reflexivity|].
  all: split; [rewrite written_log_print, Hwr, written_log_print,
                 (written_log_other _ (ELoad file_path) I), written_log_print; exact Hwr1|].
  all: split; [cbn [files log]; rewrite Hf; exact Hf1|].
  all: split; [cbn [dirs log]; rewrite Hd; reflexivity|].
  all: reflexivity.
Qed.

(** A file whose array has no plane to convert (fewer than three or more than
    four dimensions, or a third or fourth dimension of length 0) is converted
    without an error, whatever the rotation angle, supported or not: the
    output directory is made, nothing is written, the last line printed
    counts 0 slices and the directory is returned. *)
Theorem convert_nothing_to_convert imsave_error (file_path : string)
    (output_dir_path : option string) (rotation_angle : Z) (w w1 : world)
    (img : nifti_image) :
  recognized file_path = true ->
  files w !! Posixpath.abspath (cwd w) file_path = Some (NiftiFile img) ->
  targets (output_dir_of w file_path output_dir_path) (stem_of file_path)
    (shape (fdata img)) = [] ->
  Os.makedirs (output_dir_of w file_path output_dir_path) w = (Return tt, w1) ->
  exists w',
    convert_nii_to_png imsave_error file_path output_dir_path rotation_angle w
    = (Return (output_dir_of w file_path output_dir_path), w') /\
    written w' = written w /\ files w' = files w /\ dirs w' = dirs w1 /\
    hd_error (trace w') = Some (EPrint "Successfully converted 0 slices to PNG").
Proof. apply convert_nothing. Qed.

(** A world with a two-dimensional image. *)
Definition plane_world : world :=
  mk_world "/data" {[ "/data" ]}
    {[ "/data/plane.nii" := NiftiFile (mk_nifti sample_plane identity_affine []) ]}
    (fun n => "9f86d081884c7d659a2feaa0c55ad015")
    0 [].

Definition plane_world_dir : world :=
  (Os.makedirs (output_dir_of plane_world "plane.nii" None) plane_world).2.

Lemma convert_nothing_to_convert_witness :
  exists w',
    convert_nii_to_png no_render_error "plane.nii" None 45 plane_world
    = (Return (output_dir_of plane_world "plane.nii" None), w') /\
    written w' = written plane_world /\ files w' = files plane_world /\
    dirs w' = dirs plane_world_dir /\
    hd_error (trace w') = Some (EPrint "Successfully converted 0 slices to PNG").
Proof.
  apply (convert_nothing_to_convert no_render_error "plane.nii" None 45 plane_world
           plane_world_dir (mk_nifti sample_plane identity_affine [])).
  - vm_compute. reflexivity.
  - vm_compute. reflexivity.
  - vm_compute. reflexivity.
  - vm_compute. reflexivity.
Defined.

(** *** The command line *)

Lemma try_except_Return {A} classes (body : M A) handler w a w' :
  body w = (Return a, w') -> try_except classes body handler w = (Return a, w').
Proof. unfold try_except. intros ->. reflexivity. Qed.

Lemma try_except_Raise {A} classes (body : M A) handler w c msg w' :
  body w = (Raise (Exception c msg), w') ->
  try_except classes body handler w
  = if existsb (exc_class_eqb c) classes then handler c msg w'
    else (Raise (Exception c msg), w').
Proof. unfold try_except. intros ->. reflexivity. Qed.

(** A missing input file and an input file without the suffix [.nii] or
    [.nii.gz] end the command with exit status 1 after one line
    [Error: <message>]; nothing else is printed, made or written. *)
Theorem cli_reports_rejected_input imsave_error (args : cli_args) (w : world) :
  (Os.path_exists w (input_file args) = false ->
   cli_main imsave_error args w
   = (Raise (SystemExit 1),
      log (EPrint ("Error: Input file not found: " +:+ input_file args)) w)) /\
  (Os.path_exists w (input_file args) = true -> recognized (input_file args) = false ->
   cli_main imsave_error args w
   = (Raise (SystemExit 1),
      log (EPrint ("Error: Input file must be a NIfTI file (.nii or .nii.gz): "
                     +:+ input_file args)) w)).
Proof.
  unfold cli_main, try_except, convert_nii_to_png, bind, os_path_exists, recognized. split.
  - intros ->. reflexivity.
  - intros -> ->. reflexivity.
Qed.

Lemma cli_reports_rejected_input_witness :
  cli_main no_render_error (mk_cli_args "missing.nii" None 90) demo_world
  = (Raise (SystemExit 1),
     log (EPrint "Error: Input file not found: missing.nii") demo_world) /\
  cli_main no_render_error (mk_cli_args "notes.txt" None 90) demo_world
  = (Raise (SystemExit 1),
     log (EPrint "Error: Input file must be a NIfTI file (.nii or .nii.gz): notes.txt")
       demo_world).
Proof.
  split.
  - apply (cli_reports_rejected_input no_render_error (mk_cli_args "missing.nii" None 90)).
    vm_compute. reflexivity.
  - apply (cli_reports_rejected_input no_render_error (mk_cli_args "notes.txt" None 90));
      vm_compute; reflexivity.
Defined.

Lemma convert_decode_error imsave_error (file_path : string)
    (output_dir_path : option string) (rotation_angle : Z) (w w1 : world)
    (c : exc_class) (msg : string) :
  recognized file_path = true ->
  files w !! Posixpath.abspath (cwd w) file_path = Some (BadFile c msg) ->
  Os.makedirs (output_dir_of w file_path output_dir_path) w = (Return tt, w1) ->
  convert_nii_to_png imsave_error file_path output_dir_path rotation_angle w
  = (Raise (Exception c msg),
     log (ELoad file_path)
       (log (EPrint ("Output directory: " +:+ output_dir_of w file_path output_dir_path)) w1)).
Proof.
  intros Hrec Hfile Hmk.
  pose proof (path_exists_of_file _ _ _ Hfile Hrec) as Hex.
  destruct (makedirs_Return _ _ _ Hmk) as [Hw1 Hdir].
  unfold convert_nii_to_png, bind, os_path_exists, os_path_abspath, ret, print.
  rewrite Hex. cbn [negb]. fold (recognized file_path). rewrite Hrec. cbn [negb].
  fold (stem_of file_path).
  destruct output_dir_path as [o|]; unfold output_dir_of in *.
  all: rewrite Hmk; unfold nib_load; subst w1; cbn [cwd files log];
    rewrite abspath_as_posix, Hfile; reflexivity.
Qed.

(** Whether the command reports an error of class [c] itself. *)
Definition reported (c : exc_class) : bool :=
  match c with
  | FileNotFoundError | ValueError => true
  | _ => false
  end.

(** When the input file does not decode, the command reports the error of
    the load and exits with status 1 only if that error is a
    [FileNotFoundError] or a [ValueError]; an error of any other class, as
    nibabel's [ImageFileError], leaves the command uncaught, with no line
    [Error: ...]. Either way the output directory made before the load is
    left behind. *)
Theorem cli_decode_error imsave_error (args : cli_args) (w w1 : world)
    (c : exc_class) (msg : string) :
  recognized (input_file args) = true ->
  files w !! Posixpath.abspath (cwd w) (input_file args) = Some (BadFile c msg) ->
  Os.makedirs (output_dir_of w (input_file args) (output_dir_path args)) w = (Return tt, w1) ->
  exists w',
    cli_main imsave_error args w
    = (if reported c then Raise (SystemExit 1) else Raise (Exception c msg), w') /\
    hd_error (trace w')
    = Some (if reported c then EPrint ("Error: " +:+ msg) else ELoad (input_file args)) /\
    files w' = files w /\
    Os.is_dir w' (Posixpath.abspath (cwd w)
                    (output_dir_of w (input_file args) (output_dir_path args))) = true.
Proof.
  intros Hrec Hfile Hmk.
  pose proof (convert_decode_error imsave_error _ _ (rotation_angle args) _ _ _ _
                Hrec Hfile Hmk) as Hconv.
  destruct (makedirs_Return _ _ _ Hmk) as [Hw1 Hdir].
  assert (Hf1 : files w1 = files w) by (rewrite Hw1; reflexivity).
  unfold cli_main, try_except, bind at 1. rewrite Hconv.
  destruct c; cbn [existsb exc_class_eqb orb reported];
    eexists; (split; [reflexivity|]); (split; [reflexivity|]); (split; [exact Hf1|]);
    exact Hdir.
Qed.

Lemma cli_decode_error_witness :
  exists w',
    cli_main no_render_error (mk_cli_args "broken.nii" None 90) demo_world
    = (Raise (Exception ImageFileError "File /data/broken.nii is not a nifti1 image"), w') /\
    hd_error (trace w') = Some (ELoad "broken.nii") /\
    files w' = files demo_world /\
    Os.is_dir w' (Posixpath.abspath (cwd demo_world)
                    (output_dir_of demo_world "broken.nii" None)) = true.
Proof.
  apply (cli_decode_error no_render_error (mk_cli_args "broken.nii" None 90)
           demo_world demo_world_broken_dir ImageFileError
           "File /data/broken.nii is not a nifti1 image");
    vm_compute; reflexivity.
Defined.

(** A rotation angle other than 90, 180 and 270, which the argument parser
    accepts as any other integer, is not reported by the command: for a
    volume with at least one plane the [UnboundLocalError] of the converter
    passes the [except] clause, so that the handler does not run: no line
    [Error: ...] is printed and [exit(1)] is not called. The last line
    printed is the progress line of the first plane; the output directory
    was made and no file written. *)
Theorem cli_unsupported_angle_uncaught imsave_error (args : cli_args) (w w1 : world)
    (img : nifti_image) :
  recognized (input_file args) = true ->
  files w !! Posixpath.abspath (cwd w) (input_file args) = Some (NiftiFile img) ->
  rotation_angle args <> 90 -> rotation_angle args <> 180 -> rotation_angle args <> 270 ->
  ((exists X Y Z, shape (fdata img) = [X; Y; Z] /\ (0 < Z)%nat) \/
   (exists X Y Z W, shape (fdata img) = [X; Y; Z; W] /\ (0 < Z)%nat /\ (0 < W)%nat)) ->
  Os.makedirs (output_dir_of w (input_file args) (output_dir_path args)) w = (Return tt, w1) ->
  exists w',
    cli_main imsave_error args w = (Raise unbound_data, w') /\
    trace w'
    = EPrint (first_progress_line (shape (fdata img)))
      :: EPrint ("Image dimensions: " +:+ Str.of_nat (length (shape (fdata img))) +:+ "D")
      :: ELoad (input_file args)
      :: EPrint ("Output directory: "
                   +:+ output_dir_of w (input_file args) (output_dir_path args))
      :: EMakedirs (output_dir_of w (input_file args) (output_dir_path args))
      :: trace w /\
    written w' = written w /\ files w' = files w /\ dirs w' = dirs w1 /\
    Os.is_dir w' (Posixpath.abspath (cwd w)
                    (output_dir_of w (input_file args) (output_dir_path args))) = true.
Proof.
  intros Hrec Hfile H1 H2 H3 Hshape Hmk.
  destruct (convert_unbound_trace imsave_error _ _ _ _ _ _ Hrec Hfile H1 H2 H3 Hshape Hmk)
    as (w' & Hconv & Hrest).
  exists w'. split; [|exact Hrest].
  unfold cli_main, try_except, bind at 1. rewrite Hconv. reflexivity.
Qed.

Lemma cli_unsupported_angle_uncaught_witness :
  exists w',
    cli_main no_render_error (mk_cli_args "scan.nii.gz" (Some "out") 45) demo_world
    = (Raise unbound_data, w') /\
    trace w'
    = [EPrint "Saving slice 1/2..."; EPrint "Image dimensions: 3D"; ELoad "scan.nii.gz";
       EPrint "Output directory: /data/out/scan"; EMakedirs "/data/out/scan"] /\
    written w' = written demo_world /\ files w' = files demo_world /\
    dirs w' = dirs demo_world_scan_dir /\
    Os.is_dir w' (Posixpath.abspath (cwd demo_world)
                    (output_dir_of demo_world "scan.nii.gz" (Some "out"))) = true.
Proof.
  apply (cli_unsupported_angle_uncaught no_render_error
           (mk_cli_args "scan.nii.gz" (Some "out") 45)
           demo_world demo_world_scan_dir ramp_image).
  - vm_compute. reflexivity.
  - vm_compute. reflexivity.
  - discriminate.
  - discriminate.
  - discriminate.
  - left. exists 2%nat, 3%nat, 2%nat. split; [reflexivity | lia].
  - vm_compute. reflexivity.
Defined.

(** When the conversion succeeds the command returns normally, its last line
    of output [PNG files saved to: <output directory>], after the converter
    wrote every plane. *)
Theorem cli_success imsave_error (args : cli_args) (w w1 : world) (img : nifti_image) :
  recognized (input_file args) = true ->
  files w !! Posixpath.abspath (cwd w) (input_file args) = Some (NiftiFile img) ->
  rotation_angle args = 90 \/ rotation_angle args = 180 \/ rotation_angle args = 270 ->
  (forall arr, imsave_error arr = None) ->
  Os.makedirs (output_dir_of w (input_file args) (output_dir_path args)) w = (Return tt, w1) ->
  (forall t,
     In t (targets (output_dir_of w (input_file args) (output_dir_path args))
             (stem_of (input_file args)) (shape (fdata img))) ->
     Os.can_write w1 t = true) ->
  exists w',
    cli_main imsave_error args w = (Return tt, w') /\
    write_events w'
    = write_events w
      ++ contents (rotation_angle args)
           (output_dir_of w (input_file args) (output_dir_path args))
           (stem_of (input_file args)) (fdata img) /\
    hd_error (trace w')
    = Some (EPrint ("PNG files saved to: "
                      +:+ output_dir_of w (input_file args) (output_dir_path args))).
Proof.
  intros Hrec Hfile Hangle Hrender Hmk Hcw.
  destruct (convert_stores imsave_error _ _ _ _ _ _ Hrec Hfile Hangle Hrender Hmk Hcw)
    as (w' & Hconv & Hw & _).
  eexists. split; [|split].
  - unfold cli_main, try_except, bind at 1. rewrite Hconv. reflexivity.
  - rewrite write_events_log_print. exact Hw.
  - reflexivity.
Qed.

Lemma cli_success_witness :
  exists w',
    cli_main no_render_error (mk_cli_args "scan.nii.gz" (Some "out") 180) demo_world
    = (Return tt, w') /\
    write_events w'
    = write_events demo_world
      ++ contents 180 (output_dir_of demo_world "scan.nii.gz" (Some "out"))
           (stem_of "scan.nii.gz") (fdata ramp_image) /\
    hd_error (trace w')
    = Some (EPrint ("PNG files saved to: "
                      +:+ output_dir_of demo_world "scan.nii.gz" (Some "out"))).
Proof.
  apply (cli_success no_render_error (mk_cli_args "scan.nii.gz" (Some "out") 180)
           demo_world demo_world_scan_dir ramp_image).
  - vm_compute. reflexivity.
  - vm_compute. reflexivity.
  - right. left. reflexivity.
  - reflexivity.
  - vm_compute. reflexivity.
  - intros t Ht. vm_compute in Ht.
    repeat (destruct Ht as [<- | Ht]; [vm_compute; reflexivity|]). contradiction.
Defined.
